(** * NewsStation: the aggregation-and-caching pipeline

    A shallow embedding of [app/services/news_service.py], of the scraper
    registry [app/scrapers/__init__.py], of the identifier scheme of the
    three scrapers and of the data model [app/models/news.py], followed by
    the properties of the feed, article and content operations.

    Conventions of the embedding:
    - Python [int] is [Z]; a naive [datetime] is a [Z] (microseconds);
    - [str] is [string], held as its UTF-8 encoding; a [dict] iterated
      in insertion order is an association list;
    - an [async def] is a computation in the monad [M] over the [World]
      (the two module-level caches, the clocks with the lags to come and
      the trace of scraper calls); a raised exception is the [Raise]
      outcome. *)

From Stdlib Require Import ZArith List String Ascii Bool Lia.
From Stdlib Require Import Sorting.Sorted Sorting.Permutation.
From Stdlib Require Import Numbers.DecimalString Numbers.DecimalZ.
Import ListNotations.

Local Open Scope string_scope.
Local Open Scope list_scope.
Local Open Scope Z_scope.

(** String concatenation ([+] on [str], and the pieces of an f-string). *)
Infix "+++" := String.append (right associativity, at level 60).

(* ===================================================================== *)
(** * Python built-ins used by the service *)
(* ===================================================================== *)

(** [str(n)] for an [int]. *)
Definition str_of_int (n : Z) : string :=
  NilEmpty.string_of_int (Z.to_int n).

(** [c in s] for a one-character string [c]. *)
Fixpoint contains_char (c : ascii) (s : string) : bool :=
  match s with
  | EmptyString => false
  | String d s' => if Ascii.eqb d c then true else contains_char c s'
  end.

(** [s.split(c, 1)]: the text before the first [c] and the text after it;
    the whole of [s] and nothing when [c] does not occur. *)
Fixpoint split_first (c : ascii) (s : string) : string * option string :=
  match s with
  | EmptyString => (EmptyString, None)
  | String d s' =>
      if Ascii.eqb d c then (EmptyString, Some s')
      else let (h, t) := split_first c s' in (String d h, t)
  end.

(** [s.startswith(p)]. *)
Definition startswith (s p : string) : bool := String.prefix p s.

Definition dash : ascii := "-"%char.

(** [len(s)] for a [str] held as its UTF-8 encoding: the number of its
    characters, that is of the bytes that do not continue a character
    (those that are not of the form [10xxxxxx]). *)
Definition continues_character (c : ascii) : bool :=
  match c with
  | Ascii _ _ _ _ _ _ b6 b7 => b7 && negb b6
  end.

Fixpoint py_len (s : string) : nat :=
  match s with
  | EmptyString => 0%nat
  | String c s' =>
      ((if continues_character c then 0 else 1) + py_len s')%nat
  end.

(** Normalisation of one bound of a slice over a sequence of length [len]
    (negative bounds count from the end, all bounds are clamped). *)
Definition slice_index (len i : Z) : Z :=
  if i <? 0 then Z.max 0 (i + len) else Z.min i len.

(** [l[start:stop]]. *)
Definition py_slice {A : Type} (l : list A) (start stop : Z) : list A :=
  let len := Z.of_nat (List.length l) in
  let lo := slice_index len start in
  let hi := slice_index len stop in
  firstn (Z.to_nat (hi - lo)) (skipn (Z.to_nat lo) l).

(** [l[:stop]]. *)
Definition py_slice_to {A : Type} (l : list A) (stop : Z) : list A :=
  py_slice l 0 stop.

(** [l.sort(key=key, reverse=True)]: the stable sort by decreasing key.
    It is written as an insertion sort; [stable_sort_unique] below shows
    that every stable descending sort returns the same list. *)
Section Sort.
Context {A : Type} (key : A -> Z).

Fixpoint insert_desc (x : A) (l : list A) : list A :=
  match l with
  | [] => [x]
  | y :: l' => if key x <? key y then y :: insert_desc x l' else x :: l
  end.

Fixpoint sort_desc (l : list A) : list A :=
  match l with
  | [] => []
  | x :: l' => insert_desc x (sort_desc l')
  end.

(** The elements of [l] whose key is [k], in the order of [l]. *)
Definition with_key (k : Z) (l : list A) : list A :=
  filter (fun a => key a =? k) l.

(** [a] may stand before [b] in a list sorted by decreasing key. *)
Definition desc (a b : A) : Prop := key b <= key a.

End Sort.

(* ===================================================================== *)
(** * Exceptions and outcomes *)
(* ===================================================================== *)

(** An instance of (a subclass of) [Exception], with its message. Signals
    that are not [Exception]s (task cancellation, interpreter exit) are
    outside the model. *)
Inductive PyException : Type :=
| Exception (msg : string)
| KeyError (key : string)
| ValueError (msg : string)
| TypeError (msg : string)
| ZeroDivisionError (msg : string).

Inductive Outcome (A : Type) : Type :=
| Ok (a : A)
| Raise (e : PyException).
Arguments Ok {A} a.
Arguments Raise {A} e.

(* ===================================================================== *)
(** * Data model ([app/models/news.py]) *)
(* ===================================================================== *)

Record NewsSource : Type := mkNewsSource {
  ns_id : string;
  ns_name : string;
  ns_url : string;
  ns_category : option string
}.

Record NewsArticle : Type := mkNewsArticle {
  id : string;
  title : string;
  url : string;
  content : option string;
  published_at : Z;
  source : NewsSource;
  category : string;
  tags : list string;
  comments_count : option Z;
  likes_count : option Z
}.

Record NewsFeed : Type := mkNewsFeed {
  articles : list NewsArticle;
  feed_category : string;
  feed_page : Z;
  feed_limit : Z;
  total : Z;
  last_updated : Z
}.

(* ===================================================================== *)
(** * Settings ([app/config/settings.py]) *)
(* ===================================================================== *)

Record Settings : Type := mkSettings {
  hacker_news_enabled : bool;
  reddit_enabled : bool;
  reddit_subreddits : list string;
  github_trending_enabled : bool;
  NEWS_CATEGORIES : list string;
  CACHE_EXPIRATION : Z
}.

(** The values of the class [Settings] when no environment overrides them. *)
Definition settings : Settings := {|
  hacker_news_enabled := true;
  reddit_enabled := true;
  reddit_subreddits :=
    ["worldnews"; "technology"; "science"; "politics"; "business"];
  github_trending_enabled := true;
  NEWS_CATEGORIES :=
    ["realtime"; "technology"; "world"; "business"; "entertainment";
     "sports"; "science"; "health"];
  CACHE_EXPIRATION := 1800
|}.

(* ===================================================================== *)
(** * The expiring caches ([cachetools.TTLCache]) *)
(* ===================================================================== *)

(** The service keeps two module-level [TTLCache]s. The class belongs to
    the [cachetools] library; the model follows its behaviour: every item
    carries the timer value at which it expires, the items are kept from
    the least to the most recently used, a membership test reads, a lookup
    also marks the item as used, and a store first drops the expired items
    and then makes room by dropping the least recently used ones. *)
Section TTLCache.
Context {V : Type}.

Record Link : Type := mkLink {
  link_key : string;
  link_value : V;
  link_expires : Z
}.

(** The items of a cache, least recently used first. *)
Definition TTLCache : Type := list Link.

Definition getlink (c : TTLCache) (key : string) : option Link :=
  find (fun l => String.eqb (link_key l) key) c.

Definition unlink (c : TTLCache) (key : string) : TTLCache :=
  filter (fun l => negb (String.eqb (link_key l) key)) c.

(** [key in cache], the timer reading [now]. *)
Definition cache_contains (c : TTLCache) (now : Z) (key : string) : bool :=
  match getlink c key with
  | Some l => now <? link_expires l
  | None => false
  end.

(** [cache[key]]: the value, or [KeyError] for a missing or expired item;
    an item that is found moves to the most recently used end. *)
Definition cache_getitem (c : TTLCache) (now : Z) (key : string)
  : Outcome V * TTLCache :=
  match getlink c key with
  | Some l =>
      (if now <? link_expires l then Ok (link_value l)
       else Raise (KeyError key),
       unlink c key ++ [l])
  | None => (Raise (KeyError key), c)
  end.

(** [cache.expire(now)]. *)
Definition cache_expire (c : TTLCache) (now : Z) : TTLCache :=
  filter (fun l => now <? link_expires l) c.

(** [cache[key] = value] for a cache built with [maxsize] and [ttl]. *)
Definition cache_setitem (maxsize : nat) (ttl : Z)
  (c : TTLCache) (now : Z) (key : string) (value : V)
  : Outcome unit * TTLCache :=
  let live := cache_expire c now in
  if (maxsize <? 1)%nat then (Raise (ValueError "value too large"), live)
  else
    let kept :=
      match getlink live key with
      | Some _ => unlink live key
      | None => skipn (List.length live + 1 - maxsize)%nat live
      end in
    (Ok tt, kept ++ [mkLink key value (now + ttl)]).

End TTLCache.
Arguments Link V : clear implicits.
Arguments TTLCache V : clear implicits.

(* ===================================================================== *)
(** * Scrapers ([app/scrapers/base.py]) *)
(* ===================================================================== *)

(** The interface [BaseScraper]: the four attributes set by [__init__] and
    the two abstract coroutines. What a coroutine returns depends on the
    upstream site, hence on the instant of the call; it may also raise. *)
Record Scraper : Type := mkScraper {
  source_id : string;
  source_name : string;
  source_url : string;
  scraper_category : string;
  fetch_articles : Z -> Z -> Outcome (list NewsArticle);
  fetch_article_content : Z -> string -> Outcome (option string)
}.

(** The registry [scrapers : Dict[str, BaseScraper]], in insertion order. *)
Definition Registry : Type := list (string * Scraper).

(** [d[key] = value] on a [dict]: an existing key keeps its position. *)
Fixpoint dict_set {V : Type} (d : list (string * V)) (key : string) (value : V)
  : list (string * V) :=
  match d with
  | [] => [(key, value)]
  | (k, v) :: d' =>
      if String.eqb k key then (k, value) :: d'
      else (k, v) :: dict_set d' key value
  end.

(* ===================================================================== *)
(** * The world of the service and its monad *)
(* ===================================================================== *)

(** One awaited call of a scraper coroutine, as seen from outside. *)
Inductive Call : Type :=
| FetchArticles (scraper_id : string) (limit : Z)
| FetchArticleContent (scraper_id : string) (article_url : string).

(** The mutable state around the service: the timer of the caches
    ([time.monotonic]), the wall clock ([datetime.now]), the module-level
    [news_cache] and [article_cache], the trace of scraper calls made so
    far, and the lags to come: how long the clocks will have moved on each
    time the service reads a clock again inside an operation (when none is
    left they no longer move).

    Time passes between the calls of the service ([elapse]). Inside an
    operation it passes ([time_passes]) between the membership test of a
    cache and the lookup that follows it, where an item can expire in
    between, and between the passes of [get_category_summary]; the
    instants that one pass of [get_news_feed] stores and hands to the
    scrapers are those of its membership test. *)
Record World : Type := mkWorld {
  timer : Z;
  wall : Z;
  news_cache : TTLCache NewsFeed;
  article_cache : TTLCache NewsArticle;
  calls : list Call;
  lags : list N
}.

Definition elapse (d : Z) (w : World) : World :=
  mkWorld (timer w + d) (wall w + d) (news_cache w) (article_cache w) (calls w)
    (lags w).

(** How far the clocks move before the next reading inside an operation. *)
Definition next_lag (w : World) : Z :=
  match lags w with
  | [] => 0
  | d :: _ => Z.of_N d
  end.

(** The world at that next reading. *)
Definition later (w : World) : World :=
  mkWorld (timer w + next_lag w) (wall w + next_lag w) (news_cache w)
    (article_cache w) (calls w) (tl (lags w)).

Definition M (A : Type) : Type := World -> Outcome A * World.

Definition ret {A : Type} (a : A) : M A := fun w => (Ok a, w).

Definition bind {A B : Type} (m : M A) (k : A -> M B) : M B :=
  fun w =>
    match m w with
    | (Ok a, w') => k a w'
    | (Raise e, w') => (Raise e, w')
    end.

(** [try: body except Exception as e: handler(e)]. *)
Definition try_except {A : Type} (body : M A) (handler : PyException -> M A)
  : M A :=
  fun w =>
    match body w with
    | (Ok a, w') => (Ok a, w')
    | (Raise e, w') => handler e w'
    end.

Declare Scope monad_scope.
Delimit Scope monad_scope with monad.
Notation "x <- m ;; k" := (bind m (fun x => k))
  (at level 61, m at next level, right associativity) : monad_scope.
Notation "m ;; k" := (bind m (fun _ => k))
  (at level 61, right associativity) : monad_scope.
Local Open Scope monad_scope.

Definition datetime_now : M Z := fun w => (Ok (wall w), w).

(** The clocks move on between two readings. *)
Definition time_passes : M unit := fun w => (Ok tt, later w).

(** [await scraper.fetch_articles(limit=limit)]. *)
Definition await_fetch_articles (scraper_id : string) (scraper : Scraper)
  (limit : Z) : M (list NewsArticle) :=
  fun w =>
    (fetch_articles scraper (wall w) limit,
     mkWorld (timer w) (wall w) (news_cache w) (article_cache w)
       (calls w ++ [FetchArticles scraper_id limit]) (lags w)).

(** [await scraper.fetch_article_content(article_url)]. *)
Definition await_fetch_article_content (scraper_id : string)
  (scraper : Scraper) (article_url : string) : M (option string) :=
  fun w =>
    (fetch_article_content scraper (wall w) article_url,
     mkWorld (timer w) (wall w) (news_cache w) (article_cache w)
       (calls w ++ [FetchArticleContent scraper_id article_url]) (lags w)).

(** [await asyncio.gather( *tasks)]: every task runs; the results come in
    the order of the tasks; when a task raises, [gather] raises (the first
    exception in task order stands for the first one in time). *)
Fixpoint gather {A : Type} (tasks : list (M A)) : M (list A) :=
  fun w =>
    match tasks with
    | [] => (Ok [], w)
    | t :: ts =>
        let (r, w1) := t w in
        let (rs, w2) := gather ts w1 in
        (match r, rs with
         | Ok a, Ok l => Ok (a :: l)
         | Raise e, _ => Raise e
         | Ok _, Raise e => Raise e
         end, w2)
    end.

(* ===================================================================== *)
(** * The service ([app/services/news_service.py]) *)
(* ===================================================================== *)

Section NewsService.

(** The configuration read at import time and the scraper registry. *)
Variable cfg : Settings.
Variable scrapers : Registry.

(** [news_cache = TTLCache(maxsize=100, ttl=settings.CACHE_EXPIRATION)]
    and [article_cache = TTLCache(maxsize=1000, ttl=...)]. *)
Definition news_cache_maxsize : nat := 100.
Definition article_cache_maxsize : nat := 1000.

Definition news_cache_contains (key : string) : M bool :=
  fun w => (Ok (cache_contains (news_cache w) (timer w) key), w).

Definition news_cache_getitem (key : string) : M NewsFeed :=
  fun w =>
    let (r, c) := cache_getitem (news_cache w) (timer w) key in
    (r, mkWorld (timer w) (wall w) c (article_cache w) (calls w) (lags w)).

Definition news_cache_setitem (key : string) (feed : NewsFeed) : M unit :=
  fun w =>
    let (r, c) := cache_setitem news_cache_maxsize (CACHE_EXPIRATION cfg)
                    (news_cache w) (timer w) key feed in
    (r, mkWorld (timer w) (wall w) c (article_cache w) (calls w) (lags w)).

Definition article_cache_contains (key : string) : M bool :=
  fun w => (Ok (cache_contains (article_cache w) (timer w) key), w).

Definition article_cache_getitem (key : string) : M NewsArticle :=
  fun w =>
    let (r, c) := cache_getitem (article_cache w) (timer w) key in
    (r, mkWorld (timer w) (wall w) (news_cache w) c (calls w) (lags w)).

Definition article_cache_setitem (key : string) (article : NewsArticle)
  : M unit :=
  fun w =>
    let (r, c) := cache_setitem article_cache_maxsize (CACHE_EXPIRATION cfg)
                    (article_cache w) (timer w) key article in
    (r, mkWorld (timer w) (wall w) (news_cache w) c (calls w) (lags w)).

(** [cache_key = f"{category}_{page}_{limit}"]. *)
Definition cache_key (category : string) (page limit : Z) : string :=
  category +++ "_" +++ str_of_int page +++ "_" +++ str_of_int limit.

(** The test of the first loop of [get_news_feed]: a scraper is skipped
    when [category != "realtime" and scraper.category != category]. *)
Definition skipped (category : string) (scraper : Scraper) : bool :=
  negb (String.eqb category "realtime")
  && negb (String.eqb (scraper_category scraper) category).

(** The scrapers for which the loop creates a fetch task. *)
Definition matching_scrapers (category : string) : Registry :=
  filter (fun entry => negb (skipped category (snd entry))) scrapers.

(** The list [fetch_tasks] built by the loop: one coroutine per scraper
    that is not skipped, in the order of the registry. *)
Definition fetch_tasks (category : string) (limit : Z)
  : list (M (list NewsArticle)) :=
  map (fun entry => await_fetch_articles (fst entry) (snd entry) limit)
      (matching_scrapers category).

(** [NewsFeed(articles=[], ..., total=0, last_updated=datetime.now())]. *)
Definition empty_feed (category : string) (page limit : Z) : M NewsFeed :=
  now <- datetime_now ;;
  ret (mkNewsFeed [] category page limit 0 now).

(** [for article in paginated_articles: article_cache[article.id] = article]. *)
Fixpoint cache_articles (l : list NewsArticle) : M unit :=
  match l with
  | [] => ret tt
  | article :: l' =>
      article_cache_setitem (id article) article ;;
      cache_articles l'
  end.

(** The body of the [try] block of [get_news_feed]. *)
Definition fetch_merge_store (category : string) (page limit : Z) : M NewsFeed :=
  article_lists <- gather (fetch_tasks category limit) ;;
  let all_articles := sort_desc published_at (List.concat article_lists) in
  let start_idx := (page - 1) * limit in
  let end_idx := start_idx + limit in
  let paginated_articles := py_slice all_articles start_idx end_idx in
  now <- datetime_now ;;
  let feed :=
    mkNewsFeed paginated_articles category page limit
      (Z.of_nat (List.length all_articles)) now in
  news_cache_setitem (cache_key category page limit) feed ;;
  cache_articles paginated_articles ;;
  ret feed.

(** [get_news_feed]. The membership test [cache_key in news_cache] and
    the lookup [news_cache[cache_key]] read the timer one after the other,
    before the [try]. *)
Definition get_news_feed (category : string) (page limit : Z)
  (force_refresh : bool) : M NewsFeed :=
  hit <- news_cache_contains (cache_key category page limit) ;;
  if negb force_refresh && hit then
    time_passes ;;
    news_cache_getitem (cache_key category page limit)
  else
    match fetch_tasks category limit with
    | [] => empty_feed category page limit
    | _ :: _ =>
        try_except
          (fetch_merge_store category page limit)
          (fun _ => empty_feed category page limit)
    end.

(** The id of the source: the text before the first ["-"] of the id. *)
Definition source_token (article_id : string) : string :=
  fst (split_first dash article_id).

(** The test of the scraper loops of [get_article] and
    [get_article_content]:
    [scraper_id == source_id or source_id.startswith(scraper_id)]. *)
Definition routes_to (scraper_id token : string) : bool :=
  String.eqb scraper_id token || startswith token scraper_id.

(** The scraper loop of [get_article]. *)
Fixpoint search_scrapers (article_id : string) (l : Registry)
  : M (option NewsArticle) :=
  match l with
  | [] => ret None
  | (scraper_id, scraper) :: l' =>
      if routes_to scraper_id (source_token article_id) then
        found <- await_fetch_articles scraper_id scraper 50 ;;
        match find (fun a => String.eqb (id a) article_id) found with
        | Some article =>
            article_cache_setitem article_id article ;;
            ret (Some article)
        | None => search_scrapers article_id l'
        end
      else search_scrapers article_id l'
  end.

(** [get_article], with the same two readings of the timer; it has no
    [try]. *)
Definition get_article (article_id : string) (force_refresh : bool)
  : M (option NewsArticle) :=
  hit <- article_cache_contains article_id ;;
  if negb force_refresh && hit then
    time_passes ;;
    article <- article_cache_getitem article_id ;;
    ret (Some article)
  else if negb (contains_char dash article_id) then ret None
  else search_scrapers article_id scrapers.

(** The first scraper of the registry that the loop of
    [get_article_content] accepts. *)
Definition find_scraper (token : string) (l : Registry)
  : option (string * Scraper) :=
  find (fun entry => routes_to (fst entry) token) l.

Definition get_article_content (article_id : string) : M (option string) :=
  found <- get_article article_id false ;;
  match found with
  | None => ret None
  | Some article =>
      if negb (contains_char dash article_id) then ret None
      else
        match find_scraper (source_token article_id) scrapers with
        | Some (scraper_id, scraper) =>
            await_fetch_article_content scraper_id scraper (url article)
        | None => ret None
        end
  end.

End NewsService.

(* ===================================================================== *)
(** * The three scrapers and the registry ([app/scrapers/]) *)
(* ===================================================================== *)

(** The scrapers are embedded from the parsed upstream payload onwards:
    what the network returns at an instant is a record of answers, one
    type per site. Of the article model they fill the fields kept in
    [NewsArticle]; the summary, the author, the image, the update time
    and the view counter, which no operation of the service reads, are
    not part of the embedding. *)

Section Scrapers.

(** [hashlib.md5(s.encode()).hexdigest()]. *)
Variable md5_hexdigest : string -> string.

(** The validation of a [HttpUrl] field by [pydantic]: the accepted URL,
    or [None] when the constructor of the model raises. *)
Variable http_url : string -> option string.

Definition microseconds : Z := 1000000.

(** [datetime.fromtimestamp(t)] for [t] in seconds: the instant, or
    [None] when the call raises because the year is not between 1 and 9999
    (the bounds are those of a local zone at UTC). *)
Definition fromtimestamp (t : Z) : option Z :=
  if (-62135596800 <=? t) && (t <=? 253402300799)
  then Some (t * microseconds) else None.

(** [timedelta(hours=i)]. *)
Definition hours (i : Z) : Z := i * 3600 * microseconds.

(** [BaseScraper.generate_article_id]. *)
Definition generate_article_id (article_url : string) : string :=
  md5_hexdigest article_url.

(** [d.get(key, 0)] on an optional counter. *)
Definition get_or_0 (x : option Z) : option Z :=
  match x with Some v => Some v | None => Some 0 end.

(** [x or 0]. *)
Definition or_0 (x : option Z) : Z :=
  match x with Some v => v | None => 0 end.

(** The items of a list of optional results that are present. *)
Definition present {A : Type} (l : list (option A)) : list A :=
  flat_map (fun x => match x with Some a => [a] | None => [] end) l.

(** ** Hacker News ([hacker_news.py]) *)

(** One item of the Hacker News API; a missing JSON key is [None]. *)
Record HNStory : Type := mkHNStory {
  story_id : Z;
  story_title : option string;
  story_url : option string;
  story_time : option Z;
  story_descendants : option Z;
  story_score : option Z
}.

(** The answers of the Hacker News API: the list of top story ids ([None]
    for a status other than 200 or a failed request), the item of an id
    ([None] for a status other than 200, [Some None] for the JSON value
    [null]), whether fetching the items fails as a whole, and the body
    extracted from a page. *)
Record HNUpstream : Type := mkHNUpstream {
  hn_topstories : option (list Z);
  hn_item : Z -> option (option HNStory);
  hn_items_fail : bool;
  hn_page_text : string -> option string
}.

Definition hn_source : NewsSource :=
  mkNewsSource "hacker_news" "Hacker News" "https://news.ycombinator.com/"
    (Some "technology").

(** The body of the loop [for story in stories]: the article of a story,
    or [None] when the story is skipped ([continue], or an exception
    caught by the [try] of the loop body). *)
Definition hn_article (story : HNStory) : option NewsArticle :=
  match story_url story with
  | None => None
  | Some u =>
      if String.eqb u "" then None
      else
        match story_title story, http_url u, story_time story with
        | Some t, Some u', Some tm =>
            match fromtimestamp tm with
            | Some published =>
                Some (mkNewsArticle
                        ("hn-" +++ str_of_int (story_id story))
                        t u' None published hn_source "technology"
                        ["hacker-news"]
                        (get_or_0 (story_descendants story))
                        (get_or_0 (story_score story)))
            | None => None
            end
        | _, _, _ => None
        end
  end.

(** The loop [for story in stories]. On a story that is [null] the test
    ["url" not in story] raises, and so does the handler of the loop
    body, which calls [story.get]: the loop is left, with the articles
    made so far. *)
Fixpoint hn_stories_loop (stories : list (option HNStory))
  : list NewsArticle :=
  match stories with
  | [] => []
  | None :: _ => []
  | Some story :: stories' =>
      match hn_article story with
      | Some a => a :: hn_stories_loop stories'
      | None => hn_stories_loop stories'
      end
  end.

(** [HackerNewsScraper.fetch_articles]. *)
Definition hn_fetch_articles (up : HNUpstream) (limit : Z)
  : list NewsArticle :=
  match hn_topstories up with
  | None => []
  | Some story_ids =>
      if hn_items_fail up then []
      else
        let stories := present (map (hn_item up) (py_slice_to story_ids limit)) in
        hn_stories_loop stories
  end.

Definition HackerNewsScraper (upstream : Z -> HNUpstream) : Scraper :=
  mkScraper "hacker_news" "Hacker News" "https://news.ycombinator.com/"
    "technology"
    (fun now limit => Ok (hn_fetch_articles (upstream now) limit))
    (fun now article_url => Ok (hn_page_text (upstream now) article_url)).

(** ** GitHub Trending ([github_trending.py]) *)

(** One [article.Box-row] of the trending page: the stripped [href] of
    its [h2 a] ([None] when the element is missing), the title computed
    from it, the star count ([None] when [int] raises), and the stripped
    text of its language element in lower case ([None] when the element
    is missing or its text is empty). *)
Record TrendingRepo : Type := mkTrendingRepo {
  repo_rel_path : option string;
  repo_title : string;
  repo_stars : option Z;
  repo_language : option string
}.

(** The trending page ([None] for a status other than 200, a failed
    request or a page that cannot be parsed) and the README of a
    repository URL. *)
Record GitHubUpstream : Type := mkGitHubUpstream {
  gh_repos : option (list TrendingRepo);
  gh_readme : string -> option string
}.

Definition github_source : NewsSource :=
  mkNewsSource "github_trending" "GitHub Trending"
    "https://github.com/trending" (Some "technology").

(** The body of the loop [for i, repo in enumerate(repos)], [now] being
    the instant read before the loop. *)
Definition github_article (now : Z) (i : Z) (repo : TrendingRepo)
  : option NewsArticle :=
  match repo_rel_path repo with
  | None => None
  | Some rel =>
      let repo_url := "https://github.com" +++ rel in
      match repo_stars repo, http_url repo_url with
      | Some stars, Some u' =>
          Some (mkNewsArticle
                  ("github-" +++ generate_article_id repo_url)
                  (repo_title repo) u' None (now - hours i) github_source
                  "technology"
                  ("github-trending"
                   :: match repo_language repo with
                      | Some language => [language]
                      | None => []
                      end)
                  None (Some stars))
      | _, _ => None
      end
  end.

(** [enumerate(repos)], counting from [i]. *)
Fixpoint enumerate_from {A : Type} (i : Z) (l : list A) : list (Z * A) :=
  match l with
  | [] => []
  | x :: l' => (i, x) :: enumerate_from (i + 1) l'
  end.

(** The loop over the repositories, left at the first [i >= limit]. *)
Fixpoint github_loop (now limit : Z) (l : list (Z * TrendingRepo))
  : list NewsArticle :=
  match l with
  | [] => []
  | (i, repo) :: l' =>
      if limit <=? i then []
      else
        match github_article now i repo with
        | Some a => a :: github_loop now limit l'
        | None => github_loop now limit l'
        end
  end.

(** [GitHubTrendingScraper.fetch_articles]. *)
Definition github_fetch_articles (up : GitHubUpstream) (now limit : Z)
  : list NewsArticle :=
  match gh_repos up with
  | None => []
  | Some repos => github_loop now limit (enumerate_from 0 repos)
  end.

Definition GitHubTrendingScraper (upstream : Z -> GitHubUpstream) : Scraper :=
  mkScraper "github_trending" "GitHub Trending" "https://github.com/trending"
    "technology"
    (fun now limit => Ok (github_fetch_articles (upstream now) now limit))
    (fun now article_url => Ok (gh_readme (upstream now) article_url)).

(** ** Reddit ([reddit.py]) *)

(** The [data] of one post of a subreddit listing. *)
Record RedditPost : Type := mkRedditPost {
  post_id : option string;
  post_title : option string;
  post_url : option string;
  post_is_self : bool;
  post_selftext : option string;
  post_permalink : option string;
  post_created_utc : option Z;
  post_num_comments : option Z;
  post_score : option Z
}.

(** The answers of Reddit: the posts of [top.json] of a subreddit asked
    with a [limit] parameter ([None] for a status other than 200 or a
    failed request) and what [fetch_article_content] gives for the URL
    of an article. Its test ["reddit.com" in article_url] stands before
    the [try]: on the [url] field of an article, which [pydantic] 2 keeps
    as a URL object and not as a [str], the test raises [TypeError]. *)
Record RedditUpstream : Type := mkRedditUpstream {
  rd_top : string -> Z -> option (list RedditPost);
  rd_content : string -> Outcome (option string)
}.

(** [category_map.get(subreddit, "realtime")]. *)
Definition category_for_subreddit (subreddit : string) : string :=
  if String.eqb subreddit "worldnews" then "world"
  else if String.eqb subreddit "technology" then "technology"
  else if String.eqb subreddit "science" then "science"
  else if String.eqb subreddit "politics" then "world"
  else if String.eqb subreddit "business" then "business"
  else "realtime".

Definition subreddit_source (subreddit : string) : NewsSource :=
  mkNewsSource ("reddit-" +++ subreddit) ("Reddit r/" +++ subreddit)
    ("https://www.reddit.com/r/" +++ subreddit +++ "/")
    (Some (category_for_subreddit subreddit)).

Definition str_or_empty (s : option string) : string :=
  match s with Some t => t | None => "" end.

(** [str(x)] of an optional string inside an f-string. *)
Definition str_of_optional (s : option string) : string :=
  match s with Some t => t | None => "None" end.

(** What one round of the loop [for post in posts] does. *)
Inductive PostStep : Type :=
| Skip
| Append (article : NewsArticle)
| Abort.

Definition reddit_post_step (subreddit : string) (post : RedditPost)
  : PostStep :=
  let selftext := str_or_empty (post_selftext post) in
  if post_is_self post && (py_len selftext <? 100)%nat then Skip
  else if String.eqb (str_or_empty (post_url post)) ""
          && String.eqb selftext "" then Skip
  else
    let link :=
      if post_is_self post
      then Some ("https://www.reddit.com" +++ str_of_optional (post_permalink post))
      else post_url post in
    match post_id post, post_title post, link, post_created_utc post with
    | Some pid, Some t, Some u, Some created =>
        match fromtimestamp created, http_url u with
        | Some published, Some u' =>
            Append (mkNewsArticle ("reddit-" +++ pid) t u'
                      (post_selftext post) published
                      (subreddit_source subreddit)
                      (category_for_subreddit subreddit)
                      ["reddit"; "r/" +++ subreddit]
                      (get_or_0 (post_num_comments post))
                      (get_or_0 (post_score post)))
        | _, _ => Abort
        end
    | _, _, _, _ => Abort
    end.

(** The loop over the posts inside the [try] of [fetch_subreddit]: an
    exception leaves the loop and keeps the articles appended so far. *)
Fixpoint reddit_posts_loop (subreddit : string) (posts : list RedditPost)
  : list NewsArticle :=
  match posts with
  | [] => []
  | post :: posts' =>
      match reddit_post_step subreddit post with
      | Skip => reddit_posts_loop subreddit posts'
      | Append a => a :: reddit_posts_loop subreddit posts'
      | Abort => []
      end
  end.

(** [RedditScraper.fetch_subreddit]. *)
Definition fetch_subreddit (up : RedditUpstream) (posts_per_subreddit : Z)
  (subreddit : string) : list NewsArticle :=
  match rd_top up subreddit posts_per_subreddit with
  | None => []
  | Some posts => reddit_posts_loop subreddit posts
  end.

(** [RedditScraper.fetch_articles] of a scraper over [subreddits]. The
    division is made before the [try]: with no subreddit it raises. *)
Definition reddit_fetch_articles (subreddits : list string)
  (up : RedditUpstream) (limit : Z) : Outcome (list NewsArticle) :=
  match subreddits with
  | [] => Raise (ZeroDivisionError "integer division or modulo by zero")
  | _ :: _ =>
      let posts_per_subreddit :=
        Z.max (limit / Z.of_nat (List.length subreddits)) 3 in
      let all_articles :=
        flat_map (fetch_subreddit up posts_per_subreddit) subreddits in
      Ok (py_slice_to
            (sort_desc (fun x => or_0 (likes_count x)) all_articles) limit)
  end.

(** [RedditScraper(subreddit)]: for one subreddit when [subreddit] is a
    non-empty string, over the configured subreddits otherwise. *)
Definition RedditScraper (cfg : Settings) (upstream : Z -> RedditUpstream)
  (subreddit : option string) : Scraper :=
  match subreddit with
  | Some s =>
      if String.eqb s "" then
        mkScraper "reddit" "Reddit" "https://www.reddit.com/" "realtime"
          (fun now limit =>
             reddit_fetch_articles (reddit_subreddits cfg) (upstream now) limit)
          (fun now article_url => rd_content (upstream now) article_url)
      else
        mkScraper ("reddit_" +++ s) ("Reddit r/" +++ s)
          ("https://www.reddit.com/r/" +++ s +++ "/")
          (category_for_subreddit s)
          (fun now limit => reddit_fetch_articles [s] (upstream now) limit)
          (fun now article_url => rd_content (upstream now) article_url)
  | None =>
      mkScraper "reddit" "Reddit" "https://www.reddit.com/" "realtime"
        (fun now limit =>
           reddit_fetch_articles (reddit_subreddits cfg) (upstream now) limit)
        (fun now article_url => rd_content (upstream now) article_url)
  end.

(** ** The registry ([app/scrapers/__init__.py]) *)

Variable hn_upstream : Z -> HNUpstream.
Variable gh_upstream : Z -> GitHubUpstream.
Variable rd_upstream : Z -> RedditUpstream.

(** The loop [for subreddit in settings.NEWS_SOURCES["reddit"]["subreddits"]]. *)
Definition add_subreddit_scrapers (cfg : Settings) (d : Registry) : Registry :=
  fold_left
    (fun d subreddit =>
       dict_set d ("reddit_" +++ subreddit)
         (RedditScraper cfg rd_upstream (Some subreddit)))
    (reddit_subreddits cfg) d.

(** [init_scrapers()], run once on the empty registry. *)
Definition init_scrapers (cfg : Settings) : Registry :=
  let d0 : Registry := [] in
  let d1 :=
    if hacker_news_enabled cfg
    then dict_set d0 "hacker_news" (HackerNewsScraper hn_upstream) else d0 in
  let d2 :=
    if github_trending_enabled cfg
    then dict_set d1 "github_trending" (GitHubTrendingScraper gh_upstream)
    else d1 in
  let d3 :=
    if reddit_enabled cfg
    then add_subreddit_scrapers cfg
           (dict_set d2 "reddit" (RedditScraper cfg rd_upstream None))
    else d2 in
  match d3 with
  | [] => dict_set d3 "hacker_news" (HackerNewsScraper hn_upstream)
  | _ :: _ => d3
  end.

(** The articles that the scrapers of the registry can produce. *)
Definition produced_by (cfg : Settings) (a : NewsArticle) : Prop :=
  exists scraper_id scraper now limit l,
    In (scraper_id, scraper) (init_scrapers cfg)
    /\ fetch_articles scraper now limit = Ok l
    /\ In a l.

End Scrapers.

(* ===================================================================== *)
(** * Vocabulary of the statements *)
(* ===================================================================== *)

(** All results when no task raised, the first exception otherwise. *)
Fixpoint collect {A : Type} (rs : list (Outcome A)) : Outcome (list A) :=
  match rs with
  | [] => Ok []
  | r :: rs' =>
      match r, collect rs' with
      | Ok a, Ok l => Ok (a :: l)
      | Raise e, _ => Raise e
      | Ok _, Raise e => Raise e
      end
  end.

(** The world after the scraper calls [cs] were made. *)
Definition log_calls (w : World) (cs : list Call) : World :=
  mkWorld (timer w) (wall w) (news_cache w) (article_cache w) (calls w ++ cs)
    (lags w).

(** The fan-out of [get_news_feed]: one call of [fetch_articles] per
    matching scraper, and what the calls return at the instant [now]. *)
Definition fanout_calls (scrapers : Registry) (category : string) (limit : Z)
  : list Call :=
  map (fun entry => FetchArticles (fst entry) limit)
      (matching_scrapers scrapers category).

Definition fanout_results (scrapers : Registry) (category : string)
  (limit now : Z) : Outcome (list (list NewsArticle)) :=
  collect (map (fun entry => fetch_articles (snd entry) now limit)
               (matching_scrapers scrapers category)).

(** The merged and sorted articles of a fan-out, and the page window. *)
Definition merged (lists : list (list NewsArticle)) : list NewsArticle :=
  sort_desc published_at (List.concat lists).

Definition page_of (all_articles : list NewsArticle) (page limit : Z)
  : list NewsArticle :=
  py_slice all_articles ((page - 1) * limit) ((page - 1) * limit + limit).

(** The feed that a pass builds from the lists returned by the scrapers. *)
Definition built_feed (lists : list (list NewsArticle)) (category : string)
  (page limit now : Z) : NewsFeed :=
  mkNewsFeed (page_of (merged lists) page limit) category page limit
    (Z.of_nat (List.length (merged lists))) now.

(** A call of [get_news_feed] that is not answered from the cache. *)
Definition fresh_pass (category : string) (page limit : Z)
  (force_refresh : bool) (w : World) : Prop :=
  force_refresh = true
  \/ cache_contains (news_cache w) (timer w) (cache_key category page limit)
     = false.

(** The value stored under [key], whatever its age. *)
Definition stored {V : Type} (c : TTLCache V) (key : string) : option V :=
  option_map link_value (getlink c key).

(** The article cache after the loop that stores the articles [l]. *)
Definition store_articles (cfg : Settings) (c : TTLCache NewsArticle)
  (now : Z) (l : list NewsArticle) : TTLCache NewsArticle :=
  fold_left
    (fun c a =>
       snd (cache_setitem article_cache_maxsize (CACHE_EXPIRATION cfg)
              c now (id a) a))
    l c.

(** The world after a pass that made the calls [cs] and stored [feed]
    under [key]. *)
Definition after_store (cfg : Settings) (w : World) (key : string)
  (feed : NewsFeed) (cs : list Call) : World :=
  mkWorld (timer w) (wall w)
    (snd (cache_setitem news_cache_maxsize (CACHE_EXPIRATION cfg)
            (news_cache w) (timer w) key feed))
    (store_articles cfg (article_cache w) (timer w) (articles feed))
    (calls w ++ cs) (lags w).

(* ===================================================================== *)
(** * Scrapers of the test-suite ([tests/test_news_service.py]) *)
(* ===================================================================== *)

(** [range(n)]. *)
Definition range (n : Z) : list Z := map Z.of_nat (seq 0 (Z.to_nat n)).

(** The article number [i] of [MockScraper.fetch_articles], built at the
    instant [now]. *)
Definition mock_article (sid name category : string) (now i : Z)
  : NewsArticle :=
  mkNewsArticle (sid +++ "-" +++ str_of_int i)
    ("Test article " +++ str_of_int i +++ " from " +++ name)
    ("https://example.com/" +++ sid +++ "/article/" +++ str_of_int i)
    (Some ("Content of test article " +++ str_of_int i))
    now
    (mkNewsSource sid name ("https://example.com/" +++ sid) (Some category))
    category [sid; "tag-" +++ str_of_int i] (Some 0) (Some 0).

(** [MockScraper(source_id, source_name, category)]. Each article reads
    [datetime.now()] for itself: the article number [i] is built [pace i]
    after the start of the fetch. *)
Definition MockScraper (pace : Z -> Z) (sid name category : string)
  : Scraper :=
  mkScraper sid name ("https://example.com/" +++ sid) category
    (fun now limit =>
       Ok (map (fun i => mock_article sid name category (now + pace i) i)
             (range limit)))
    (fun _ article_url => Ok (Some ("Mock content for " +++ article_url))).

(** A machine that builds one article per microsecond. *)
Definition steady_pace (i : Z) : Z := i.

(** The registry of the fixture [mock_scrapers]. *)
Definition mock_scrapers : Registry :=
  dict_set
    (dict_set [] "mock1"
       (MockScraper steady_pace "mock1" "Mock Source 1" "technology"))
    "mock2" (MockScraper steady_pace "mock2" "Mock Source 2" "world").

(** A scraper with fixed items, whose bodies are signed with its id. *)
Definition StubScraper (sid category : string) (items : list NewsArticle)
  : Scraper :=
  mkScraper sid sid ("https://example.com/" +++ sid) category
    (fun _ limit => Ok (py_slice_to items limit))
    (fun _ article_url => Ok (Some (sid +++ " body of " +++ article_url))).

(** A scraper whose [fetch_articles] raises. *)
Definition RaisingScraper (sid category : string) : Scraper :=
  mkScraper sid sid ("https://example.com/" +++ sid) category
    (fun _ _ => Raise (Exception "upstream unreachable"))
    (fun _ _ => Ok None).

(** An article with the given id and publication instant. *)
Definition stub_article (aid : string) (published : Z) : NewsArticle :=
  mkNewsArticle aid aid ("https://example.com/" +++ aid) None published
    (mkNewsSource "stub" "stub" "https://example.com/" None) "technology" []
    None None.

(** The world at start-up: empty caches, no call made; the clocks do not
    move inside an operation. *)
Definition initial_world : World := mkWorld 0 0 [] [] [] [].

(** The world [w] with other lags to come. *)
Definition with_lags (ds : list N) (w : World) : World :=
  mkWorld (timer w) (wall w) (news_cache w) (article_cache w) (calls w) ds.

(** Two sources with two items each; two items share their instant. *)
Definition srcA_items : list NewsArticle :=
  [stub_article "srcA-1" 30; stub_article "srcA-2" 10].

Definition srcB_items : list NewsArticle :=
  [stub_article "srcB-1" 20; stub_article "srcB-2" 30].

Definition sample_scrapers : Registry :=
  [("srcA", StubScraper "srcA" "technology" srcA_items);
   ("srcB", StubScraper "srcB" "world" srcB_items)].

(** The world after a first feed was fetched and cached. *)
Definition warm_world : World :=
  snd (get_news_feed settings sample_scrapers "realtime" 1 3 false
         initial_world).

(** A base scraper and a scraper with a composite id, as [init_scrapers]
    registers them, with items named after the scraper's own id. *)
Definition worldnews_item : NewsArticle :=
  stub_article "reddit_worldnews-0" 10.

Definition worldnews_scraper : Scraper :=
  StubScraper "reddit_worldnews" "world" [worldnews_item].

Definition composite_scrapers : Registry :=
  [("reddit", StubScraper "reddit" "realtime" [stub_article "reddit-0" 20]);
   ("reddit_worldnews", worldnews_scraper)].

(** A registry in which the first scraper is down. *)
Definition degraded_scrapers : Registry :=
  [("down", RaisingScraper "down" "technology");
   ("srcA", StubScraper "srcA" "technology" srcA_items)].

(** A scraper that answers until the instant [down_from] and raises from
    then on, and a registry with such a source. *)
Definition FlakyScraper (sid category : string) (items : list NewsArticle)
  (down_from : Z) : Scraper :=
  mkScraper sid sid ("https://example.com/" +++ sid) category
    (fun now limit =>
       if now <? down_from then Ok (py_slice_to items limit)
       else Raise (Exception "upstream unreachable"))
    (fun _ _ => Ok None).

Definition flaky_scrapers : Registry :=
  [("srcA", FlakyScraper "srcA" "technology" srcA_items 60)].

(** The world one minute after a first feed of that source was fetched and
    cached: the source is down, the cached feed is live. *)
Definition flaky_world : World :=
  elapse 60
    (snd (get_news_feed settings flaky_scrapers "technology" 1 3 false
            initial_world)).

(** The world one second after a first feed was cached, with clocks that
    will have moved by half an hour when a cache is looked up: the items
    stored at start-up expire between the membership test and the
    lookup. *)
Definition racing_world : World := with_lags [1800%N] (elapse 1 warm_world).

(** Upstream answers for the examples: two Hacker News stories that link
    to the same page, one trending repository, no Reddit post. The digest
    of the examples returns its argument and every URL is accepted. *)
Definition sample_story (i : Z) : HNStory :=
  mkHNStory i (Some "A story") (Some "https://example.com/story")
    (Some 1700000000) None (Some 10).

Definition sample_hn_upstream (now : Z) : HNUpstream :=
  mkHNUpstream (Some [1; 2]) (fun i => Some (Some (sample_story i))) false
    (fun _ => None).

Definition sample_repo : TrendingRepo :=
  mkTrendingRepo (Some "/rocq-prover/rocq") "rocq-prover/rocq" (Some 5)
    (Some "ocaml").

Definition sample_gh_upstream (now : Z) : GitHubUpstream :=
  mkGitHubUpstream (Some [sample_repo]) (fun _ => None).

Definition sample_rd_upstream (now : Z) : RedditUpstream :=
  mkRedditUpstream (fun _ _ => Some [])
    (fun _ => Raise (TypeError "argument of type 'Url' is not iterable")).

Definition sample_digest (s : string) : string := s.

Definition accept_url (u : string) : option string := Some u.

(** A link post with a score, and a Reddit whose subreddits all list the
    same three posts. *)
Definition scored_post (pid : string) (score : Z) : RedditPost :=
  mkRedditPost (Some pid) (Some ("Post " +++ pid))
    (Some ("https://example.com/" +++ pid)) false None None (Some 1700000000)
    (Some 0) (Some score).

Definition scored_rd_upstream (now : Z) : RedditUpstream :=
  mkRedditUpstream
    (fun _ _ => Some [scored_post "a" 5; scored_post "b" 40; scored_post "c" 7])
    (fun _ => Raise (TypeError "argument of type 'Url' is not iterable")).

(** Settings with every source disabled, and settings with Reddit
    enabled and no subreddit. *)
Definition all_disabled : Settings :=
  mkSettings false false (reddit_subreddits settings) false
    (NEWS_CATEGORIES settings) (CACHE_EXPIRATION settings).

Definition no_subreddit : Settings :=
  mkSettings true true [] true
    (NEWS_CATEGORIES settings) (CACHE_EXPIRATION settings).

(** The registry that [init_scrapers] builds from the default settings. *)
Definition default_scrapers : Registry :=
  init_scrapers sample_digest accept_url sample_hn_upstream sample_gh_upstream
    sample_rd_upstream settings.

(** The world after a first feed was fetched over that registry, and that
    world one second later, with clocks that will have moved by half an
    hour when a cache is looked up. *)
Definition default_warm_world : World :=
  snd (get_news_feed settings default_scrapers "realtime" 1 5 false
         initial_world).

Definition default_racing_world : World :=
  with_lags [1800%N] (elapse 1 default_warm_world).

(* ===================================================================== *)
(** * The other operations of the service *)
(* ===================================================================== *)

Record CategorySummary : Type := mkCategorySummary {
  summary_name : string;
  summary_count : Z;
  summary_last_updated : Z
}.

Section SourceAndSummary.
Variable cfg : Settings.
Variable scrapers : Registry.

(** The first loop of [get_source_news]: the scraper registered under
    exactly [source_id]. *)
Definition found_scraper (source_id : string) : option (string * Scraper) :=
  find (fun entry => String.eqb (fst entry) source_id) scrapers.

(** The body of the [try] block of [get_source_news]. *)
Definition fetch_and_cache (scraper_id : string) (scraper : Scraper)
  (limit : Z) : M (list NewsArticle) :=
  fetched <- await_fetch_articles scraper_id scraper limit ;;
  cache_articles cfg fetched ;;
  ret fetched.

Definition get_source_news (source_id category : string) (limit : Z)
  (force_refresh : bool) : M (list NewsArticle) :=
  match found_scraper source_id with
  | None => ret []
  | Some (scraper_id, scraper) =>
      if negb (String.eqb category "realtime")
         && negb (String.eqb (scraper_category scraper) category)
      then ret []
      else try_except (fetch_and_cache scraper_id scraper limit)
                      (fun _ => ret [])
  end.

(** The loop of [get_category_summary] over the categories. Each awaited
    pass takes time: the next one starts later. *)
Fixpoint summarize (categories : list string) : M (list CategorySummary) :=
  match categories with
  | [] => ret []
  | category :: categories' =>
      feed <- get_news_feed cfg scrapers category 1 1 false ;;
      time_passes ;;
      summaries <- summarize categories' ;;
      ret (mkCategorySummary category (total feed) (last_updated feed)
             :: summaries)
  end.

Definition get_category_summary : M (list CategorySummary) :=
  summarize (NEWS_CATEGORIES cfg).

(** The operations that the endpoints run on the service. *)
Inductive Request : Type :=
| NewsFeedRequest (category : string) (page limit : Z) (force_refresh : bool)
| ArticleRequest (article_id : string) (force_refresh : bool)
| ArticleContentRequest (article_id : string)
| CategorySummaryRequest
| SourceNewsRequest (source_id category : string) (limit : Z)
    (force_refresh : bool).

(** The world after a request was served. *)
Definition serve (r : Request) (w : World) : World :=
  match r with
  | NewsFeedRequest category page limit force_refresh =>
      snd (get_news_feed cfg scrapers category page limit force_refresh w)
  | ArticleRequest article_id force_refresh =>
      snd (get_article cfg scrapers article_id force_refresh w)
  | ArticleContentRequest article_id =>
      snd (get_article_content cfg scrapers article_id w)
  | CategorySummaryRequest => snd (get_category_summary w)
  | SourceNewsRequest source_id category limit force_refresh =>
      snd (get_source_news source_id category limit force_refresh w)
  end.

(** The worlds that the service reaches from start-up: requests are
    served one after the other and time passes in between. *)
Inductive reachable : World -> Prop :=
| reachable_start (timer0 wall0 : Z) (lags0 : list N) :
    reachable (mkWorld timer0 wall0 [] [] [] lags0)
| reachable_elapse (d : Z) (w : World) :
    0 <= d -> reachable w -> reachable (elapse d w)
| reachable_serve (r : Request) (w : World) :
    reachable w -> reachable (serve r w).

End SourceAndSummary.



(** Every item of the article cache is stored under the id of its
    article. *)
Definition keyed_by_id (c : TTLCache NewsArticle) : Prop :=
  Forall (fun l => link_key l = id (link_value l)) c.

(** Every article that a scraper of the registry returns satisfies [P]. *)
Definition scrapers_return (P : NewsArticle -> Prop) (scrapers : Registry)
  : Prop :=
  forall scraper_id scraper now limit fetched a,
    In (scraper_id, scraper) scrapers ->
    fetch_articles scraper now limit = Ok fetched ->
    In a fetched ->
    P a.

(** Every article of the article cache satisfies [P]. *)
Definition caches_only (P : NewsArticle -> Prop) (c : TTLCache NewsArticle)
  : Prop :=
  Forall (fun l => P (link_value l)) c.

(** The id of the article holds the separator ["-"]. *)
Definition has_dash (a : NewsArticle) : Prop :=
  contains_char dash (id a) = true.

(** A computation keeps the article cache keyed by id. *)
Definition keeps_keyed {A : Type} (m : M A) : Prop :=
  forall w,
    keyed_by_id (article_cache w) -> keyed_by_id (article_cache (snd (m w))).

(** No item of the cache has the key. *)
Definition absent {V : Type} (key : string) (c : TTLCache V) : Prop :=
  forall l, In l c -> link_key l <> key.

(** An item stored at the instant [now] for an article that satisfies
    [P], under the id of the article. *)
Definition stored_at (ttl now : Z) (P : NewsArticle -> Prop)
  (l : Link NewsArticle) : Prop :=
  link_expires l = now + ttl
  /\ link_key l = id (link_value l)
  /\ P (link_value l).

(* ===================================================================== *)
(** * Properties of the built-ins *)
(* ===================================================================== *)

Section SortFacts.
Context {A : Type} (key : A -> Z).

Lemma insert_desc_perm (x : A) (l : list A) :
  Permutation (insert_desc key x l) (x :: l).
Proof.
  induction l as [|y l IH]; simpl.
  - apply Permutation_refl.
  - destruct (key x <? key y).
    + eapply perm_trans; [apply perm_skip, IH | apply perm_swap].
    + apply Permutation_refl.
Qed.

Lemma sort_desc_perm (l : list A) : Permutation (sort_desc key l) l.
Proof.
  induction l as [|x l IH]; simpl.
  - apply perm_nil.
  - eapply perm_trans; [apply insert_desc_perm | apply perm_skip, IH].
Qed.

Lemma sort_desc_length (l : list A) :
  List.length (sort_desc key l) = List.length l.
Proof. apply Permutation_length, sort_desc_perm. Qed.

Lemma sort_desc_In (l : list A) (a : A) : In a (sort_desc key l) <-> In a l.
Proof.
  split; apply Permutation_in;
    [apply sort_desc_perm | apply Permutation_sym, sort_desc_perm].
Qed.

Lemma insert_desc_sorted (x : A) (l : list A) :
  StronglySorted (desc key) l -> StronglySorted (desc key) (insert_desc key x l).
Proof.
  induction 1 as [|y l Hs IH Hall]; simpl.
  - constructor; [constructor | constructor].
  - destruct (Z.ltb_spec (key x) (key y)) as [Hlt|Hge].
    + constructor; [exact IH|].
      apply Forall_forall. intros z Hz.
      apply (Permutation_in _ (insert_desc_perm x l)) in Hz.
      destruct Hz as [<-|Hz].
      * unfold desc. lia.
      * rewrite Forall_forall in Hall. apply Hall, Hz.
    + constructor; [constructor; assumption|].
      constructor; [unfold desc; lia|].
      eapply Forall_impl; [|exact Hall].
      unfold desc. intros z Hz. lia.
Qed.

Lemma sort_desc_sorted (l : list A) : StronglySorted (desc key) (sort_desc key l).
Proof.
  induction l as [|x l IH]; simpl.
  - constructor.
  - apply insert_desc_sorted, IH.
Qed.

Lemma with_key_insert (k : Z) (x : A) (l : list A) :
  StronglySorted (desc key) l ->
  with_key key k (insert_desc key x l) = with_key key k (x :: l).
Proof.
  induction 1 as [|y l Hs IH Hall]; [reflexivity|].
  simpl. destruct (Z.ltb_spec (key x) (key y)) as [Hlt|Hge].
  - simpl. simpl in IH. rewrite IH.
    destruct (Z.eqb_spec (key x) k) as [Hx|Hx];
      destruct (Z.eqb_spec (key y) k) as [Hy|Hy]; try reflexivity.
    lia.
  - reflexivity.
Qed.

(** The sort is stable: the articles of one key keep their order. *)
Lemma sort_desc_stable (k : Z) (l : list A) :
  with_key key k (sort_desc key l) = with_key key k l.
Proof.
  induction l as [|x l IH]; [reflexivity|].
  simpl sort_desc. rewrite with_key_insert by apply sort_desc_sorted.
  simpl. rewrite IH. reflexivity.
Qed.

Lemma with_key_In (k : Z) (l : list A) (a : A) :
  In a (with_key key k l) <-> In a l /\ key a = k.
Proof.
  unfold with_key. rewrite filter_In, Z.eqb_eq. reflexivity.
Qed.

(** Two lists sorted by decreasing key that agree on the order of the
    elements of each key are equal: a stable descending sort has one
    possible result. *)
Lemma stable_sort_unique (l1 l2 : list A) :
  StronglySorted (desc key) l1 ->
  StronglySorted (desc key) l2 ->
  (forall k, with_key key k l1 = with_key key k l2) ->
  l1 = l2.
Proof.
  intros H1. revert l2.
  induction H1 as [|x l1 Hs1 IH Hall1]; intros l2 H2 Heq.
  - destruct l2 as [|y l2]; [reflexivity|].
    specialize (Heq (key y)). simpl in Heq.
    rewrite Z.eqb_refl in Heq. discriminate.
  - destruct H2 as [|y l2 Hs2 Hall2].
    + specialize (Heq (key x)). simpl in Heq.
      rewrite Z.eqb_refl in Heq. discriminate.
    + assert (Hxy : key y <= key x).
      { assert (Hin : In y (with_key key (key y) (x :: l1))).
        { rewrite Heq. simpl. rewrite Z.eqb_refl. left. reflexivity. }
        apply with_key_In in Hin. destruct Hin as [[<-|Hin] _]; [lia|].
        rewrite Forall_forall in Hall1. apply Hall1, Hin. }
      assert (Hyx : key x <= key y).
      { assert (Hin : In x (with_key key (key x) (y :: l2))).
        { rewrite <- Heq. simpl. rewrite Z.eqb_refl. left. reflexivity. }
        apply with_key_In in Hin. destruct Hin as [[<-|Hin] _]; [lia|].
        rewrite Forall_forall in Hall2. apply Hall2, Hin. }
      assert (Hk : key y = key x) by lia.
      pose proof (Heq (key x)) as Hhead. simpl in Hhead.
      rewrite Hk, Z.eqb_refl in Hhead. injection Hhead as Hx Htl.
      subst y. f_equal. apply IH; [exact Hs2|].
      intros k. specialize (Heq k). simpl in Heq.
      destruct (key x =? k); [injection Heq as Heq|]; exact Heq.
Qed.

Lemma sorted_app_inv_l (l1 l2 : list A) :
  StronglySorted (desc key) (l1 ++ l2) -> StronglySorted (desc key) l1.
Proof.
  induction l1 as [|x l1 IH]; simpl; intros H.
  - constructor.
  - inversion H as [|? ? Hs Hall]; subst.
    constructor; [apply IH, Hs|].
    rewrite Forall_app in Hall. apply Hall.
Qed.

Lemma sorted_app_inv_r (l1 l2 : list A) :
  StronglySorted (desc key) (l1 ++ l2) -> StronglySorted (desc key) l2.
Proof.
  induction l1 as [|x l1 IH]; simpl; intros H.
  - exact H.
  - inversion H; subst. apply IH. assumption.
Qed.

Lemma sorted_app_cross (l1 l2 : list A) (a b : A) :
  StronglySorted (desc key) (l1 ++ l2) -> In a l1 -> In b l2 ->
  key b <= key a.
Proof.
  induction l1 as [|x l1 IH]; simpl; intros H Ha Hb.
  - contradiction.
  - inversion H as [|? ? Hs Hall]; subst. destruct Ha as [<-|Ha].
    + rewrite Forall_forall in Hall. apply Hall, in_or_app. right. exact Hb.
    + apply IH; assumption.
Qed.

Lemma sorted_adjacent (l : list A) (i : nat) (a b : A) :
  StronglySorted (desc key) l ->
  nth_error l i = Some a -> nth_error l (S i) = Some b ->
  key b <= key a.
Proof.
  intros H. revert i. induction H as [|x l Hs IH Hall]; intros i Ha Hb.
  - destruct i; discriminate.
  - destruct i as [|i].
    + simpl in Ha. injection Ha as <-. rewrite Forall_forall in Hall.
      apply Hall. apply (nth_error_In l 0). exact Hb.
    + simpl in Ha. change (nth_error l (S i) = Some b) in Hb.
      eapply IH; eassumption.
Qed.

End SortFacts.

(** A slice is a window of the list. *)
Lemma py_slice_window {A : Type} (l : list A) (start stop : Z) :
  exists before after, l = before ++ py_slice l start stop ++ after.
Proof.
  unfold py_slice.
  set (lo := Z.to_nat (slice_index _ start)).
  set (n := Z.to_nat (_ - _)).
  exists (firstn lo l), (skipn n (skipn lo l)).
  rewrite (firstn_skipn n (skipn lo l)), (firstn_skipn lo l). reflexivity.
Qed.

Lemma py_slice_In {A : Type} (l : list A) (start stop : Z) (a : A) :
  In a (py_slice l start stop) -> In a l.
Proof.
  destruct (py_slice_window l start stop) as (before & after & H).
  intros Hin. rewrite H. apply in_or_app. right. apply in_or_app. left.
  exact Hin.
Qed.

(** The first page of [limit] items of a list that has at least as many. *)
Lemma py_slice_first_page {A : Type} (l : list A) (limit : Z) :
  0 <= limit <= Z.of_nat (List.length l) ->
  py_slice l ((1 - 1) * limit) ((1 - 1) * limit + limit)
  = firstn (Z.to_nat limit) l.
Proof.
  intros H. unfold py_slice, slice_index. simpl.
  destruct (Z.ltb_spec limit 0) as [Hneg|_]; [lia|].
  rewrite Z.min_l by lia.
  destruct (List.length l); simpl; rewrite ?Z.sub_0_r; reflexivity.
Qed.

(* ===================================================================== *)
(** * Properties of the caches *)
(* ===================================================================== *)

Section CacheFacts.
Context {V : Type}.
Implicit Types (c : TTLCache V) (l : Link V).

Lemma getlink_key c key l : getlink c key = Some l -> link_key l = key.
Proof.
  unfold getlink. intros H. apply find_some in H.
  destruct H as [_ H]. apply String.eqb_eq, H.
Qed.

Lemma getlink_app c1 c2 key :
  getlink (c1 ++ c2) key
  = match getlink c1 key with
    | Some l => Some l
    | None => getlink c2 key
    end.
Proof.
  unfold getlink. induction c1 as [|l c1 IH]; simpl; [reflexivity|].
  destruct (String.eqb (link_key l) key); [reflexivity | exact IH].
Qed.

Lemma getlink_unlink c key : getlink (unlink c key) key = None.
Proof.
  unfold getlink, unlink. induction c as [|l c IH]; simpl; [reflexivity|].
  destruct (String.eqb (link_key l) key) eqn:E; simpl; [exact IH|].
  rewrite E. exact IH.
Qed.

Lemma getlink_skipn c key n :
  getlink c key = None -> getlink (skipn n c) key = None.
Proof.
  unfold getlink. revert c. induction n as [|n IH]; intros c H; [exact H|].
  destruct c as [|l c]; [reflexivity|]. simpl in *.
  destruct (String.eqb (link_key l) key); [discriminate | apply IH, H].
Qed.

Lemma getlink_singleton key (v : V) e :
  getlink [mkLink key v e] key = Some (mkLink key v e).
Proof. unfold getlink. simpl. rewrite String.eqb_refl. reflexivity. Qed.

(** A store in a cache that has room for one item does not raise, and the
    cache then holds the value under the key until [now + ttl]. *)
Lemma cache_setitem_stores (maxsize : nat) (ttl : Z) c now key (v : V) :
  (1 <= maxsize)%nat ->
  exists c',
    cache_setitem maxsize ttl c now key v = (Ok tt, c')
    /\ getlink c' key = Some (mkLink key v (now + ttl)).
Proof.
  intros Hmax. unfold cache_setitem.
  destruct (Nat.ltb_spec maxsize 1) as [Hlt|_]; [lia|].
  eexists. split; [reflexivity|].
  rewrite getlink_app, getlink_singleton.
  destruct (getlink (cache_expire c now) key) eqn:E.
  - rewrite getlink_unlink. reflexivity.
  - rewrite getlink_skipn by exact E. reflexivity.
Qed.

Lemma cache_contains_stored c now key (v : V) e :
  getlink c key = Some (mkLink key v e) ->
  cache_contains c now key = (now <? e).
Proof. unfold cache_contains. intros ->. reflexivity. Qed.

(** A live item is returned by a lookup. *)
Lemma cache_getitem_live c now key :
  cache_contains c now key = true ->
  exists l,
    getlink c key = Some l
    /\ cache_getitem c now key = (Ok (link_value l), unlink c key ++ [l]).
Proof.
  unfold cache_contains, cache_getitem.
  destruct (getlink c key) as [l|]; [|discriminate].
  intros ->. exists l. split; reflexivity.
Qed.

(** A lookup moves the item and keeps every binding. *)
Lemma getlink_moved c key l key' :
  getlink c key = Some l ->
  getlink (unlink c key ++ [l]) key' = getlink c key'.
Proof.
  intros H. pose proof (getlink_key _ _ _ H) as Hk.
  rewrite getlink_app.
  destruct (String.eqb_spec key key') as [<-|Hne].
  - rewrite getlink_unlink. unfold getlink at 1. simpl.
    rewrite Hk, String.eqb_refl. symmetry. exact H.
  - assert (Hsame : getlink (unlink c key) key' = getlink c key').
    { clear H Hk l. unfold getlink, unlink.
      induction c as [|l c IH]; simpl; [reflexivity|].
      destruct (String.eqb_spec (link_key l) key) as [E|E]; simpl.
      - destruct (String.eqb_spec (link_key l) key') as [E'|E'];
          [congruence | exact IH].
      - destruct (String.eqb (link_key l) key'); [reflexivity | exact IH]. }
    rewrite Hsame. destruct (getlink c key'); [reflexivity|].
    unfold getlink. simpl. rewrite Hk.
    destruct (String.eqb_spec key key'); [contradiction | reflexivity].
Qed.

(** Time only makes items expire. *)
Lemma cache_contains_later c now d key :
  0 <= d ->
  cache_contains c now key = false ->
  cache_contains c (now + d) key = false.
Proof.
  unfold cache_contains. intros Hd. destruct (getlink c key); [|reflexivity].
  rewrite !Z.ltb_ge. lia.
Qed.


End CacheFacts.

(* ===================================================================== *)
(** * How [get_news_feed] runs *)
(* ===================================================================== *)

Lemma log_calls_nil (w : World) : log_calls w [] = w.
Proof. destruct w. unfold log_calls. simpl. rewrite app_nil_r. reflexivity. Qed.

Lemma log_calls_app (w : World) (cs1 cs2 : list Call) :
  log_calls (log_calls w cs1) cs2 = log_calls w (cs1 ++ cs2).
Proof. unfold log_calls. simpl. rewrite app_assoc. reflexivity. Qed.

(** The clocks never go back. *)
Lemma next_lag_nonneg (w : World) : 0 <= next_lag w.
Proof. unfold next_lag. destruct (lags w); lia. Qed.

Lemma next_lag_elapse (d : Z) (w : World) : next_lag (elapse d w) = next_lag w.
Proof. reflexivity. Qed.

(** The join of the fetch tasks: every scraper is called at the same
    instant, and the calls are the only trace left in the world. *)
Lemma gather_fetch_articles (l : Registry) (limit : Z) (w : World) :
  gather (map (fun entry => await_fetch_articles (fst entry) (snd entry) limit) l) w
  = (collect (map (fun entry => fetch_articles (snd entry) (wall w) limit) l),
     log_calls w (map (fun entry => FetchArticles (fst entry) limit) l)).
Proof.
  revert w. induction l as [|[k s] l IH]; intros w.
  - simpl. rewrite log_calls_nil. reflexivity.
  - simpl gather. unfold await_fetch_articles at 1. simpl fst. simpl snd.
    rewrite IH. unfold log_calls. simpl. rewrite <- app_assoc. simpl.
    destruct (fetch_articles s (wall w) limit); reflexivity.
Qed.

Section ServiceFacts.
Variable cfg : Settings.
Variable scrapers : Registry.

Lemma gather_fetch_tasks (category : string) (limit : Z) (w : World) :
  gather (fetch_tasks scrapers category limit) w
  = (fanout_results scrapers category limit (wall w),
     log_calls w (fanout_calls scrapers category limit)).
Proof. apply gather_fetch_articles. Qed.

Lemma fetch_tasks_nil (category : string) (limit : Z) :
  fetch_tasks scrapers category limit = [] <->
  matching_scrapers scrapers category = [].
Proof.
  unfold fetch_tasks. destruct (matching_scrapers scrapers category); simpl;
    split; intros H; try reflexivity; discriminate.
Qed.

(** The loop that stores the articles of the page never raises and only
    touches the article cache. *)
Lemma cache_articles_runs (l : list NewsArticle) (w : World) :
  cache_articles cfg l w
  = (Ok tt,
     mkWorld (timer w) (wall w) (news_cache w)
       (store_articles cfg (article_cache w) (timer w) l) (calls w) (lags w)).
Proof.
  revert w. induction l as [|a l IH]; intros w.
  - destruct w. reflexivity.
  - cbn [cache_articles]. unfold bind at 1. unfold article_cache_setitem at 1.
    destruct (cache_setitem_stores article_cache_maxsize (CACHE_EXPIRATION cfg)
                (article_cache w) (timer w) (id a) a) as (c' & Hset & _).
    { unfold article_cache_maxsize. lia. }
    rewrite Hset. unfold bind. rewrite IH.
    unfold store_articles.
    cbn [fold_left timer wall news_cache article_cache calls lags].
    rewrite Hset. reflexivity.
Qed.

Lemma news_cache_setitem_runs (key : string) (feed : NewsFeed) (w : World) :
  news_cache_setitem cfg key feed w
  = (Ok tt,
     mkWorld (timer w) (wall w)
       (snd (cache_setitem news_cache_maxsize (CACHE_EXPIRATION cfg)
               (news_cache w) (timer w) key feed))
       (article_cache w) (calls w) (lags w)).
Proof.
  unfold news_cache_setitem.
  destruct (cache_setitem_stores news_cache_maxsize (CACHE_EXPIRATION cfg)
              (news_cache w) (timer w) key feed) as (c' & Hset & _).
  { unfold news_cache_maxsize. lia. }
  rewrite Hset. reflexivity.
Qed.

(** The body of the [try] block, when the join returns [lists]. *)
Lemma fetch_merge_store_ok (category : string) (page limit : Z) (w : World)
  (lists : list (list NewsArticle)) :
  fanout_results scrapers category limit (wall w) = Ok lists ->
  fetch_merge_store cfg scrapers category page limit w
  = (Ok (built_feed lists category page limit (wall w)),
     after_store cfg w (cache_key category page limit)
       (built_feed lists category page limit (wall w))
       (fanout_calls scrapers category limit)).
Proof.
  intros Hres. unfold fetch_merge_store, bind at 1.
  rewrite gather_fetch_tasks, Hres.
  unfold bind at 1, datetime_now. unfold bind at 1.
  rewrite news_cache_setitem_runs. unfold bind at 1.
  rewrite cache_articles_runs. reflexivity.
Qed.

(** The body of the [try] block, when the join raises. *)
Lemma fetch_merge_store_raise (category : string) (page limit : Z) (w : World)
  (e : PyException) :
  fanout_results scrapers category limit (wall w) = Raise e ->
  fetch_merge_store cfg scrapers category page limit w
  = (Raise e, log_calls w (fanout_calls scrapers category limit)).
Proof.
  intros Hres. unfold fetch_merge_store, bind at 1.
  rewrite gather_fetch_tasks, Hres. reflexivity.
Qed.

(** The only step of the [try] block that can raise is the join. *)
Lemma fetch_merge_store_raise_inv (category : string) (page limit : Z)
  (w w1 : World) (e : PyException) :
  fetch_merge_store cfg scrapers category page limit w = (Raise e, w1) ->
  fanout_results scrapers category limit (wall w) = Raise e
  /\ w1 = log_calls w (fanout_calls scrapers category limit).
Proof.
  destruct (fanout_results scrapers category limit (wall w)) as [lists|e'] eqn:Hres.
  - rewrite (fetch_merge_store_ok _ _ _ _ _ Hres). discriminate.
  - rewrite (fetch_merge_store_raise _ _ _ _ _ Hres).
    intros H. injection H as -> <-. split; reflexivity.
Qed.

(** After a membership test that succeeds, the lookup is made when the
    clocks have moved on. *)
Lemma get_news_feed_cached (category : string) (page limit : Z) (w : World) :
  cache_contains (news_cache w) (timer w) (cache_key category page limit) = true ->
  get_news_feed cfg scrapers category page limit false w
  = news_cache_getitem (cache_key category page limit) (later w).
Proof.
  intros Hhit. unfold get_news_feed, bind, news_cache_contains.
  rewrite Hhit. reflexivity.
Qed.

(** What such a call gives: the stored feed when the item is still live
    at the lookup, [KeyError] when it has expired since the test. *)
Lemma get_news_feed_lookup (category : string) (page limit : Z) (w : World)
  (l : Link NewsFeed) :
  getlink (news_cache w) (cache_key category page limit) = Some l ->
  timer w < link_expires l ->
  get_news_feed cfg scrapers category page limit false w
  = (if timer w + next_lag w <? link_expires l then Ok (link_value l)
     else Raise (KeyError (cache_key category page limit)),
     mkWorld (timer w + next_lag w) (wall w + next_lag w)
       (unlink (news_cache w) (cache_key category page limit) ++ [l])
       (article_cache w) (calls w) (tl (lags w))).
Proof.
  intros Hl Hlive.
  assert (Hhit : cache_contains (news_cache w) (timer w)
                   (cache_key category page limit) = true).
  { unfold cache_contains. rewrite Hl. apply Z.ltb_lt, Hlive. }
  rewrite get_news_feed_cached by exact Hhit.
  unfold news_cache_getitem, later, cache_getitem.
  cbn [news_cache timer wall article_cache calls lags]. rewrite Hl. reflexivity.
Qed.

Lemma get_news_feed_fresh (category : string) (page limit : Z)
  (force_refresh : bool) (w : World) :
  fresh_pass category page limit force_refresh w ->
  get_news_feed cfg scrapers category page limit force_refresh w
  = match fetch_tasks scrapers category limit with
    | [] => empty_feed category page limit w
    | _ :: _ =>
        try_except (fetch_merge_store cfg scrapers category page limit)
          (fun _ => empty_feed category page limit) w
    end.
Proof.
  intros Hfresh. unfold get_news_feed, bind, news_cache_contains.
  assert (Hcond : negb force_refresh
                  && cache_contains (news_cache w) (timer w)
                       (cache_key category page limit) = false).
  { destruct Hfresh as [->| ->]; [reflexivity | apply andb_false_r]. }
  rewrite Hcond. destruct (fetch_tasks scrapers category limit); reflexivity.
Qed.

Lemma get_news_feed_no_scraper (category : string) (page limit : Z)
  (force_refresh : bool) (w : World) :
  fresh_pass category page limit force_refresh w ->
  matching_scrapers scrapers category = [] ->
  get_news_feed cfg scrapers category page limit force_refresh w
  = (Ok (mkNewsFeed [] category page limit 0 (wall w)), w).
Proof.
  intros Hfresh Hnil. rewrite get_news_feed_fresh by exact Hfresh.
  apply fetch_tasks_nil with (limit := limit) in Hnil. rewrite Hnil.
  reflexivity.
Qed.

Lemma get_news_feed_raise (category : string) (page limit : Z)
  (force_refresh : bool) (w : World) (e : PyException) :
  fresh_pass category page limit force_refresh w ->
  fanout_results scrapers category limit (wall w) = Raise e ->
  get_news_feed cfg scrapers category page limit force_refresh w
  = (Ok (mkNewsFeed [] category page limit 0 (wall w)),
     log_calls w (fanout_calls scrapers category limit)).
Proof.
  intros Hfresh Hres. rewrite get_news_feed_fresh by exact Hfresh.
  destruct (fetch_tasks scrapers category limit) as [|t ts] eqn:Ht.
  - apply fetch_tasks_nil in Ht. unfold fanout_results in Hres.
    rewrite Ht in Hres. discriminate.
  - unfold try_except.
    rewrite (fetch_merge_store_raise _ page _ _ _ Hres). reflexivity.
Qed.

Lemma get_news_feed_built (category : string) (page limit : Z)
  (force_refresh : bool) (w : World) (lists : list (list NewsArticle)) :
  fresh_pass category page limit force_refresh w ->
  matching_scrapers scrapers category <> [] ->
  fanout_results scrapers category limit (wall w) = Ok lists ->
  get_news_feed cfg scrapers category page limit force_refresh w
  = (Ok (built_feed lists category page limit (wall w)),
     after_store cfg w (cache_key category page limit)
       (built_feed lists category page limit (wall w))
       (fanout_calls scrapers category limit)).
Proof.
  intros Hfresh Hne Hres. rewrite get_news_feed_fresh by exact Hfresh.
  destruct (fetch_tasks scrapers category limit) as [|t ts] eqn:Ht.
  - apply fetch_tasks_nil in Ht. contradiction.
  - unfold try_except.
    rewrite (fetch_merge_store_ok _ page _ _ _ Hres). reflexivity.
Qed.

(** With no matching scraper the built feed is the empty feed. *)
Lemma built_feed_nil (category : string) (page limit now : Z) :
  built_feed [] category page limit now
  = mkNewsFeed [] category page limit 0 now.
Proof.
  unfold built_feed, page_of, merged, py_slice. simpl.
  rewrite skipn_nil, firstn_nil. reflexivity.
Qed.

(** A call is either answered from the cache or is a fresh pass. *)
Lemma cached_or_fresh (category : string) (page limit : Z)
  (force_refresh : bool) (w : World) :
  (force_refresh = false
   /\ cache_contains (news_cache w) (timer w) (cache_key category page limit)
      = true)
  \/ fresh_pass category page limit force_refresh w.
Proof.
  unfold fresh_pass. destruct force_refresh; [right; left; reflexivity|].
  destruct (cache_contains _ _ _); [left; split; reflexivity|].
  right. right. reflexivity.
Qed.

End ServiceFacts.

(* ===================================================================== *)
(** * The feed: order, errors and caches *)
(* ===================================================================== *)

Section FeedFacts.
Variable cfg : Settings.
Variable scrapers : Registry.

(** The three ways a fresh pass can go. *)
Lemma fresh_pass_cases (category : string) (page limit : Z)
  (force_refresh : bool) (w : World) :
  fresh_pass category page limit force_refresh w ->
  (matching_scrapers scrapers category = []
   /\ get_news_feed cfg scrapers category page limit force_refresh w
      = (Ok (mkNewsFeed [] category page limit 0 (wall w)), w))
  \/ (exists e,
        fanout_results scrapers category limit (wall w) = Raise e
        /\ get_news_feed cfg scrapers category page limit force_refresh w
           = (Ok (mkNewsFeed [] category page limit 0 (wall w)),
              log_calls w (fanout_calls scrapers category limit)))
  \/ (exists lists,
        matching_scrapers scrapers category <> []
        /\ fanout_results scrapers category limit (wall w) = Ok lists
        /\ get_news_feed cfg scrapers category page limit force_refresh w
           = (Ok (built_feed lists category page limit (wall w)),
              after_store cfg w (cache_key category page limit)
                (built_feed lists category page limit (wall w))
                (fanout_calls scrapers category limit))).
Proof.
  intros Hfresh.
  destruct (matching_scrapers scrapers category) as [|x m] eqn:Hm.
  - left. split; [reflexivity|].
    apply get_news_feed_no_scraper; assumption.
  - right.
    destruct (fanout_results scrapers category limit (wall w)) as [lists|e] eqn:Hr.
    + right. exists lists. split; [discriminate|]. split; [reflexivity|].
      apply get_news_feed_built; [assumption | rewrite Hm; discriminate | assumption].
    + left. exists e. split; [reflexivity|].
      apply get_news_feed_raise with (e := e); assumption.
Qed.

(** A pass that is not answered from the cache returns a feed, whatever
    the scrapers do. *)
Lemma fresh_pass_returns (category : string) (page limit : Z)
  (force_refresh : bool) (w : World) :
  fresh_pass category page limit force_refresh w ->
  exists feed w',
    get_news_feed cfg scrapers category page limit force_refresh w = (Ok feed, w').
Proof.
  intros Hfresh.
  destruct (fresh_pass_cases category page limit force_refresh w Hfresh)
    as [[_ ->]|[(e & _ & ->)|(lists & _ & _ & ->)]];
    eexists _, _; reflexivity.
Qed.

(** The only exception that leaves [get_news_feed] is the [KeyError] of
    the lookup of an item that was live at the membership test and has
    expired since; the call has then made no scraper call and has kept
    the bindings of both caches. *)
Lemma get_news_feed_raises (category : string) (page limit : Z)
  (force_refresh : bool) (w w' : World) (e : PyException) :
  get_news_feed cfg scrapers category page limit force_refresh w = (Raise e, w') ->
  force_refresh = false
  /\ cache_contains (news_cache w) (timer w) (cache_key category page limit)
     = true
  /\ cache_contains (news_cache w) (timer w + next_lag w)
       (cache_key category page limit) = false
  /\ e = KeyError (cache_key category page limit)
  /\ calls w' = calls w
  /\ article_cache w' = article_cache w
  /\ (forall key, getlink (news_cache w') key = getlink (news_cache w) key).
Proof.
  intros Hrun.
  destruct (cached_or_fresh category page limit force_refresh w)
    as [[-> Hhit]|Hfresh].
  - destruct (cache_getitem_live _ _ _ Hhit) as (l & Hl & _).
    assert (Hlive : timer w < link_expires l).
    { unfold cache_contains in Hhit. rewrite Hl in Hhit. apply Z.ltb_lt, Hhit. }
    rewrite (get_news_feed_lookup cfg scrapers category page limit w l Hl Hlive)
      in Hrun.
    split; [reflexivity|]. split; [exact Hhit|].
    unfold cache_contains. rewrite Hl.
    destruct (timer w + next_lag w <? link_expires l); [discriminate|].
    injection Hrun as <- <-. cbn [calls article_cache news_cache].
    repeat split; try reflexivity.
    intros key. apply getlink_moved, Hl.
  - destruct (fresh_pass_returns category page limit force_refresh w Hfresh)
      as (feed & w1 & Hok).
    rewrite Hok in Hrun. discriminate.
Qed.

(** A fresh pass calls every matching scraper, once, in registry order. *)
Lemma fresh_pass_calls (category : string) (page limit : Z)
  (force_refresh : bool) (w : World) :
  fresh_pass category page limit force_refresh w ->
  calls (snd (get_news_feed cfg scrapers category page limit force_refresh w))
  = calls w ++ fanout_calls scrapers category limit.
Proof.
  intros Hfresh.
  destruct (fresh_pass_cases category page limit force_refresh w Hfresh)
    as [[Hm ->]|[(e & _ & ->)|(lists & _ & _ & ->)]]; simpl; try reflexivity.
  unfold fanout_calls. rewrite Hm. simpl. rewrite app_nil_r. reflexivity.
Qed.

End FeedFacts.

Lemma built_feed_concat (lists lists' : list (list NewsArticle))
  (category : string) (page limit now : Z) :
  List.concat lists' = List.concat lists ->
  built_feed lists' category page limit now
  = built_feed lists category page limit now.
Proof. unfold built_feed, merged. intros ->. reflexivity. Qed.

(** The feed of a fresh pass is a function of what the join returns. *)
Lemma fresh_feed_of_results (cfg : Settings) (scrapers : Registry)
  (category : string) (page limit : Z) (force_refresh : bool) (w : World) :
  fresh_pass category page limit force_refresh w ->
  fst (get_news_feed cfg scrapers category page limit force_refresh w)
  = Ok (match fanout_results scrapers category limit (wall w) with
        | Ok lists => built_feed lists category page limit (wall w)
        | Raise _ => mkNewsFeed [] category page limit 0 (wall w)
        end).
Proof.
  intros Hfresh.
  destruct (fresh_pass_cases cfg scrapers category page limit force_refresh w Hfresh)
    as [[Hm ->]|[(e & -> & ->)|(lists & _ & -> & ->)]]; try reflexivity.
  unfold fanout_results. rewrite Hm. simpl. rewrite built_feed_nil.
  reflexivity.
Qed.

(** C5. In the feed returned by a pass that is not answered from the
    cache, each article is at least as recent as the next one. When the
    join of the fetch tasks returns, the articles are the page window of
    the concatenation of the lists returned by the scrapers, sorted by
    decreasing publication time: the sorted list is a permutation of the
    concatenation, it is sorted, and articles of equal time keep the order
    of the concatenation, in the whole list and in the page. *)
Theorem fresh_feed_sorted_stable (cfg : Settings) (scrapers : Registry)
  (category : string) (page limit : Z) (force_refresh : bool) (w : World) :
  fresh_pass category page limit force_refresh w ->
  exists feed w',
    get_news_feed cfg scrapers category page limit force_refresh w = (Ok feed, w')
    /\ (forall i a b,
          nth_error (articles feed) i = Some a ->
          nth_error (articles feed) (S i) = Some b ->
          published_at b <= published_at a)
    /\ (forall lists,
          fanout_results scrapers category limit (wall w) = Ok lists ->
          articles feed
          = py_slice (sort_desc published_at (List.concat lists))
              ((page - 1) * limit) ((page - 1) * limit + limit)
          /\ Permutation (sort_desc published_at (List.concat lists))
               (List.concat lists)
          /\ StronglySorted (desc published_at)
               (sort_desc published_at (List.concat lists))
          /\ (forall t,
                with_key published_at t
                  (sort_desc published_at (List.concat lists))
                = with_key published_at t (List.concat lists))
          /\ (forall t, exists before after,
                with_key published_at t (List.concat lists)
                = before ++ with_key published_at t (articles feed) ++ after)).
Proof.
  intros Hfresh.
  destruct (fresh_pass_returns cfg scrapers category page limit force_refresh w
              Hfresh) as (feed & w' & Hrun).
  pose proof (fresh_feed_of_results cfg scrapers category page limit
                force_refresh w Hfresh) as Hfeed.
  rewrite Hrun in Hfeed. cbn [fst] in Hfeed. injection Hfeed as Hfeed.
  exists feed, w'. split; [exact Hrun|]. split.
  - intros i a b Ha Hb.
    destruct (fanout_results scrapers category limit (wall w)) as [lists|e].
    + subst feed. unfold built_feed, page_of, merged in Ha, Hb.
      cbn [articles] in Ha, Hb.
      apply (sorted_adjacent published_at _ i a b) in Ha; [exact Ha| |exact Hb].
      destruct (py_slice_window (sort_desc published_at (List.concat lists))
                  ((page - 1) * limit) ((page - 1) * limit + limit))
        as (before & after & Hwin).
      pose proof (sort_desc_sorted published_at (List.concat lists)) as Hsorted.
      rewrite Hwin in Hsorted.
      apply sorted_app_inv_r in Hsorted. apply sorted_app_inv_l in Hsorted.
      exact Hsorted.
    + subst feed. destruct i; discriminate.
  - intros lists Hres. rewrite Hres in Hfeed. subst feed.
    unfold built_feed, page_of, merged. cbn [articles].
    split; [reflexivity|].
    split; [apply sort_desc_perm|]. split; [apply sort_desc_sorted|].
    split; [intros t; apply sort_desc_stable|].
    intros t.
    destruct (py_slice_window (sort_desc published_at (List.concat lists))
                ((page - 1) * limit) ((page - 1) * limit + limit))
      as (before & after & Hwin).
    rewrite <- (sort_desc_stable published_at t (List.concat lists)).
    exists (with_key published_at t before), (with_key published_at t after).
    rewrite Hwin at 1. unfold with_key. rewrite !filter_app. reflexivity.
Qed.

Lemma fresh_feed_sorted_stable_witness :
  exists feed w',
    get_news_feed settings sample_scrapers "realtime" 1 3 false initial_world
    = (Ok feed, w')
    /\ map id (articles feed) = ["srcA-1"; "srcB-2"; "srcB-1"].
Proof.
  destruct (fresh_feed_sorted_stable settings sample_scrapers "realtime" 1 3
              false initial_world (or_intror eq_refl))
    as (feed & w' & Hrun & _ & Hlists).
  destruct (Hlists [srcA_items; srcB_items] eq_refl) as (Harticles & _).
  exists feed, w'. split; [exact Hrun|]. rewrite Harticles. reflexivity.
Defined.

(** A call without [force_refresh] in a world whose feed cache holds,
    under the key, an item that is still live when it is looked up returns
    that item and calls no scraper. *)
Lemma served_from_cache (cfg : Settings) (scrapers : Registry)
  (category : string) (page limit : Z) (w : World) (l : Link NewsFeed) :
  getlink (news_cache w) (cache_key category page limit) = Some l ->
  timer w + next_lag w < link_expires l ->
  exists w',
    get_news_feed cfg scrapers category page limit false w
    = (Ok (link_value l), w')
    /\ calls w' = calls w
    /\ timer w' = timer w + next_lag w
    /\ article_cache w' = article_cache w
    /\ (forall key, getlink (news_cache w') key = getlink (news_cache w) key).
Proof.
  intros Hl Hlive. pose proof (next_lag_nonneg w) as Hlag.
  rewrite (get_news_feed_lookup cfg scrapers category page limit w l Hl)
    by lia.
  destruct (Z.ltb_spec (timer w + next_lag w) (link_expires l)) as [_|Hexp];
    [|lia].
  eexists. split; [reflexivity|]. cbn [calls timer article_cache news_cache].
  split; [reflexivity|]. split; [reflexivity|]. split; [reflexivity|].
  intros key. apply getlink_moved, Hl.
Qed.



(** C7. A call of [get_news_feed] with [force_refresh] calls every
    matching scraper whatever the feed cache holds, and when the pass goes
    through, the item of the feed cache under the key is the feed that was
    just built, stored with a full time-to-live. *)
Theorem force_refresh_writes_through (cfg : Settings) (scrapers : Registry)
  (category : string) (page limit : Z) (w : World) :
  let pass := get_news_feed cfg scrapers category page limit true w in
  calls (snd pass) = calls w ++ fanout_calls scrapers category limit
  /\ (forall lists,
        matching_scrapers scrapers category <> [] ->
        fanout_results scrapers category limit (wall w) = Ok lists ->
        fst pass = Ok (built_feed lists category page limit (wall w))
        /\ getlink (news_cache (snd pass)) (cache_key category page limit)
           = Some (mkLink (cache_key category page limit)
                     (built_feed lists category page limit (wall w))
                     (timer w + CACHE_EXPIRATION cfg))).
Proof.
  intros pass. split.
  - apply fresh_pass_calls. left. reflexivity.
  - intros lists Hne Hres. subst pass.
    rewrite (get_news_feed_built cfg scrapers category page limit true w lists
               (or_introl eq_refl) Hne Hres).
    unfold after_store. cbn [fst snd news_cache]. split; [reflexivity|].
    destruct (cache_setitem_stores news_cache_maxsize (CACHE_EXPIRATION cfg)
                (news_cache w) (timer w) (cache_key category page limit)
                (built_feed lists category page limit (wall w)))
      as (c' & Hset & Hlink).
    { unfold news_cache_maxsize. lia. }
    rewrite Hset. exact Hlink.
Qed.

Lemma force_refresh_writes_through_witness :
  cache_contains (news_cache (elapse 60 warm_world)) 60
    (cache_key "realtime" 1 3) = true
  /\ calls (snd (get_news_feed settings sample_scrapers "realtime" 1 3 true
                   (elapse 60 warm_world)))
     = calls warm_world ++ [FetchArticles "srcA" 3; FetchArticles "srcB" 3]
  /\ stored
       (news_cache
          (snd (get_news_feed settings sample_scrapers "realtime" 1 3 true
                  (elapse 60 warm_world))))
       (cache_key "realtime" 1 3)
     = Some (built_feed [srcA_items; srcB_items] "realtime" 1 3 60).
Proof.
  destruct (force_refresh_writes_through settings sample_scrapers "realtime"
              1 3 (elapse 60 warm_world)) as [Hcalls Hstore].
  destruct (Hstore [srcA_items; srcB_items]) as [_ Hlink];
    [discriminate | reflexivity |].
  split; [reflexivity|]. split; [exact Hcalls|].
  unfold stored. rewrite Hlink. reflexivity.
Defined.

(** C8. Whatever the inputs and whatever the scrapers do, an error in the
    [try] block of [get_news_feed] (the join of the fetch tasks, the merge
    and the stores) is turned into the empty feed of the requested
    category, page and limit with total 0: a pass that reaches the fan-out
    (one that is not answered from the cache) returns a feed in every
    case, and no error of the fan-out or of the merge leaves
    [get_news_feed]. An exception that leaves it can only come from
    before the [try]: it is the [KeyError] of the lookup of an item that
    has expired since the membership test, raised without any scraper
    call. *)
Theorem get_news_feed_contains_errors (cfg : Settings) (scrapers : Registry)
  (category : string) (page limit : Z) (force_refresh : bool) (w : World) :
  (fresh_pass category page limit force_refresh w ->
   exists feed w',
     get_news_feed cfg scrapers category page limit force_refresh w
     = (Ok feed, w'))
  /\ (forall e w1,
        fresh_pass category page limit force_refresh w ->
        fetch_merge_store cfg scrapers category page limit w = (Raise e, w1) ->
        get_news_feed cfg scrapers category page limit force_refresh w
        = (Ok (mkNewsFeed [] category page limit 0 (wall w)), w1))
  /\ (forall e,
        fresh_pass category page limit force_refresh w ->
        fanout_results scrapers category limit (wall w) = Raise e ->
        exists w',
          get_news_feed cfg scrapers category page limit force_refresh w
          = (Ok (mkNewsFeed [] category page limit 0 (wall w)), w'))
  /\ (forall e w',
        get_news_feed cfg scrapers category page limit force_refresh w
        = (Raise e, w') ->
        force_refresh = false
        /\ cache_contains (news_cache w) (timer w)
             (cache_key category page limit) = true
        /\ cache_contains (news_cache w) (timer w + next_lag w)
             (cache_key category page limit) = false
        /\ e = KeyError (cache_key category page limit)
        /\ calls w' = calls w).
Proof.
  split; [apply fresh_pass_returns|]. split; [|split].
  - intros e w1 Hfresh Hraise.
    apply fetch_merge_store_raise_inv in Hraise. destruct Hraise as [Hres ->].
    apply get_news_feed_raise with (e := e); assumption.
  - intros e Hfresh Hres. eexists.
    apply get_news_feed_raise with (e := e); assumption.
  - intros e w' Hrun.
    destruct (get_news_feed_raises cfg scrapers _ _ _ _ _ _ _ Hrun)
      as (Hf & Hhit & Hexp & He & Hcalls & _).
    repeat split; assumption.
Qed.

Lemma get_news_feed_contains_errors_witness :
  exists w',
    get_news_feed settings degraded_scrapers "technology" 2 3 true
      initial_world
    = (Ok (mkNewsFeed [] "technology" 2 3 0 0), w').
Proof.
  destruct (get_news_feed_contains_errors settings degraded_scrapers
              "technology" 2 3 true initial_world) as (_ & _ & Hraise & _).
  apply (Hraise (Exception "upstream unreachable"));
    [left; reflexivity | reflexivity].
Defined.

(** C9 (amended). When [get_news_feed] takes a degraded path (no scraper
    matches the category, or the join of the fetch tasks raises), it
    returns the empty feed and leaves the feed cache and the article cache
    exactly as they were. A later call with the same key is therefore
    never answered with the degraded feed. It is a fresh pass again, and
    calls the matching scrapers again, when it is made with
    [force_refresh] or when the feed cache holds no live item for the key,
    which is always so after a degraded call made without [force_refresh];
    when it finds a live item, which was there before the degraded call,
    it returns that earlier feed and calls no scraper. *)
Theorem degraded_pass_leaves_caches (cfg : Settings) (scrapers : Registry)
  (category : string) (page limit : Z) (force_refresh : bool) (w : World) :
  fresh_pass category page limit force_refresh w ->
  matching_scrapers scrapers category = []
  \/ (exists e, fanout_results scrapers category limit (wall w) = Raise e) ->
  exists w',
    get_news_feed cfg scrapers category page limit force_refresh w
    = (Ok (mkNewsFeed [] category page limit 0 (wall w)), w')
    /\ news_cache w' = news_cache w
    /\ article_cache w' = article_cache w
    /\ (forall d again,
          0 <= d ->
          again = true
          \/ cache_contains (news_cache w) (timer w + d)
               (cache_key category page limit) = false ->
          fresh_pass category page limit again (elapse d w')
          /\ calls (snd (get_news_feed cfg scrapers category page limit again
                           (elapse d w')))
             = calls w' ++ fanout_calls scrapers category limit)
    /\ (force_refresh = false ->
        forall d,
          0 <= d ->
          cache_contains (news_cache w) (timer w + d)
            (cache_key category page limit) = false)
    /\ (forall d l,
          0 <= d ->
          getlink (news_cache w) (cache_key category page limit) = Some l ->
          timer (elapse d w') + next_lag (elapse d w') < link_expires l ->
          exists w'',
            get_news_feed cfg scrapers category page limit false (elapse d w')
            = (Ok (link_value l), w'')
            /\ calls w'' = calls w').
Proof.
  intros Hfresh Hdegraded.
  assert (Hrun : exists w',
             get_news_feed cfg scrapers category page limit force_refresh w
             = (Ok (mkNewsFeed [] category page limit 0 (wall w)), w')
             /\ news_cache w' = news_cache w
             /\ article_cache w' = article_cache w
             /\ timer w' = timer w).
  { destruct Hdegraded as [Hnil|[e He]].
    - exists w. rewrite get_news_feed_no_scraper by assumption.
      repeat split; reflexivity.
    - eexists. rewrite get_news_feed_raise with (e := e) by assumption.
      repeat split; reflexivity. }
  destruct Hrun as (w' & Hrun & Hnews & Harticle & Htimer).
  exists w'. split; [exact Hrun|]. split; [exact Hnews|].
  split; [exact Harticle|]. split; [|split].
  - intros d again Hd Hagain.
    assert (Hpass : fresh_pass category page limit again (elapse d w')).
    { destruct Hagain as [->|Hmiss]; [left; reflexivity|].
      right. unfold elapse. cbn [news_cache timer]. rewrite Hnews, Htimer.
      exact Hmiss. }
    split; [exact Hpass|].
    rewrite fresh_pass_calls by exact Hpass. reflexivity.
  - intros -> d Hd.
    destruct Hfresh as [Hf|Hmiss]; [discriminate|].
    apply cache_contains_later; assumption.
  - intros d l Hd Hl Hlive.
    destruct (served_from_cache cfg scrapers category page limit (elapse d w') l)
      as (w'' & Hagain & Hcalls & _).
    { unfold elapse. cbn [news_cache]. rewrite Hnews. exact Hl. }
    { exact Hlive. }
    exists w''. split; [exact Hagain | exact Hcalls].
Qed.

Lemma degraded_pass_leaves_caches_witness :
  exists w',
    get_news_feed settings sample_scrapers "sports" 2 10 false initial_world
    = (Ok (mkNewsFeed [] "sports" 2 10 0 0), w')
    /\ news_cache w' = [] /\ article_cache w' = [].
Proof.
  destruct (degraded_pass_leaves_caches settings sample_scrapers "sports" 2 10
              false initial_world (or_intror eq_refl) (or_introl eq_refl))
    as (w' & Hrun & Hnews & Harticle & _).
  exists w'. split; [exact Hrun|]. split; assumption.
Defined.

(** C9 as stated fails: the feed of the source is in the feed cache and
    live when a call with [force_refresh] takes the degraded path, the
    source being down. Both caches are left as they were, and the next
    call with the same key is served the earlier feed: it does not attempt
    the fan-out again. *)
Lemma forced_degraded_pass_is_not_retried :
  fanout_results flaky_scrapers "technology" 3 (wall flaky_world)
  = Raise (Exception "upstream unreachable")
  /\ get_news_feed settings flaky_scrapers "technology" 1 3 true flaky_world
     = (Ok (mkNewsFeed [] "technology" 1 3 0 60),
        log_calls flaky_world [FetchArticles "srcA" 3])
  /\ news_cache (log_calls flaky_world [FetchArticles "srcA" 3])
     = news_cache flaky_world
  /\ article_cache (log_calls flaky_world [FetchArticles "srcA" 3])
     = article_cache flaky_world
  /\ fanout_calls flaky_scrapers "technology" 3 = [FetchArticles "srcA" 3]
  /\ fst (get_news_feed settings flaky_scrapers "technology" 1 3 false
            (log_calls flaky_world [FetchArticles "srcA" 3]))
     = Ok (built_feed [srcA_items] "technology" 1 3 0)
  /\ calls (snd (get_news_feed settings flaky_scrapers "technology" 1 3 false
                   (log_calls flaky_world [FetchArticles "srcA" 3])))
     = calls (log_calls flaky_world [FetchArticles "srcA" 3])
  /\ calls (snd (get_news_feed settings flaky_scrapers "technology" 1 3 false
                   (log_calls flaky_world [FetchArticles "srcA" 3])))
     <> calls (log_calls flaky_world [FetchArticles "srcA" 3])
        ++ fanout_calls flaky_scrapers "technology" 3.
Proof.
  repeat (split; [vm_compute; reflexivity|]).
  vm_compute. discriminate.
Qed.

(* ===================================================================== *)
(** * Articles and their content *)
(* ===================================================================== *)

Section ArticleFacts.
Variable cfg : Settings.
Variable scrapers : Registry.

(** A call that the membership test lets through to the lookup: it
    returns the stored article when the item is still live at the lookup,
    and raises [KeyError] when the item has expired since the test. *)
Lemma get_article_lookup (article_id : string) (w : World)
  (l : Link NewsArticle) :
  getlink (article_cache w) article_id = Some l ->
  timer w < link_expires l ->
  get_article cfg scrapers article_id false w
  = (if timer w + next_lag w <? link_expires l then Ok (Some (link_value l))
     else Raise (KeyError article_id),
     mkWorld (timer w + next_lag w) (wall w + next_lag w) (news_cache w)
       (unlink (article_cache w) article_id ++ [l]) (calls w) (tl (lags w))).
Proof.
  intros Hl Hlive.
  assert (Hhit : cache_contains (article_cache w) (timer w) article_id = true).
  { unfold cache_contains. rewrite Hl. apply Z.ltb_lt, Hlive. }
  unfold get_article, bind at 1, article_cache_contains. rewrite Hhit.
  cbn [negb andb]. unfold bind, time_passes, article_cache_getitem, later,
    cache_getitem.
  cbn [article_cache timer wall news_cache calls lags]. rewrite Hl.
  destruct (timer w + next_lag w <? link_expires l); reflexivity.
Qed.

Lemma get_article_cached (article_id : string) (w : World) :
  cache_contains (article_cache w) (timer w + next_lag w) article_id = true ->
  exists l,
    getlink (article_cache w) article_id = Some l
    /\ get_article cfg scrapers article_id false w
       = (Ok (Some (link_value l)),
          mkWorld (timer w + next_lag w) (wall w + next_lag w) (news_cache w)
            (unlink (article_cache w) article_id ++ [l]) (calls w)
            (tl (lags w))).
Proof.
  intros Hhit. destruct (cache_getitem_live _ _ _ Hhit) as (l & Hl & _).
  exists l. split; [exact Hl|].
  assert (Hlive : timer w + next_lag w < link_expires l).
  { unfold cache_contains in Hhit. rewrite Hl in Hhit. apply Z.ltb_lt, Hhit. }
  pose proof (next_lag_nonneg w) as Hlag.
  rewrite (get_article_lookup article_id w l Hl) by lia.
  destruct (Z.ltb_spec (timer w + next_lag w) (link_expires l)); [reflexivity|lia].
Qed.

Lemma get_article_uncached (article_id : string) (force_refresh : bool)
  (w : World) :
  force_refresh = true
  \/ cache_contains (article_cache w) (timer w) article_id = false ->
  get_article cfg scrapers article_id force_refresh w
  = if negb (contains_char dash article_id) then (Ok None, w)
    else search_scrapers cfg article_id scrapers w.
Proof.
  intros Hmiss. unfold get_article, bind, article_cache_contains.
  assert (Hcond : negb force_refresh
                  && cache_contains (article_cache w) (timer w) article_id
                  = false).
  { destruct Hmiss as [->| ->]; [reflexivity | apply andb_false_r]. }
  rewrite Hcond. destruct (contains_char dash article_id); reflexivity.
Qed.

(** The loop of [get_article] passes the scrapers that the id does not
    route to: with no match in the registry it finds nothing. *)
Lemma search_scrapers_no_match (article_id : string) (l : Registry) (w : World) :
  find_scraper (source_token article_id) l = None ->
  search_scrapers cfg article_id l w = (Ok None, w).
Proof.
  unfold find_scraper. induction l as [|[k s] l IH]; simpl; intros H.
  - reflexivity.
  - destruct (routes_to k (source_token article_id)); [discriminate|].
    apply IH, H.
Qed.

(** The loop of [get_article] stops at the first matching scraper when
    that scraper returns an item with the id. *)
Lemma search_scrapers_first_match (article_id : string) (l : Registry)
  (w : World) (sid : string) (s : Scraper) (items : list NewsArticle)
  (article : NewsArticle) :
  find_scraper (source_token article_id) l = Some (sid, s) ->
  fetch_articles s (wall w) 50 = Ok items ->
  find (fun a => String.eqb (id a) article_id) items = Some article ->
  exists w',
    search_scrapers cfg article_id l w = (Ok (Some article), w')
    /\ wall w' = wall w
    /\ news_cache w' = news_cache w
    /\ calls w' = calls w ++ [FetchArticles sid 50].
Proof.
  unfold find_scraper. intros Hfind Hitems Hitem.
  induction l as [|[k s'] l IH]; simpl in Hfind; [discriminate|].
  simpl search_scrapers.
  destruct (routes_to k (source_token article_id)).
  - injection Hfind as -> ->.
    unfold bind at 1, await_fetch_articles at 1. rewrite Hitems, Hitem.
    unfold bind, article_cache_setitem.
    cbn [timer wall news_cache article_cache calls].
    destruct (cache_setitem_stores article_cache_maxsize (CACHE_EXPIRATION cfg)
                (article_cache w) (timer w) article_id article)
      as (c' & Hset & _).
    { unfold article_cache_maxsize. lia. }
    rewrite Hset. eexists. split; [reflexivity|].
    repeat split; reflexivity.
  - apply IH, Hfind.
Qed.

End ArticleFacts.

(** C3 (amended). For an article id with a ["-"] whose source token is
    matched by a scraper of the registry (the scraper id equals the token
    or is a leading prefix of it): when [get_article] resolves the id to
    an article, [get_article_content] returns what the first matching
    scraper, in the order of the registry, fetches for the URL of that
    article; in particular, after a miss of the article cache, when that
    first scraper returns an item with the id. When no scraper of the
    registry matches the token, [get_article_content] returns [None],
    whether the id misses the article cache or is found there by the
    lookup. *)
Theorem content_from_first_matching_scraper (cfg : Settings)
  (scrapers : Registry) (article_id : string) (w : World) :
  (contains_char dash article_id = true ->
   forall sid s,
     find_scraper (source_token article_id) scrapers = Some (sid, s) ->
     (forall article w1,
        get_article cfg scrapers article_id false w = (Ok (Some article), w1) ->
        get_article_content cfg scrapers article_id w
        = (fetch_article_content s (wall w1) (url article),
           log_calls w1 [FetchArticleContent sid (url article)]))
     /\ (forall items article,
           cache_contains (article_cache w) (timer w) article_id = false ->
           fetch_articles s (wall w) 50 = Ok items ->
           find (fun a => String.eqb (id a) article_id) items = Some article ->
           fst (get_article_content cfg scrapers article_id w)
           = fetch_article_content s (wall w) (url article)
           /\ calls (snd (get_article_content cfg scrapers article_id w))
              = calls w ++ [FetchArticles sid 50;
                            FetchArticleContent sid (url article)]))
  /\ (find_scraper (source_token article_id) scrapers = None ->
      cache_contains (article_cache w) (timer w) article_id = false
      \/ cache_contains (article_cache w) (timer w + next_lag w) article_id
         = true ->
      fst (get_article_content cfg scrapers article_id w) = Ok None).
Proof.
  split.
  - intros Hdash sid s Hfind.
    assert (Hresolved : forall article w1,
               get_article cfg scrapers article_id false w
               = (Ok (Some article), w1) ->
               get_article_content cfg scrapers article_id w
               = (fetch_article_content s (wall w1) (url article),
                  log_calls w1 [FetchArticleContent sid (url article)])).
    { intros article w1 Hget. unfold get_article_content, bind.
      rewrite Hget, Hdash, Hfind. reflexivity. }
    split; [exact Hresolved|].
    intros items article Hmiss Hitems Hitem.
    destruct (search_scrapers_first_match cfg article_id scrapers w sid s
                items article Hfind Hitems Hitem)
      as (w1 & Hsearch & Hwall & _ & Hcalls).
    assert (Hget : get_article cfg scrapers article_id false w
                   = (Ok (Some article), w1)).
    { rewrite get_article_uncached by (right; exact Hmiss).
      rewrite Hdash. exact Hsearch. }
    rewrite (Hresolved article w1 Hget). simpl.
    rewrite Hwall, Hcalls, <- app_assoc. split; reflexivity.
  - intros Hnone [Hmiss|Hhit].
    + unfold get_article_content, bind.
      rewrite get_article_uncached by (right; exact Hmiss).
      destruct (contains_char dash article_id); simpl; [|reflexivity].
      rewrite search_scrapers_no_match by exact Hnone. reflexivity.
    + destruct (get_article_cached cfg scrapers article_id w Hhit)
        as (l & _ & Hget).
      unfold get_article_content, bind. rewrite Hget, Hnone.
      destruct (contains_char dash article_id); reflexivity.
Qed.

Lemma content_from_first_matching_scraper_witness :
  fst (get_article_content settings sample_scrapers "srcA-1" initial_world)
  = Ok (Some "srcA body of https://example.com/srcA-1")
  /\ fst (get_article_content settings sample_scrapers "unknown-xyz"
            initial_world) = Ok None.
Proof.
  split.
  - destruct (content_from_first_matching_scraper settings sample_scrapers
                "srcA-1" initial_world) as [Hfound _].
    destruct (Hfound eq_refl "srcA" (StubScraper "srcA" "technology" srcA_items)
                eq_refl) as [_ Hitem].
    destruct (Hitem srcA_items (stub_article "srcA-1" 30) eq_refl eq_refl eq_refl)
      as [Hbody _].
    exact Hbody.
  - destruct (content_from_first_matching_scraper settings sample_scrapers
                "unknown-xyz" initial_world) as [_ Hnone].
    apply Hnone; [reflexivity | left; reflexivity].
Defined.

(** C3 as stated fails: the id ["reddit_worldnews-0"] belongs to the
    registered scraper ["reddit_worldnews"] by exact match and is a known
    item of that scraper, yet the content comes from the scraper
    ["reddit"], which stands before it in the registry and whose id is a
    prefix of the token. *)
Lemma content_not_from_the_owning_scraper :
  In ("reddit_worldnews", worldnews_scraper) composite_scrapers
  /\ routes_to "reddit_worldnews" (source_token "reddit_worldnews-0") = true
  /\ fetch_articles worldnews_scraper 0 50 = Ok [worldnews_item]
  /\ id worldnews_item = "reddit_worldnews-0"
  /\ fetch_article_content worldnews_scraper 0 (url worldnews_item)
     = Ok (Some "reddit_worldnews body of https://example.com/reddit_worldnews-0")
  /\ fst (get_article_content settings composite_scrapers "reddit_worldnews-0"
            initial_world)
     = Ok (Some "reddit body of https://example.com/reddit_worldnews-0")
  /\ fst (get_article_content settings composite_scrapers "reddit_worldnews-0"
            initial_world)
     <> fetch_article_content worldnews_scraper 0 (url worldnews_item).
Proof.
  split; [right; left; reflexivity|].
  repeat (split; [reflexivity|]).
  vm_compute. discriminate.
Qed.

(* ===================================================================== *)
(** * The fan-out: which scrapers, and what a failure costs *)
(* ===================================================================== *)

Lemma matching_scrapers_app (l1 l2 : Registry) (category : string) :
  matching_scrapers (l1 ++ l2) category
  = matching_scrapers l1 category ++ matching_scrapers l2 category.
Proof. apply filter_app. Qed.

(** A task that returns no article changes neither the articles that the
    join collects nor the exception that it raises. *)
Lemma collect_without_empty {A : Type} (rs1 rs2 : list (Outcome (list A))) :
  match collect (rs1 ++ rs2) with
  | Ok lists =>
      exists lists',
        collect (rs1 ++ Ok [] :: rs2) = Ok lists'
        /\ List.concat lists' = List.concat lists
  | Raise e => collect (rs1 ++ Ok [] :: rs2) = Raise e
  end.
Proof.
  induction rs1 as [|r rs1 IH]; simpl.
  - destruct (collect rs2) as [lists|e]; [|reflexivity].
    exists ([] :: lists). split; reflexivity.
  - destruct r as [a|e]; [|reflexivity].
    destruct (collect (rs1 ++ rs2)) as [lists|e].
    + destruct IH as (lists' & -> & Hconcat).
      exists (a :: lists'). split; [reflexivity|].
      simpl. rewrite Hconcat. reflexivity.
    + rewrite IH. reflexivity.
Qed.

(** C4 (amended). A pass of [get_news_feed] that is not answered from
    the cache does not raise, whatever the scrapers do. A scraper whose
    fetch fails inside the scraper, so that [fetch_articles] returns no
    article, is isolated: the feed is the one that the other scrapers of
    the registry give. When [fetch_articles] of a matching scraper raises,
    the join raises and the call returns the empty feed. *)
Theorem failed_scraper_isolated (cfg : Settings) (category : string)
  (page limit : Z) (force_refresh : bool) (w : World) :
  (forall scrapers,
     fresh_pass category page limit force_refresh w ->
     exists feed w',
       get_news_feed cfg scrapers category page limit force_refresh w
       = (Ok feed, w'))
  /\ (forall before scraper_id scraper after,
        fetch_articles scraper (wall w) limit = Ok [] ->
        fst (get_news_feed cfg (before ++ (scraper_id, scraper) :: after)
               category page limit force_refresh w)
        = fst (get_news_feed cfg (before ++ after)
                 category page limit force_refresh w))
  /\ (forall scrapers e,
        fresh_pass category page limit force_refresh w ->
        fanout_results scrapers category limit (wall w) = Raise e ->
        fst (get_news_feed cfg scrapers category page limit force_refresh w)
        = Ok (mkNewsFeed [] category page limit 0 (wall w))).
Proof.
  split; [intros scrapers; apply fresh_pass_returns|]. split.
  - intros before k s after Hempty.
    destruct (cached_or_fresh category page limit force_refresh w)
      as [[-> Hhit]|Hfresh].
    + rewrite !get_news_feed_cached by exact Hhit. reflexivity.
    + rewrite !fresh_feed_of_results by exact Hfresh. f_equal.
      unfold fanout_results. rewrite !matching_scrapers_app.
      change ((k, s) :: after) with ([(k, s)] ++ after).
      rewrite matching_scrapers_app. unfold matching_scrapers at 2.
      simpl filter. destruct (negb (skipped category s)); [|reflexivity].
      simpl app. rewrite !map_app. simpl map. rewrite Hempty.
      pose proof (collect_without_empty
                    (map (fun entry => fetch_articles (snd entry) (wall w) limit)
                       (matching_scrapers before category))
                    (map (fun entry => fetch_articles (snd entry) (wall w) limit)
                       (matching_scrapers after category))) as H.
      destruct (collect (_ ++ _)) as [lists|e] in H |- *.
      * destruct H as (lists' & -> & Hconcat).
        apply built_feed_concat, Hconcat.
      * rewrite H. reflexivity.
  - intros scrapers e Hfresh Hres.
    rewrite fresh_feed_of_results by exact Hfresh. rewrite Hres. reflexivity.
Qed.

Lemma failed_scraper_isolated_witness :
  fst (get_news_feed settings
         [("quiet", StubScraper "quiet" "technology" []);
          ("srcA", StubScraper "srcA" "technology" srcA_items)]
         "technology" 1 3 false initial_world)
  = fst (get_news_feed settings
           [("srcA", StubScraper "srcA" "technology" srcA_items)]
           "technology" 1 3 false initial_world)
  /\ fst (get_news_feed settings degraded_scrapers "technology" 1 3 false
            initial_world)
     = Ok (mkNewsFeed [] "technology" 1 3 0 0).
Proof.
  destruct (failed_scraper_isolated settings "technology" 1 3 false
              initial_world) as (_ & Hquiet & Hraise).
  split.
  - apply (Hquiet [] "quiet" (StubScraper "quiet" "technology" [])
             [("srcA", StubScraper "srcA" "technology" srcA_items)]).
    reflexivity.
  - apply (Hraise degraded_scrapers (Exception "upstream unreachable"));
      [right; reflexivity | reflexivity].
Defined.

(** C4 as stated fails: of two matching scrapers one raises and the other
    returns two articles; the call does not raise, but the feed holds none
    of the articles of the other scraper. *)
Lemma raising_scraper_empties_the_feed :
  fanout_calls degraded_scrapers "technology" 3
  = [FetchArticles "down" 3; FetchArticles "srcA" 3]
  /\ fetch_articles (RaisingScraper "down" "technology") 0 3
     = Raise (Exception "upstream unreachable")
  /\ fetch_articles (StubScraper "srcA" "technology" srcA_items) 0 3
     = Ok srcA_items
  /\ ~ (exists feed,
          fst (get_news_feed settings degraded_scrapers "technology" 1 3 false
                 initial_world) = Ok feed
          /\ forall a, In a srcA_items -> In a (articles feed)).
Proof.
  repeat (split; [reflexivity|]).
  intros (feed & Hfeed & Hall).
  vm_compute in Hfeed. injection Hfeed as <-.
  apply (Hall (stub_article "srcA-1" 30)). left. reflexivity.
Qed.

Lemma matching_realtime (scrapers : Registry) :
  matching_scrapers scrapers "realtime" = scrapers.
Proof.
  unfold matching_scrapers. induction scrapers as [|x l IH]; [reflexivity|].
  cbn [filter]. unfold skipped at 1. rewrite String.eqb_refl.
  cbn [negb andb]. rewrite IH. reflexivity.
Qed.

(** C1 (amended). The category that selects every scraper of the
    registry, whatever the category of each scraper, is ["realtime"]. With
    exactly two scrapers that return 5 articles each, a fresh pass of
    [get_news_feed] for ["realtime"], page 1 and limit 5 returns the first
    5 articles of the 10 sorted by decreasing publication time (5
    articles, each at least as recent as each of the 5 left out) and the
    total of the feed is 10. *)
Theorem realtime_selects_every_scraper (cfg : Settings) :
  (forall scrapers, matching_scrapers scrapers "realtime" = scrapers)
  /\ (forall k1 s1 k2 s2 force_refresh w l1 l2,
        fresh_pass "realtime" 1 5 force_refresh w ->
        fetch_articles s1 (wall w) 5 = Ok l1 -> List.length l1 = 5%nat ->
        fetch_articles s2 (wall w) 5 = Ok l2 -> List.length l2 = 5%nat ->
        exists feed w',
          get_news_feed cfg [(k1, s1); (k2, s2)] "realtime" 1 5 force_refresh w
          = (Ok feed, w')
          /\ articles feed = firstn 5 (sort_desc published_at (l1 ++ l2))
          /\ List.length (articles feed) = 5%nat
          /\ total feed = 10
          /\ Permutation
               (articles feed ++ skipn 5 (sort_desc published_at (l1 ++ l2)))
               (l1 ++ l2)
          /\ (forall a b,
                In a (articles feed) ->
                In b (skipn 5 (sort_desc published_at (l1 ++ l2))) ->
                published_at b <= published_at a)).
Proof.
  split; [apply matching_realtime|].
  intros k1 s1 k2 s2 force_refresh w l1 l2 Hfresh H1 Hlen1 H2 Hlen2.
  assert (Hres : fanout_results [(k1, s1); (k2, s2)] "realtime" 5 (wall w)
                 = Ok [l1; l2]).
  { unfold fanout_results. rewrite matching_realtime. simpl.
    rewrite H1, H2. reflexivity. }
  assert (Hne : matching_scrapers [(k1, s1); (k2, s2)] "realtime" <> []).
  { rewrite matching_realtime. discriminate. }
  assert (Hconcat : List.concat [l1; l2] = l1 ++ l2).
  { simpl. rewrite app_nil_r. reflexivity. }
  assert (Hlen : List.length (sort_desc published_at (l1 ++ l2)) = 10%nat).
  { rewrite sort_desc_length, length_app, Hlen1, Hlen2. reflexivity. }
  assert (Hpage : articles (built_feed [l1; l2] "realtime" 1 5 (wall w))
                  = firstn 5 (sort_desc published_at (l1 ++ l2))).
  { unfold built_feed, page_of, merged. cbn [articles]. rewrite Hconcat.
    rewrite py_slice_first_page by (rewrite Hlen; lia). reflexivity. }
  eexists _, _. split.
  { apply (get_news_feed_built cfg _ "realtime" 1 5 force_refresh w [l1; l2]);
      assumption. }
  split; [exact Hpage|]. rewrite Hpage.
  split; [rewrite length_firstn, Hlen; reflexivity|].
  split.
  { unfold built_feed, merged. cbn [total]. rewrite Hconcat, Hlen. reflexivity. }
  split.
  { rewrite firstn_skipn. apply sort_desc_perm. }
  intros a b Ha Hb.
  apply (sorted_app_cross published_at
           (firstn 5 (sort_desc published_at (l1 ++ l2)))
           (skipn 5 (sort_desc published_at (l1 ++ l2)))); try assumption.
  rewrite firstn_skipn. apply sort_desc_sorted.
Qed.

Lemma realtime_selects_every_scraper_witness :
  exists feed w',
    get_news_feed settings mock_scrapers "realtime" 1 5 false initial_world
    = (Ok feed, w')
    /\ List.length (articles feed) = 5%nat
    /\ total feed = 10.
Proof.
  destruct (realtime_selects_every_scraper settings) as [_ Htwo].
  destruct (Htwo "mock1"
              (MockScraper steady_pace "mock1" "Mock Source 1" "technology")
              "mock2" (MockScraper steady_pace "mock2" "Mock Source 2" "world")
              false initial_world _ _
              (or_intror eq_refl) eq_refl eq_refl eq_refl eq_refl)
    as (feed & w' & Hrun & _ & Hlen & Htotal & _).
  exists feed, w'. split; [exact Hrun|]. split; assumption.
Defined.

(** C1 as stated fails: with the two scrapers of the test-suite, of
    categories ["technology"] and ["world"], each returning 5 articles,
    the category ["all"] matches no scraper and the feed is empty with
    total 0. *)
Lemma category_all_matches_no_scraper :
  List.length mock_scrapers = 2%nat
  /\ (forall entry l,
        In entry mock_scrapers ->
        fetch_articles (snd entry) 0 5 = Ok l -> List.length l = 5%nat)
  /\ matching_scrapers mock_scrapers "all" = []
  /\ get_news_feed settings mock_scrapers "all" 1 5 false initial_world
     = (Ok (mkNewsFeed [] "all" 1 5 0 0), initial_world).
Proof.
  split; [reflexivity|]. split.
  - intros entry l [<-|[<-|[]]] H; simpl in H; injection H as <-; reflexivity.
  - split; reflexivity.
Qed.

(* ===================================================================== *)
(** * The identifiers of the articles *)
(* ===================================================================== *)

Lemma In_present {A : Type} (l : list (option A)) (a : A) :
  In a (present l) <-> In (Some a) l.
Proof.
  unfold present. rewrite in_flat_map. split.
  - intros ([x|] & Hx & Ha); simpl in Ha; [|contradiction].
    destruct Ha as [->|[]]. exact Hx.
  - intros H. exists (Some a). split; [exact H | left; reflexivity].
Qed.

Lemma In_dict_set {V : Type} (d : list (string * V)) (key : string) (value : V)
  (entry : string * V) :
  In entry (dict_set d key value) -> entry = (key, value) \/ In entry d.
Proof.
  induction d as [|[k v] d IH]; simpl.
  - intros [<-|[]]. left. reflexivity.
  - destruct (String.eqb_spec k key) as [->|Hne]; simpl.
    + intros [<-|H]; [left; reflexivity | right; right; exact H].
    + intros [<-|H]; [right; left; reflexivity|].
      destruct (IH H) as [->|H']; [left; reflexivity | right; right; exact H'].
Qed.

Section IdentifierFacts.
Variable md5_hexdigest : string -> string.
Variable http_url : string -> option string.
Variable hn_upstream : Z -> HNUpstream.
Variable gh_upstream : Z -> GitHubUpstream.
Variable rd_upstream : Z -> RedditUpstream.

Lemma hn_article_id (story : HNStory) (a : NewsArticle) :
  hn_article http_url story = Some a ->
  id a = "hn-" +++ str_of_int (story_id story).
Proof.
  unfold hn_article. destruct (story_url story) as [u|]; [|discriminate].
  destruct (String.eqb u ""); [discriminate|].
  destruct (story_title story), (http_url u), (story_time story) as [tm|];
    try discriminate.
  destruct (fromtimestamp tm); [|discriminate].
  intros H. injection H as <-. reflexivity.
Qed.

Lemma hn_stories_loop_In (stories : list (option HNStory)) (a : NewsArticle) :
  In a (hn_stories_loop http_url stories) ->
  exists story, hn_article http_url story = Some a.
Proof.
  induction stories as [|[story|] stories IH]; simpl; try (intros []).
  destruct (hn_article http_url story) as [a'|] eqn:E.
  - intros [<-|H]; [exists story; exact E | apply IH, H].
  - exact IH.
Qed.

Lemma hn_fetch_articles_In (up : HNUpstream) (limit : Z) (a : NewsArticle) :
  In a (hn_fetch_articles http_url up limit) ->
  exists story, hn_article http_url story = Some a.
Proof.
  unfold hn_fetch_articles. destruct (hn_topstories up); [|intros []].
  destruct (hn_items_fail up); [intros []|].
  apply hn_stories_loop_In.
Qed.

Lemma github_article_id (now i : Z) (repo : TrendingRepo) (a : NewsArticle) :
  github_article md5_hexdigest http_url now i repo = Some a ->
  exists rel,
    repo_rel_path repo = Some rel
    /\ id a = "github-" +++ md5_hexdigest ("https://github.com" +++ rel).
Proof.
  unfold github_article. destruct (repo_rel_path repo) as [rel|]; [|discriminate].
  destruct (repo_stars repo), (http_url ("https://github.com" +++ rel));
    try discriminate.
  intros H. injection H as <-. exists rel. split; reflexivity.
Qed.

Lemma github_loop_In (now limit : Z) (l : list (Z * TrendingRepo))
  (a : NewsArticle) :
  In a (github_loop md5_hexdigest http_url now limit l) ->
  exists i repo, github_article md5_hexdigest http_url now i repo = Some a.
Proof.
  induction l as [|[i repo] l IH]; simpl; [intros []|].
  destruct (limit <=? i); [intros []|].
  destruct (github_article md5_hexdigest http_url now i repo) as [a'|] eqn:E.
  - intros [<-|H]; [exists i, repo; exact E | apply IH, H].
  - exact IH.
Qed.

Lemma reddit_post_step_id (subreddit : string) (post : RedditPost)
  (a : NewsArticle) :
  reddit_post_step http_url subreddit post = Append a ->
  exists pid, post_id post = Some pid /\ id a = "reddit-" +++ pid.
Proof.
  unfold reddit_post_step.
  destruct (post_is_self post && _); [discriminate|].
  destruct (String.eqb _ "" && _); [discriminate|].
  destruct (post_id post) as [pid|]; [|discriminate].
  destruct (post_title post); [|discriminate].
  destruct (if post_is_self post then _ else _) as [u|]; [|discriminate].
  destruct (post_created_utc post) as [created|]; [|discriminate].
  destruct (fromtimestamp created); [|discriminate].
  destruct (http_url u); [|discriminate].
  intros H. injection H as <-. exists pid. split; reflexivity.
Qed.

Lemma reddit_posts_loop_In (subreddit : string) (posts : list RedditPost)
  (a : NewsArticle) :
  In a (reddit_posts_loop http_url subreddit posts) ->
  exists post, reddit_post_step http_url subreddit post = Append a.
Proof.
  induction posts as [|post posts IH]; simpl; [intros []|].
  destruct (reddit_post_step http_url subreddit post) as [|a'|] eqn:E.
  - exact IH.
  - intros [<-|H]; [exists post; exact E | apply IH, H].
  - intros [].
Qed.

Lemma reddit_fetch_articles_In (subreddits : list string) (up : RedditUpstream)
  (limit : Z) (l : list NewsArticle) (a : NewsArticle) :
  reddit_fetch_articles http_url subreddits up limit = Ok l -> In a l ->
  exists subreddit post, reddit_post_step http_url subreddit post = Append a.
Proof.
  unfold reddit_fetch_articles. destruct subreddits as [|s0 subs]; [discriminate|].
  intros H Hin.
  assert (Hall : In a (flat_map
                         (fetch_subreddit http_url up
                            (Z.max (limit / Z.of_nat (List.length (s0 :: subs))) 3))
                         (s0 :: subs))).
  { injection H as <-. apply py_slice_In, sort_desc_In in Hin. exact Hin. }
  clear H Hin. apply in_flat_map in Hall.
  destruct Hall as (subreddit & _ & Hin). unfold fetch_subreddit in Hin.
  destruct (rd_top up subreddit _); [|destruct Hin].
  apply reddit_posts_loop_In in Hin. destruct Hin as (post & Hpost).
  exists subreddit, post. exact Hpost.
Qed.

(** The scrapers that [init_scrapers] registers. *)
Lemma add_subreddit_scrapers_In (cfg : Settings) (d : Registry)
  (entry : string * Scraper) :
  In entry (add_subreddit_scrapers http_url rd_upstream cfg d) ->
  In entry d
  \/ exists subreddit, snd entry = RedditScraper http_url cfg rd_upstream subreddit.
Proof.
  unfold add_subreddit_scrapers. generalize (reddit_subreddits cfg) as subs.
  intros subs. revert d. induction subs as [|s subs IH]; intros d; simpl.
  - intros H. left. exact H.
  - intros H. destruct (IH _ H) as [H'|H']; [|right; exact H'].
    apply In_dict_set in H'. destruct H' as [->|H']; [|left; exact H'].
    right. exists (Some s). reflexivity.
Qed.

Lemma init_scrapers_In (cfg : Settings) (entry : string * Scraper) :
  In entry (init_scrapers md5_hexdigest http_url hn_upstream gh_upstream
              rd_upstream cfg) ->
  snd entry = HackerNewsScraper http_url hn_upstream
  \/ snd entry = GitHubTrendingScraper md5_hexdigest http_url gh_upstream
  \/ exists subreddit, snd entry = RedditScraper http_url cfg rd_upstream subreddit.
Proof.
  unfold init_scrapers.
  set (d1 := if hacker_news_enabled cfg then _ else _).
  set (d2 := if github_trending_enabled cfg then _ else _).
  set (d3 := if reddit_enabled cfg then _ else _).
  assert (H1 : forall e, In e d1 ->
                 snd e = HackerNewsScraper http_url hn_upstream).
  { subst d1. intros e. destruct (hacker_news_enabled cfg); simpl.
    - intros [<-|[]]. reflexivity.
    - intros []. }
  assert (H2 : forall e, In e d2 ->
                 snd e = HackerNewsScraper http_url hn_upstream
                 \/ snd e = GitHubTrendingScraper md5_hexdigest http_url gh_upstream).
  { subst d2. intros e. destruct (github_trending_enabled cfg).
    - intros H. apply In_dict_set in H. destruct H as [->|H].
      + right. reflexivity.
      + left. apply H1, H.
    - intros H. left. apply H1, H. }
  assert (H3 : forall e, In e d3 ->
                 snd e = HackerNewsScraper http_url hn_upstream
                 \/ snd e = GitHubTrendingScraper md5_hexdigest http_url gh_upstream
                 \/ exists subreddit,
                      snd e = RedditScraper http_url cfg rd_upstream subreddit).
  { subst d3. intros e. destruct (reddit_enabled cfg).
    - intros H. apply add_subreddit_scrapers_In in H.
      destruct H as [H|H]; [|right; right; exact H].
      apply In_dict_set in H. destruct H as [->|H].
      + right. right. exists None. reflexivity.
      + destruct (H2 e H) as [H'|H']; [left | right; left]; exact H'.
    - intros H. destruct (H2 e H) as [H'|H']; [left | right; left]; exact H'. }
  destruct d3 as [|x d3].
  - simpl. intros [<-|[]]. left. reflexivity.
  - apply H3.
Qed.

Lemma RedditScraper_fetch_articles (cfg : Settings) (subreddit : option string)
  (now limit : Z) :
  exists subreddits,
    fetch_articles (RedditScraper http_url cfg rd_upstream subreddit) now limit
    = reddit_fetch_articles http_url subreddits (rd_upstream now) limit.
Proof.
  unfold RedditScraper. destruct subreddit as [s|].
  - destruct (String.eqb s ""); eexists; reflexivity.
  - eexists. reflexivity.
Qed.

(** The division by the number of subreddits stands before the [try] of
    [RedditScraper.fetch_articles]: with no configured subreddit the base
    scraper raises. *)
Lemma reddit_without_subreddits_raises (cfg : Settings) (now limit : Z) :
  reddit_subreddits cfg = [] ->
  fetch_articles (RedditScraper http_url cfg rd_upstream None) now limit
  = Raise (ZeroDivisionError "integer division or modulo by zero").
Proof. intros H. simpl. rewrite H. reflexivity. Qed.

End IdentifierFacts.

(** C2 (amended). Every article that a scraper of the registry produces
    has an id of the form prefix, ["-"], local id, where the prefix is
    ["hn"], ["github"] or ["reddit"] according to the class of the scraper
    and is the text before the first ["-"] of the id, and where the local
    id is a function of the upstream item alone: the item id for Hacker
    News and Reddit, the MD5 digest of the repository URL for GitHub
    Trending. Hence two fetches of the same upstream item give the same
    id, whatever the instant, the limit and the position of the item. *)
Theorem article_id_scheme (md5_hexdigest : string -> string)
  (http_url : string -> option string) (hn_upstream : Z -> HNUpstream)
  (gh_upstream : Z -> GitHubUpstream) (rd_upstream : Z -> RedditUpstream)
  (cfg : Settings) :
  (forall a,
     produced_by md5_hexdigest http_url hn_upstream gh_upstream rd_upstream cfg a ->
     (exists story,
        hn_article http_url story = Some a
        /\ id a = "hn-" +++ str_of_int (story_id story)
        /\ source_token (id a) = "hn")
     \/ (exists now i repo rel,
           github_article md5_hexdigest http_url now i repo = Some a
           /\ repo_rel_path repo = Some rel
           /\ id a = "github-"
                     +++ generate_article_id md5_hexdigest
                           ("https://github.com" +++ rel)
           /\ source_token (id a) = "github")
     \/ (exists subreddit post pid,
           reddit_post_step http_url subreddit post = Append a
           /\ post_id post = Some pid
           /\ id a = "reddit-" +++ pid
           /\ source_token (id a) = "reddit"))
  /\ (forall story1 story2 a1 a2,
        story_id story1 = story_id story2 ->
        hn_article http_url story1 = Some a1 ->
        hn_article http_url story2 = Some a2 ->
        id a1 = id a2)
  /\ (forall now1 i1 repo1 now2 i2 repo2 a1 a2,
        repo_rel_path repo1 = repo_rel_path repo2 ->
        github_article md5_hexdigest http_url now1 i1 repo1 = Some a1 ->
        github_article md5_hexdigest http_url now2 i2 repo2 = Some a2 ->
        id a1 = id a2)
  /\ (forall subreddit1 post1 subreddit2 post2 a1 a2,
        post_id post1 = post_id post2 ->
        reddit_post_step http_url subreddit1 post1 = Append a1 ->
        reddit_post_step http_url subreddit2 post2 = Append a2 ->
        id a1 = id a2).
Proof.
  split; [|split; [|split]].
  - intros a (k & s & now & limit & l & Hreg & Hfetch & Hin).
    apply init_scrapers_In in Hreg. simpl snd in Hreg.
    destruct Hreg as [->|[->|(subreddit & ->)]].
    + left. simpl in Hfetch. injection Hfetch as <-.
      apply hn_fetch_articles_In in Hin. destruct Hin as (story & Hstory).
      exists story. pose proof (hn_article_id _ _ _ Hstory) as Hid.
      split; [exact Hstory|]. split; [exact Hid|]. rewrite Hid. reflexivity.
    + right. left. simpl in Hfetch. injection Hfetch as <-.
      unfold github_fetch_articles in Hin.
      destruct (gh_repos (gh_upstream now)); [|destruct Hin].
      apply github_loop_In in Hin. destruct Hin as (i & repo & Hrepo).
      destruct (github_article_id _ _ _ _ _ _ Hrepo) as (rel & Hrel & Hid).
      exists now, i, repo, rel. split; [exact Hrepo|]. split; [exact Hrel|].
      split; [exact Hid|]. rewrite Hid. reflexivity.
    + right. right.
      destruct (RedditScraper_fetch_articles http_url rd_upstream cfg subreddit
                  now limit) as (subs & Heq).
      rewrite Heq in Hfetch.
      destruct (reddit_fetch_articles_In _ _ _ _ _ _ Hfetch Hin)
        as (sub & post & Hpost).
      destruct (reddit_post_step_id _ _ _ _ Hpost) as (pid & Hpid & Hid).
      exists sub, post, pid. split; [exact Hpost|]. split; [exact Hpid|].
      split; [exact Hid|]. rewrite Hid. reflexivity.
  - intros story1 story2 a1 a2 Hsame H1 H2.
    rewrite (hn_article_id _ _ _ H1), (hn_article_id _ _ _ H2), Hsame.
    reflexivity.
  - intros now1 i1 repo1 now2 i2 repo2 a1 a2 Hsame H1 H2.
    destruct (github_article_id _ _ _ _ _ _ H1) as (rel1 & Hrel1 & ->).
    destruct (github_article_id _ _ _ _ _ _ H2) as (rel2 & Hrel2 & ->).
    congruence.
  - intros subreddit1 post1 subreddit2 post2 a1 a2 Hsame H1 H2.
    destruct (reddit_post_step_id _ _ _ _ H1) as (pid1 & Hpid1 & ->).
    destruct (reddit_post_step_id _ _ _ _ H2) as (pid2 & Hpid2 & ->).
    congruence.
Qed.

Lemma article_id_scheme_witness :
  exists a,
    produced_by sample_digest accept_url sample_hn_upstream sample_gh_upstream
      sample_rd_upstream settings a
    /\ id a = "hn-1"
    /\ ((exists story, hn_article accept_url story = Some a)
        \/ (exists now i repo,
              github_article sample_digest accept_url now i repo = Some a)
        \/ (exists subreddit post,
              reddit_post_step accept_url subreddit post = Append a)).
Proof.
  destruct (hn_article accept_url (sample_story 1)) as [a|] eqn:E;
    [|discriminate].
  exists a. injection E as <-.
  assert (Hproduced : produced_by sample_digest accept_url sample_hn_upstream
                        sample_gh_upstream sample_rd_upstream settings
                        (mkNewsArticle "hn-1" "A story"
                           "https://example.com/story" None
                           (1700000000 * microseconds) hn_source "technology"
                           ["hacker-news"] (Some 0) (Some 10))).
  { exists "hacker_news", (HackerNewsScraper accept_url sample_hn_upstream), 0, 2.
    eexists. split; [left; reflexivity|]. split; [reflexivity|].
    left. reflexivity. }
  split; [exact Hproduced|]. split; [reflexivity|].
  destruct (article_id_scheme sample_digest accept_url sample_hn_upstream
              sample_gh_upstream sample_rd_upstream settings) as (Hform & _).
  destruct (Hform _ Hproduced)
    as [(story & H & _)|[(now & i & repo & rel & H & _)
                        |(subreddit & post & pid & H & _)]].
  - left. exists story. exact H.
  - right. left. exists now, i, repo. exact H.
  - right. right. exists subreddit, post. exact H.
Defined.

(** C2 as stated fails: the two Hacker News stories of the example have
    the same URL and different ids, so the local id is not a digest of the
    URL; and the token ["hn"] of their ids, like the token ["github"] of
    the id of a trending repository, is matched by no scraper of the
    registry, whose keys are ["hacker_news"] and ["github_trending"]. *)
Lemma hn_id_neither_url_digest_nor_routable :
  exists a1 a2 a3,
    produced_by sample_digest accept_url sample_hn_upstream sample_gh_upstream
      sample_rd_upstream settings a1
    /\ produced_by sample_digest accept_url sample_hn_upstream
         sample_gh_upstream sample_rd_upstream settings a2
    /\ produced_by sample_digest accept_url sample_hn_upstream
         sample_gh_upstream sample_rd_upstream settings a3
    /\ url a1 = url a2
    /\ id a1 <> id a2
    /\ map fst default_scrapers
       = ["hacker_news"; "github_trending"; "reddit"; "reddit_worldnews";
          "reddit_technology"; "reddit_science"; "reddit_politics";
          "reddit_business"]
    /\ source_token (id a1) = "hn"
    /\ find_scraper (source_token (id a1)) default_scrapers = None
    /\ source_token (id a3) = "github"
    /\ find_scraper (source_token (id a3)) default_scrapers = None.
Proof.
  destruct (hn_article accept_url (sample_story 1)) as [a1|] eqn:E1;
    [|discriminate].
  destruct (hn_article accept_url (sample_story 2)) as [a2|] eqn:E2;
    [|discriminate].
  destruct (github_article sample_digest accept_url 0 0 sample_repo) as [a3|] eqn:E3;
    [|discriminate].
  exists a1, a2, a3.
  injection E1 as <-. injection E2 as <-. injection E3 as <-.
  split.
  { exists "hacker_news", (HackerNewsScraper accept_url sample_hn_upstream), 0, 2.
    eexists. split; [left; reflexivity|]. split; [reflexivity|].
    left. reflexivity. }
  split.
  { exists "hacker_news", (HackerNewsScraper accept_url sample_hn_upstream), 0, 2.
    eexists. split; [left; reflexivity|]. split; [reflexivity|].
    right. left. reflexivity. }
  split.
  { exists "github_trending",
      (GitHubTrendingScraper sample_digest accept_url sample_gh_upstream), 0, 1.
    eexists. split; [right; left; reflexivity|]. split; [reflexivity|].
    left. reflexivity. }
  split; [reflexivity|]. split; [discriminate|].
  repeat split; reflexivity.
Qed.

(* ===================================================================== *)
(** * Pages *)
(* ===================================================================== *)

(** A window of [n >= 0] positions holds at most [n] items, wherever it
    starts. *)
Lemma py_slice_length {A : Type} (l : list A) (start n : Z) :
  0 <= n ->
  Z.of_nat (List.length (py_slice l start (start + n))) <= n.
Proof.
  intros Hn. unfold py_slice. rewrite length_firstn.
  set (len := Z.of_nat (List.length l)).
  assert (Hlen : 0 <= len) by apply Nat2Z.is_nonneg.
  assert (Hw : slice_index len (start + n) - slice_index len start <= n).
  { unfold slice_index.
    destruct (Z.ltb_spec (start + n) 0), (Z.ltb_spec start 0); lia. }
  lia.
Qed.

(** A window between two positions that exist. *)
Lemma py_slice_nonneg {A : Type} (l : list A) (start n : Z) :
  0 <= start -> 0 <= n ->
  py_slice l start (start + n)
  = firstn (Z.to_nat n) (skipn (Z.to_nat start) l).
Proof.
  intros Hs Hn. unfold py_slice, slice_index.
  set (len := Z.of_nat (List.length l)).
  destruct (Z.ltb_spec (start + n) 0) as [H|_]; [lia|].
  destruct (Z.ltb_spec start 0) as [H|_]; [lia|].
  destruct (Z.le_gt_cases len start) as [Hout|Hin].
  - rewrite (skipn_all2 l (n := Z.to_nat start)) by (subst len; lia).
    rewrite (Z.min_r start len) by lia.
    rewrite (skipn_all2 l (n := Z.to_nat len))
      by (subst len; rewrite Nat2Z.id; lia).
    rewrite !firstn_nil. reflexivity.
  - rewrite (Z.min_l start len) by lia.
    destruct (Z.le_gt_cases (start + n) len) as [Hfit|Hover].
    + rewrite Z.min_l by lia. f_equal. lia.
    + rewrite Z.min_r by lia.
      rewrite !firstn_all2; [reflexivity| |];
        rewrite length_skipn; subst len; lia.
Qed.

Lemma collect_Ok_In {A : Type} (rs : list (Outcome A)) (l : list A) (a : A) :
  collect rs = Ok l -> In a l -> In (Ok a) rs.
Proof.
  revert l. induction rs as [|r rs IH]; simpl; intros l H Hin.
  - injection H as <-. destruct Hin.
  - destruct r as [x|e]; [|discriminate].
    destruct (collect rs) as [l'|e]; [|discriminate].
    injection H as <-. destruct Hin as [->|Hin].
    + left. reflexivity.
    + right. apply (IH l' eq_refl Hin).
Qed.

(** X1. In the feed of a pass that is not answered from the cache and
    is asked with a limit of at least 0, the page holds at most [limit]
    articles and at most [total] articles. When the join returns, the
    total is the number of all fetched articles, and for a page number of
    at least 1 the page is made of the articles from position
    [(page - 1) * limit] on, [limit] of them at most: a page beyond the
    end is empty while the total is still reported. *)
Theorem feed_page_bounds (cfg : Settings) (scrapers : Registry)
  (category : string) (page limit : Z) (force_refresh : bool) (w : World) :
  fresh_pass category page limit force_refresh w ->
  0 <= limit ->
  exists feed w',
    get_news_feed cfg scrapers category page limit force_refresh w
    = (Ok feed, w')
    /\ Z.of_nat (List.length (articles feed)) <= limit
    /\ Z.of_nat (List.length (articles feed)) <= total feed
    /\ (forall lists,
          fanout_results scrapers category limit (wall w) = Ok lists ->
          total feed = Z.of_nat (List.length (List.concat lists))
          /\ (1 <= page ->
              articles feed
              = firstn (Z.to_nat limit)
                  (skipn (Z.to_nat ((page - 1) * limit))
                     (sort_desc published_at (List.concat lists)))
              /\ (total feed <= (page - 1) * limit -> articles feed = []))).
Proof.
  intros Hfresh Hlimit.
  destruct (fresh_pass_returns cfg scrapers category page limit force_refresh w
              Hfresh) as (feed & w' & Hrun).
  pose proof (fresh_feed_of_results cfg scrapers category page limit
                force_refresh w Hfresh) as Hfeed.
  rewrite Hrun in Hfeed. cbn [fst] in Hfeed. injection Hfeed as Hfeed.
  exists feed, w'. split; [exact Hrun|].
  destruct (fanout_results scrapers category limit (wall w)) as [lists|e].
  - subst feed. unfold built_feed, page_of, merged. cbn [articles total].
    split; [apply py_slice_length, Hlimit|]. split.
    + destruct (py_slice_window (sort_desc published_at (List.concat lists))
                  ((page - 1) * limit) ((page - 1) * limit + limit))
        as (before & after & Hwin).
      rewrite Hwin at 2. rewrite !length_app. lia.
    + intros lists' Heq. injection Heq as <-.
      split; [rewrite sort_desc_length; reflexivity|].
      intros Hpage.
      rewrite py_slice_nonneg by nia.
      split; [reflexivity|].
      intros Hbeyond. rewrite skipn_all2; [apply firstn_nil|]. lia.
  - subst feed. cbn [articles total]. simpl List.length.
    split; [lia|]. split; [lia|]. intros lists Heq. discriminate.
Qed.

Lemma feed_page_bounds_witness :
  exists feed w',
    get_news_feed settings sample_scrapers "realtime" 2 3 false initial_world
    = (Ok feed, w')
    /\ map id (articles feed) = ["srcA-2"]
    /\ total feed = 4.
Proof.
  destruct (feed_page_bounds settings sample_scrapers "realtime" 2 3 false
              initial_world (or_intror eq_refl) ltac:(lia))
    as (feed & w' & Hrun & _ & _ & Hlists).
  destruct (Hlists [srcA_items; srcB_items] eq_refl) as (Htotal & Hpage).
  destruct (Hpage ltac:(lia)) as (Harticles & _).
  exists feed, w'. split; [exact Hrun|].
  rewrite Harticles, Htotal. split; reflexivity.
Defined.

(** The scraper that an article of a fresh feed comes from. *)
Lemma feed_article_origin (cfg : Settings)
  (scrapers : Registry) (category : string) (page limit : Z)
  (force_refresh : bool) (w : World) (a : NewsArticle) :
  fresh_pass category page limit force_refresh w ->
  (exists feed w',
     get_news_feed cfg scrapers category page limit force_refresh w
     = (Ok feed, w')
     /\ In a (articles feed)) ->
  exists scraper_id scraper fetched,
    In (scraper_id, scraper) scrapers
    /\ (category = "realtime" \/ scraper_category scraper = category)
    /\ fetch_articles scraper (wall w) limit = Ok fetched
    /\ In a fetched.
Proof.
  intros Hfresh (feed & w' & Hrun & Hin).
  pose proof (fresh_feed_of_results cfg scrapers category page limit
                force_refresh w Hfresh) as Hfeed.
  rewrite Hrun in Hfeed. cbn [fst] in Hfeed. injection Hfeed as Hfeed.
  destruct (fanout_results scrapers category limit (wall w)) as [lists|e] eqn:Hres;
    [|subst feed; destruct Hin].
  subst feed. unfold built_feed, page_of, merged in Hin. cbn [articles] in Hin.
  apply py_slice_In, sort_desc_In, in_concat in Hin.
  destruct Hin as (fetched & Hfetched & Hin).
  unfold fanout_results in Hres.
  apply (collect_Ok_In _ _ _ Hres), in_map_iff in Hfetched.
  destruct Hfetched as ([k s] & Hfetch & Hentry). simpl in Hfetch.
  unfold matching_scrapers in Hentry. apply filter_In in Hentry.
  destruct Hentry as [Hreg Hkeep].
  exists k, s, fetched. split; [exact Hreg|]. split; [|split; assumption].
  unfold skipped in Hkeep. simpl in Hkeep.
  destruct (String.eqb_spec category "realtime") as [->|_]; [left; reflexivity|].
  destruct (String.eqb_spec (scraper_category s) category) as [->|_];
    [right; reflexivity | discriminate].
Qed.

(** X2. Every article of a feed that is not answered from the cache was
    returned, in this pass, by a scraper of the registry that is not
    skipped for the category: the category is ["realtime"] or it is the
    category of that scraper. No other scraper contributes. *)
Theorem feed_articles_come_from_the_category (cfg : Settings)
  (scrapers : Registry) (category : string) (page limit : Z)
  (force_refresh : bool) (w : World) (a : NewsArticle) :
  fresh_pass category page limit force_refresh w ->
  (exists feed w',
     get_news_feed cfg scrapers category page limit force_refresh w
     = (Ok feed, w')
     /\ In a (articles feed)) ->
  exists scraper_id scraper fetched,
    In (scraper_id, scraper) scrapers
    /\ (category = "realtime" \/ scraper_category scraper = category)
    /\ fetch_articles scraper (wall w) limit = Ok fetched
    /\ In a fetched.
Proof. apply feed_article_origin. Qed.

Lemma feed_articles_come_from_the_category_witness :
  exists scraper_id scraper fetched,
    In (scraper_id, scraper) mock_scrapers
    /\ ("world" = "realtime" \/ scraper_category scraper = "world")
    /\ fetch_articles scraper 0 5 = Ok fetched
    /\ In (mock_article "mock2" "Mock Source 2" "world" 3 3) fetched.
Proof.
  apply (feed_articles_come_from_the_category settings mock_scrapers "world"
           1 5 false initial_world
           (mock_article "mock2" "Mock Source 2" "world" 3 3)
           (or_intror eq_refl)).
  eexists _, _. split; [vm_compute; reflexivity|].
  vm_compute. right. left. reflexivity.
Defined.

(* ===================================================================== *)
(** * What a store leaves in the article cache *)
(* ===================================================================== *)

Lemma skipn_In {A : Type} (n : nat) (l : list A) (x : A) :
  In x (skipn n l) -> In x l.
Proof.
  intros H. rewrite <- (firstn_skipn n l). apply in_or_app. right. exact H.
Qed.

Lemma find_none_iff {A : Type} (f : A -> bool) (l : list A) :
  find f l = None <-> forall x, In x l -> f x = false.
Proof.
  split; [apply find_none|].
  induction l as [|y l IH]; simpl; intros H; [reflexivity|].
  rewrite (H y (or_introl eq_refl)). apply IH.
  intros x Hx. apply H. right. exact Hx.
Qed.

Section AbsentFacts.
Context {V : Type}.
Implicit Types (c : TTLCache V) (l : Link V).

Lemma getlink_absent c key : getlink c key = None <-> absent key c.
Proof.
  unfold getlink, absent. rewrite find_none_iff. split; intros H l Hl.
  - intros Hk. specialize (H l Hl). rewrite Hk, String.eqb_refl in H.
    discriminate.
  - apply String.eqb_neq. apply H, Hl.
Qed.

Lemma absent_incl c c' key :
  (forall l, In l c' -> In l c) -> absent key c -> absent key c'.
Proof. intros Hincl H l Hl. apply H, Hincl, Hl. Qed.

Lemma unlink_In c key l :
  In l (unlink c key) <-> In l c /\ link_key l <> key.
Proof.
  unfold unlink. rewrite filter_In, negb_true_iff, String.eqb_neq.
  reflexivity.
Qed.

Lemma cache_expire_In c now l :
  In l (cache_expire c now) <-> In l c /\ now < link_expires l.
Proof. unfold cache_expire. rewrite filter_In, Z.ltb_lt. reflexivity. Qed.

Lemma getlink_present c key l :
  In l c -> link_key l = key ->
  exists l', getlink c key = Some l' /\ In l' c /\ link_key l' = key.
Proof.
  intros Hl Hk. destruct (getlink c key) as [l'|] eqn:E.
  - exists l'. split; [reflexivity|]. split.
    + apply (find_some _ _ E).
    + apply (getlink_key _ _ _ E).
  - apply getlink_absent in E. destruct (E l Hl Hk).
Qed.

End AbsentFacts.

Section StoreFacts.
Variable ttl now : Z.
Hypothesis ttl_positive : 0 < ttl.
Variable P : NewsArticle -> Prop.
Variable maxsize : nat.
Hypothesis maxsize_positive : (1 <= maxsize)%nat.

(** One store, seen on a cache split into the items that were there and
    the items stored at this instant: the new item joins the second part,
    which loses nothing but an older item of the same key. *)
Lemma store_step (old recent : TTLCache NewsArticle) (a : NewsArticle) :
  Forall (stored_at ttl now P) recent ->
  (forall l, In l recent -> absent (link_key l) old) ->
  (List.length recent < maxsize)%nat ->
  P a ->
  exists old' recent',
    snd (cache_setitem maxsize ttl (old ++ recent) now (id a) a)
    = old' ++ recent'
    /\ Forall (stored_at ttl now P) recent'
    /\ (forall l, In l recent' -> absent (link_key l) old')
    /\ (List.length recent' <= S (List.length recent))%nat
    /\ (forall key,
          (exists l, In l recent /\ link_key l = key) \/ key = id a ->
          exists l', In l' recent' /\ link_key l' = key).
Proof.
  intros Hrecent Habsent Hroom Pa.
  rewrite Forall_forall in Hrecent.
  assert (Hnew : stored_at ttl now P (mkLink (id a) a (now + ttl))).
  { repeat split. exact Pa. }
  assert (Hlive : cache_expire (old ++ recent) now
                  = cache_expire old now ++ recent).
  { unfold cache_expire. rewrite filter_app. f_equal.
    apply forallb_filter_id, forallb_forall. intros l Hl.
    destruct (Hrecent l Hl) as (He & _). apply Z.ltb_lt. lia. }
  unfold cache_setitem. rewrite Hlive.
  destruct (Nat.ltb_spec maxsize 1) as [Hlt|_]; [lia|].
  destruct (getlink (cache_expire old now ++ recent) (id a)) as [l0|] eqn:Hget;
    cbn [snd].
  - exists (unlink (cache_expire old now) (id a)),
           (unlink recent (id a) ++ [mkLink (id a) a (now + ttl)]).
    split.
    { unfold unlink. rewrite filter_app, <- app_assoc. reflexivity. }
    split.
    { apply Forall_app. split; [|constructor; [exact Hnew | constructor]].
      apply Forall_forall. intros l Hl. apply unlink_In in Hl.
      apply Hrecent, Hl. }
    split.
    { intros l Hl. apply in_app_or in Hl. destruct Hl as [Hl|[<-|[]]].
      - apply unlink_In in Hl. destruct Hl as [Hl _].
        eapply absent_incl; [|apply (Habsent l Hl)].
        intros l' Hl'. apply unlink_In in Hl'. destruct Hl' as [Hl' _].
        apply cache_expire_In in Hl'. apply Hl'.
      - intros l' Hl'. apply unlink_In in Hl'. apply Hl'. }
    split.
    { rewrite length_app. simpl.
      assert (List.length (unlink recent (id a)) <= List.length recent)%nat
        by apply filter_length_le.
      lia. }
    intros key [(l & Hl & Hk) | ->].
    + destruct (String.eqb_spec (link_key l) (id a)) as [E|E].
      * exists (mkLink (id a) a (now + ttl)). split.
        -- apply in_or_app. right. left. reflexivity.
        -- simpl. congruence.
      * exists l. split; [|exact Hk].
        apply in_or_app. left. apply unlink_In. split; assumption.
    + exists (mkLink (id a) a (now + ttl)). split; [|reflexivity].
      apply in_or_app. right. left. reflexivity.
  - set (n := (List.length (cache_expire old now ++ recent) + 1 - maxsize)%nat).
    exists (skipn n (cache_expire old now)),
           (recent ++ [mkLink (id a) a (now + ttl)]).
    assert (Hn : (n - List.length (cache_expire old now) = 0)%nat).
    { subst n. rewrite length_app. lia. }
    split.
    { rewrite skipn_app, Hn. simpl. rewrite <- app_assoc. reflexivity. }
    split.
    { apply Forall_app. split; [|constructor; [exact Hnew | constructor]].
      apply Forall_forall. exact Hrecent. }
    split.
    { intros l Hl. apply in_app_or in Hl. destruct Hl as [Hl|[<-|[]]].
      - eapply absent_incl; [|apply (Habsent l Hl)].
        intros l' Hl'. apply skipn_In, cache_expire_In in Hl'. apply Hl'.
      - apply getlink_absent in Hget. simpl.
        eapply absent_incl; [|exact Hget].
        intros l' Hl'. apply in_or_app. left. eapply skipn_In, Hl'. }
    split.
    { rewrite length_app. simpl. lia. }
    intros key [(l & Hl & Hk) | ->].
    + exists l. split; [|exact Hk]. apply in_or_app. left. exact Hl.
    + exists (mkLink (id a) a (now + ttl)). split; [|reflexivity].
      apply in_or_app. right. left. reflexivity.
Qed.

(** An item of the recent part is what a lookup of its key finds. *)
Lemma recent_lookup (old recent : TTLCache NewsArticle) (key : string) :
  Forall (stored_at ttl now P) recent ->
  (forall l, In l recent -> absent (link_key l) old) ->
  (exists l, In l recent /\ link_key l = key) ->
  exists a,
    getlink (old ++ recent) key = Some (mkLink key a (now + ttl))
    /\ id a = key /\ P a.
Proof.
  intros Hrecent Habsent (l & Hl & Hk).
  rewrite getlink_app.
  assert (Hold : getlink old key = None).
  { apply getlink_absent. rewrite <- Hk. apply Habsent, Hl. }
  rewrite Hold.
  destruct (getlink_present recent key l Hl Hk) as (l' & -> & Hl' & Hk').
  rewrite Forall_forall in Hrecent.
  destruct (Hrecent l' Hl') as (He & Hid & HP).
  destruct l' as [k v e]. simpl in *. subst.
  exists v. repeat split; [congruence | exact HP].
Qed.

End StoreFacts.

(** After the loop that stores a list of articles, each of their ids is
    found in the cache, with an article of the list stored at this
    instant, as long as the list is not longer than the cache. *)
Lemma store_articles_recent (cfg : Settings) (now : Z)
  (P : NewsArticle -> Prop) (l : list NewsArticle) :
  0 < CACHE_EXPIRATION cfg ->
  forall old recent,
    Forall (stored_at (CACHE_EXPIRATION cfg) now P) recent ->
    (forall lk, In lk recent -> absent (link_key lk) old) ->
    (List.length recent + List.length l <= article_cache_maxsize)%nat ->
    Forall P l ->
    exists old' recent',
      store_articles cfg (old ++ recent) now l = old' ++ recent'
      /\ Forall (stored_at (CACHE_EXPIRATION cfg) now P) recent'
      /\ (forall lk, In lk recent' -> absent (link_key lk) old')
      /\ (forall key,
            (exists lk, In lk recent /\ link_key lk = key)
            \/ (exists a, In a l /\ id a = key) ->
            exists lk', In lk' recent' /\ link_key lk' = key).
Proof.
  intros Httl. induction l as [|a l IH]; intros old recent Hrecent Habsent Hroom HP.
  - exists old, recent. split; [reflexivity|]. split; [exact Hrecent|].
    split; [exact Habsent|].
    intros key [H|(a & [] & _)]. exact H.
  - inversion HP as [|? ? Pa HP']; subst. simpl in Hroom.
    destruct (store_step (CACHE_EXPIRATION cfg) now Httl P article_cache_maxsize
                ltac:(unfold article_cache_maxsize; lia)
                old recent a Hrecent Habsent ltac:(lia) Pa)
      as (old1 & recent1 & Hstep & Hrecent1 & Habsent1 & Hlen1 & Hkeys1).
    destruct (IH old1 recent1 Hrecent1 Habsent1 ltac:(lia) HP')
      as (old' & recent' & Hrest & Hrecent' & Habsent' & Hkeys').
    exists old', recent'. split.
    { unfold store_articles in *. cbn [fold_left]. rewrite Hstep. exact Hrest. }
    split; [exact Hrecent'|]. split; [exact Habsent'|].
    intros key [H|(a' & [<-|Ha'] & Hk)].
    + apply Hkeys'. left. apply Hkeys1. left. exact H.
    + apply Hkeys'. left. apply Hkeys1. right. symmetry. exact Hk.
    + apply Hkeys'. right. exists a'. split; assumption.
Qed.

Lemma store_articles_lookup (cfg : Settings) (c : TTLCache NewsArticle)
  (now : Z) (l : list NewsArticle) (a : NewsArticle) :
  0 < CACHE_EXPIRATION cfg ->
  (List.length l <= article_cache_maxsize)%nat ->
  In a l ->
  exists a',
    getlink (store_articles cfg c now l) (id a)
    = Some (mkLink (id a) a' (now + CACHE_EXPIRATION cfg))
    /\ id a' = id a /\ In a' l.
Proof.
  intros Httl Hlen Hin.
  destruct (store_articles_recent cfg now (fun x => In x l) l Httl c []
              (Forall_nil _) (fun lk H => match H with end)
              ltac:(simpl; exact Hlen)
              ltac:(apply Forall_forall; auto))
    as (old' & recent' & Hstore & Hrecent & Habsent & Hkeys).
  rewrite app_nil_r in Hstore. rewrite Hstore.
  apply (recent_lookup (CACHE_EXPIRATION cfg) now (fun x => In x l)
           old' recent' (id a) Hrecent Habsent).
  apply Hkeys. right. exists a. split; [exact Hin | reflexivity].
Qed.

(** An article of the page of a fresh feed is in the article cache: a
    later call of [get_article] for its id is answered from the cache. *)
Lemma feed_article_cached (cfg : Settings) (scrapers : Registry)
  (category : string) (page limit : Z) (force_refresh : bool) (w w1 : World)
  (feed : NewsFeed) (a : NewsArticle) (d : Z) :
  fresh_pass category page limit force_refresh w ->
  get_news_feed cfg scrapers category page limit force_refresh w
  = (Ok feed, w1) ->
  0 <= limit <= 1000 ->
  0 <= d ->
  d + next_lag w1 < CACHE_EXPIRATION cfg ->
  In a (articles feed) ->
  exists a' c,
    get_article cfg scrapers (id a) false (elapse d w1)
    = (Ok (Some a'),
       mkWorld (timer w1 + d + next_lag w1) (wall w1 + d + next_lag w1)
         (news_cache w1) c (calls w1) (tl (lags w1)))
    /\ id a' = id a
    /\ In a' (articles feed).
Proof.
  intros Hfresh Hrun Hlimit Hd Hlate Hin.
  pose proof (next_lag_nonneg w1) as Hlag.
  destruct (fresh_pass_cases cfg scrapers category page limit force_refresh w Hfresh)
    as [[_ Hcase]|[(e & _ & Hcase)|(lists & _ & _ & Hcase)]];
    rewrite Hcase in Hrun; injection Hrun as <- <-; try destruct Hin.
  set (feed := built_feed lists category page limit (wall w)) in *.
  assert (Hlen : (List.length (articles feed) <= article_cache_maxsize)%nat).
  { pose proof (py_slice_length (merged lists) ((page - 1) * limit) limit
                  ltac:(lia)) as Hbound.
    unfold article_cache_maxsize. subst feed. unfold built_feed, page_of.
    cbn [articles]. lia. }
  destruct (store_articles_lookup cfg (article_cache w) (timer w)
              (articles feed) a ltac:(lia) Hlen Hin)
    as (a' & Hlink & Hid & Hin').
  set (w1 := after_store cfg w (cache_key category page limit) feed
               (fanout_calls scrapers category limit)) in *.
  assert (Hhit : cache_contains (article_cache (elapse d w1))
                   (timer (elapse d w1) + next_lag (elapse d w1))
                   (id a) = true).
  { rewrite next_lag_elapse. unfold elapse, w1, after_store.
    cbn [article_cache timer].
    unfold cache_contains. rewrite Hlink. cbn [link_expires].
    apply Z.ltb_lt. unfold w1, after_store in Hlate. lia. }
  destruct (get_article_cached cfg scrapers (id a) _ Hhit) as (l & Hl & Hget).
  unfold w1 in Hl.
  unfold elapse, after_store in Hl. cbn [article_cache] in Hl.
  rewrite Hlink in Hl. injection Hl as <-.
  eexists a', _. split; [exact Hget|].
  split; [exact Hid | exact Hin'].
Qed.

(** X3. After a pass of [get_news_feed] that is not answered from the
    cache, with a limit between 0 and 1000, every article of the returned
    page can be read back by id: a call of [get_article] whose lookup is
    made less than the time-to-live after the pass returns from the
    article cache an article of the page with that id and calls no
    scraper. *)
Theorem feed_articles_are_cached (cfg : Settings) (scrapers : Registry)
  (category : string) (page limit : Z) (force_refresh : bool) (w w1 : World)
  (feed : NewsFeed) (a : NewsArticle) (d : Z) :
  fresh_pass category page limit force_refresh w ->
  get_news_feed cfg scrapers category page limit force_refresh w
  = (Ok feed, w1) ->
  0 <= limit <= 1000 ->
  0 <= d ->
  d + next_lag w1 < CACHE_EXPIRATION cfg ->
  In a (articles feed) ->
  exists a' w2,
    get_article cfg scrapers (id a) false (elapse d w1) = (Ok (Some a'), w2)
    /\ id a' = id a
    /\ In a' (articles feed)
    /\ calls w2 = calls w1.
Proof.
  intros Hfresh Hrun Hlimit Hd Hlate Hin.
  destruct (feed_article_cached cfg scrapers category page limit force_refresh
              w w1 feed a d Hfresh Hrun Hlimit Hd Hlate Hin)
    as (a' & c & Hget & Hid & Hin').
  eexists a', _. split; [exact Hget|].
  split; [exact Hid|]. split; [exact Hin' | reflexivity].
Qed.

Lemma feed_articles_are_cached_witness :
  exists a' w2,
    get_article settings sample_scrapers "srcB-2" false (elapse 600 warm_world)
    = (Ok (Some a'), w2)
    /\ id a' = "srcB-2"
    /\ calls w2 = calls warm_world.
Proof.
  destruct (feed_articles_are_cached settings sample_scrapers "realtime" 1 3
              false initial_world warm_world
              (built_feed [srcA_items; srcB_items] "realtime" 1 3 0)
              (stub_article "srcB-2" 30) 600
              (or_intror eq_refl) eq_refl ltac:(lia) ltac:(lia)
              ltac:(vm_compute; reflexivity)
              ltac:(vm_compute; right; left; reflexivity))
    as (a' & w2 & Hget & Hid & _ & Hcalls).
  exists a', w2. repeat split; assumption.
Defined.

(* ===================================================================== *)
(** * The article cache stays keyed by id *)
(* ===================================================================== *)

Lemma keyed_setitem (maxsize : nat) (ttl : Z) (c : TTLCache NewsArticle)
  (now : Z) (a : NewsArticle) :
  keyed_by_id c ->
  keyed_by_id (snd (cache_setitem maxsize ttl c now (id a) a)).
Proof.
  unfold keyed_by_id. rewrite !Forall_forall. intros Hc.
  assert (Hlive : forall l, In l (cache_expire c now) ->
                            link_key l = id (link_value l)).
  { intros l Hl. apply cache_expire_In in Hl. apply Hc, Hl. }
  unfold cache_setitem. destruct (maxsize <? 1)%nat; cbn [snd]; [exact Hlive|].
  intros l Hl. apply in_app_or in Hl. destruct Hl as [Hl|[<-|[]]];
    [|reflexivity].
  destruct (getlink (cache_expire c now) (id a)).
  - apply unlink_In in Hl. apply Hlive, Hl.
  - apply skipn_In in Hl. apply Hlive, Hl.
Qed.

Lemma keyed_getitem (c : TTLCache NewsArticle) (now : Z) (key : string) :
  keyed_by_id c -> keyed_by_id (snd (cache_getitem c now key)).
Proof.
  unfold keyed_by_id. rewrite !Forall_forall. intros Hc.
  unfold cache_getitem. destruct (getlink c key) as [l0|] eqn:E; cbn [snd];
    [|exact Hc].
  intros l Hl. apply in_app_or in Hl. destruct Hl as [Hl|[<-|[]]].
  - apply unlink_In in Hl. apply Hc, Hl.
  - apply Hc. apply (find_some _ _ E).
Qed.

Lemma keeps_ret {A : Type} (a : A) : keeps_keyed (ret a).
Proof. intros w H. exact H. Qed.

Lemma keeps_bind {A B : Type} (m : M A) (k : A -> M B) :
  keeps_keyed m -> (forall a, keeps_keyed (k a)) -> keeps_keyed (bind m k).
Proof.
  intros Hm Hk w H. unfold bind. specialize (Hm w H).
  destruct (m w) as [[a|e] w1]; [apply Hk, Hm | exact Hm].
Qed.

Lemma keeps_time_passes : keeps_keyed time_passes.
Proof. intros w H. exact H. Qed.

Lemma keeps_try_except {A : Type} (body : M A) (handler : PyException -> M A) :
  keeps_keyed body -> (forall e, keeps_keyed (handler e)) ->
  keeps_keyed (try_except body handler).
Proof.
  intros Hb Hh w H. unfold try_except. specialize (Hb w H).
  destruct (body w) as [[a|e] w1]; [exact Hb | apply Hh, Hb].
Qed.

Lemma keeps_gather {A : Type} (tasks : list (M A)) :
  Forall keeps_keyed tasks -> keeps_keyed (gather tasks).
Proof.
  induction 1 as [|t ts Ht _ IH]; intros w H; simpl.
  - exact H.
  - specialize (Ht w H). destruct (t w) as [r w1].
    specialize (IH w1 Ht). destruct (gather ts w1) as [rs w2]. exact IH.
Qed.

Lemma keeps_await_fetch_articles (scraper_id : string) (scraper : Scraper)
  (limit : Z) : keeps_keyed (await_fetch_articles scraper_id scraper limit).
Proof. intros w H. exact H. Qed.

Lemma keeps_await_fetch_article_content (scraper_id : string)
  (scraper : Scraper) (article_url : string) :
  keeps_keyed (await_fetch_article_content scraper_id scraper article_url).
Proof. intros w H. exact H. Qed.

Section KeepsFacts.
Variable cfg : Settings.
Variable scrapers : Registry.

Lemma keeps_article_cache_setitem (a : NewsArticle) :
  keeps_keyed (article_cache_setitem cfg (id a) a).
Proof.
  intros w H. unfold article_cache_setitem.
  pose proof (keyed_setitem article_cache_maxsize (CACHE_EXPIRATION cfg)
                (article_cache w) (timer w) a H) as Hset.
  destruct (cache_setitem _ _ _ _ _ _) as [r c]. exact Hset.
Qed.

Lemma keeps_article_cache_getitem (key : string) :
  keeps_keyed (article_cache_getitem key).
Proof.
  intros w H. unfold article_cache_getitem.
  pose proof (keyed_getitem (article_cache w) (timer w) key H) as Hget.
  destruct (cache_getitem _ _ _) as [r c]. exact Hget.
Qed.

Lemma keeps_news_cache_getitem (key : string) :
  keeps_keyed (news_cache_getitem key).
Proof.
  intros w H. unfold news_cache_getitem.
  destruct (cache_getitem _ _ _) as [r c]. exact H.
Qed.

Lemma keeps_news_cache_setitem (key : string) (feed : NewsFeed) :
  keeps_keyed (news_cache_setitem cfg key feed).
Proof.
  intros w H. unfold news_cache_setitem.
  destruct (cache_setitem _ _ _ _ _ _) as [r c]. exact H.
Qed.

Lemma keeps_cache_articles (l : list NewsArticle) :
  keeps_keyed (cache_articles cfg l).
Proof.
  induction l as [|a l IH]; simpl.
  - apply keeps_ret.
  - apply keeps_bind; [apply keeps_article_cache_setitem | intros _; exact IH].
Qed.

Lemma keeps_empty_feed (category : string) (page limit : Z) :
  keeps_keyed (empty_feed category page limit).
Proof. intros w H. exact H. Qed.

Lemma keeps_get_news_feed (category : string) (page limit : Z)
  (force_refresh : bool) :
  keeps_keyed (get_news_feed cfg scrapers category page limit force_refresh).
Proof.
  unfold get_news_feed. apply keeps_bind; [intros w H; exact H|].
  intros hit. destruct (negb force_refresh && hit).
  - apply keeps_bind; [apply keeps_time_passes|]. intros _.
    apply keeps_news_cache_getitem.
  - assert (Htry : keeps_keyed
                     (try_except
                        (fetch_merge_store cfg scrapers category page limit)
                        (fun _ => empty_feed category page limit))).
    { apply keeps_try_except; [|intros _; apply keeps_empty_feed].
      unfold fetch_merge_store. apply keeps_bind.
      - apply keeps_gather. unfold fetch_tasks. apply Forall_forall.
        intros t Ht. apply in_map_iff in Ht. destruct Ht as (entry & <- & _).
        apply keeps_await_fetch_articles.
      - intros lists. apply keeps_bind; [intros w H; exact H|]. intros now.
        apply keeps_bind; [apply keeps_news_cache_setitem|]. intros _.
        apply keeps_bind; [apply keeps_cache_articles|]. intros _.
        apply keeps_ret. }
    destruct (fetch_tasks scrapers category limit);
      [apply keeps_empty_feed | exact Htry].
Qed.

Lemma find_id_matches (article_id : string) (found : list NewsArticle)
  (a : NewsArticle) :
  find (fun x => String.eqb (id x) article_id) found = Some a ->
  id a = article_id.
Proof.
  intros H. apply find_some in H. apply String.eqb_eq, H.
Qed.

Lemma keeps_search_scrapers (article_id : string) (l : Registry) :
  keeps_keyed (search_scrapers cfg article_id l).
Proof.
  induction l as [|[k s] l IH]; simpl.
  - apply keeps_ret.
  - destruct (routes_to k (source_token article_id)); [|exact IH].
    apply keeps_bind; [apply keeps_await_fetch_articles|]. intros found.
    destruct (find _ found) as [a|] eqn:E; [|exact IH].
    apply find_id_matches in E. subst article_id.
    apply keeps_bind; [apply keeps_article_cache_setitem|]. intros _.
    apply keeps_ret.
Qed.

Lemma keeps_get_article (article_id : string) (force_refresh : bool) :
  keeps_keyed (get_article cfg scrapers article_id force_refresh).
Proof.
  unfold get_article. apply keeps_bind; [intros w H; exact H|].
  intros hit. destruct (negb force_refresh && hit).
  - apply keeps_bind; [apply keeps_time_passes|]. intros _.
    apply keeps_bind; [apply keeps_article_cache_getitem|]. intros a.
    apply keeps_ret.
  - destruct (negb (contains_char dash article_id));
      [apply keeps_ret | apply keeps_search_scrapers].
Qed.

Lemma keeps_get_article_content (article_id : string) :
  keeps_keyed (get_article_content cfg scrapers article_id).
Proof.
  unfold get_article_content. apply keeps_bind; [apply keeps_get_article|].
  intros [a|]; [|apply keeps_ret].
  destruct (negb (contains_char dash article_id)); [apply keeps_ret|].
  destruct (find_scraper _ scrapers) as [[k s]|];
    [apply keeps_await_fetch_article_content | apply keeps_ret].
Qed.

Lemma keeps_get_source_news (source_id category : string) (limit : Z)
  (force_refresh : bool) :
  keeps_keyed (get_source_news cfg scrapers source_id category limit
                 force_refresh).
Proof.
  unfold get_source_news.
  destruct (found_scraper scrapers source_id) as [[k s]|]; [|apply keeps_ret].
  destruct (negb _ && negb _); [apply keeps_ret|].
  apply keeps_try_except; [|intros _; apply keeps_ret].
  unfold fetch_and_cache.
  apply keeps_bind; [apply keeps_await_fetch_articles|]. intros fetched.
  apply keeps_bind; [apply keeps_cache_articles|]. intros _. apply keeps_ret.
Qed.

Lemma keeps_summarize (categories : list string) :
  keeps_keyed (summarize cfg scrapers categories).
Proof.
  induction categories as [|c l IH]; simpl.
  - apply keeps_ret.
  - apply keeps_bind; [apply keeps_get_news_feed|]. intros feed.
    apply keeps_bind; [apply keeps_time_passes|]. intros _.
    apply keeps_bind; [exact IH|]. intros summaries. apply keeps_ret.
Qed.

Lemma reachable_keyed (w : World) :
  reachable cfg scrapers w -> keyed_by_id (article_cache w).
Proof.
  induction 1 as [t0 w0|d w _ _ IH|r w _ IH].
  - constructor.
  - exact IH.
  - destruct r; simpl.
    + apply keeps_get_news_feed, IH.
    + apply keeps_get_article, IH.
    + apply keeps_get_article_content, IH.
    + apply keeps_summarize, IH.
    + apply keeps_get_source_news, IH.
Qed.

(** What [get_article] returns has the id that was asked for, provided
    the article cache is keyed by id. *)
Lemma get_article_returns_the_id (article_id : string) (force_refresh : bool)
  (w w' : World) (a : NewsArticle) :
  keyed_by_id (article_cache w) ->
  get_article cfg scrapers article_id force_refresh w = (Ok (Some a), w') ->
  id a = article_id.
Proof.
  intros Hkeyed.
  destruct (negb force_refresh
            && cache_contains (article_cache w) (timer w) article_id) eqn:Hc.
  - apply andb_true_iff in Hc. destruct Hc as [Hf Hhit].
    apply negb_true_iff in Hf. subst force_refresh.
    destruct (cache_getitem_live _ _ _ Hhit) as (l & Hl & _).
    assert (Hlive : timer w < link_expires l).
    { unfold cache_contains in Hhit. rewrite Hl in Hhit. apply Z.ltb_lt, Hhit. }
    rewrite (get_article_lookup cfg scrapers article_id w l Hl Hlive).
    destruct (timer w + next_lag w <? link_expires l); [|discriminate].
    intros H. injection H as <- _.
    unfold keyed_by_id in Hkeyed. rewrite Forall_forall in Hkeyed.
    rewrite <- (Hkeyed l (proj1 (find_some _ _ Hl))). apply (getlink_key _ _ _ Hl).
  - unfold get_article, bind at 1, article_cache_contains. rewrite Hc.
    destruct (negb (contains_char dash article_id)); [discriminate|].
    clear Hc Hkeyed. revert w.
    induction scrapers as [|[k s] l IH]; intros w; simpl; [discriminate|].
    destruct (routes_to k (source_token article_id)); [|apply IH].
    unfold bind at 1, await_fetch_articles at 1.
    destruct (fetch_articles s (wall w) 50) as [found|e]; [|discriminate].
    destruct (find _ found) as [a0|] eqn:E; [|apply IH].
    apply find_id_matches in E. unfold bind.
    destruct (article_cache_setitem cfg article_id a0 _) as [[u|e] w1];
      [|discriminate].
    intros H. injection H as <- _. exact E.
Qed.

End KeepsFacts.

(** X4. In every world that the service reaches from start-up, whatever
    requests were served and whatever the scrapers returned, each item of
    the article cache is stored under the id of its article; hence an
    article returned by [get_article], from the cache or from a scraper,
    always has the id that was asked for. *)
Theorem get_article_never_returns_another_id (cfg : Settings)
  (scrapers : Registry) (w : World) :
  reachable cfg scrapers w ->
  keyed_by_id (article_cache w)
  /\ forall article_id force_refresh a w',
       get_article cfg scrapers article_id force_refresh w
       = (Ok (Some a), w') ->
       id a = article_id.
Proof.
  intros Hreach. pose proof (reachable_keyed cfg scrapers w Hreach) as Hkeyed.
  split; [exact Hkeyed|].
  intros article_id force_refresh a w'.
  apply get_article_returns_the_id, Hkeyed.
Qed.

Lemma get_article_never_returns_another_id_witness :
  exists a w',
    get_article settings sample_scrapers "srcA-2" false (elapse 5 warm_world)
    = (Ok (Some a), w')
    /\ id a = "srcA-2".
Proof.
  assert (Hreach : reachable settings sample_scrapers (elapse 5 warm_world)).
  { apply reachable_elapse; [lia|].
    apply (reachable_serve settings sample_scrapers
             (NewsFeedRequest "realtime" 1 3 false)).
    apply (reachable_start settings sample_scrapers 0 0 []). }
  destruct (get_article_never_returns_another_id settings sample_scrapers
              (elapse 5 warm_world) Hreach) as [_ Hid].
  destruct (get_article settings sample_scrapers "srcA-2" false
              (elapse 5 warm_world)) as [[[a|]|e] w'] eqn:E;
    [|vm_compute in E; discriminate..].
  exists a, w'. split; [reflexivity|]. apply (Hid _ _ _ _ E).
Defined.

(* ===================================================================== *)
(** * An article found by a scraper is cached *)
(* ===================================================================== *)

(** When the loop of [get_article] returns an article, the article is in
    the article cache under the id, stored at the instant of the call. *)
Lemma search_scrapers_stores (cfg : Settings) (article_id : string)
  (l : Registry) (w w' : World) (a : NewsArticle) :
  search_scrapers cfg article_id l w = (Ok (Some a), w') ->
  timer w' = timer w
  /\ getlink (article_cache w') article_id
     = Some (mkLink article_id a (timer w + CACHE_EXPIRATION cfg)).
Proof.
  revert w. induction l as [|[k s] l IH]; intros w; simpl; [discriminate|].
  destruct (routes_to k (source_token article_id)); [|apply IH].
  unfold bind at 1, await_fetch_articles at 1.
  destruct (fetch_articles s (wall w) 50) as [found|e]; [|discriminate].
  destruct (find _ found) as [a0|] eqn:E.
  - unfold bind, article_cache_setitem.
    cbn [timer wall news_cache article_cache calls].
    destruct (cache_setitem_stores article_cache_maxsize (CACHE_EXPIRATION cfg)
                (article_cache w) (timer w) article_id a0)
      as (c' & Hset & Hlink).
    { unfold article_cache_maxsize. lia. }
    rewrite Hset. intros H. injection H as <- <-.
    split; [reflexivity | exact Hlink].
  - intros H. apply IH in H. exact H.
Qed.

(** X5. An article that [get_article] has found through a scraper (after
    a miss of the article cache, or with [force_refresh]) is returned
    again, the same, by a later [get_article] for that id whose lookup is
    made before the time-to-live has passed, and this second call calls no
    scraper. *)
Theorem found_article_is_served_from_cache (cfg : Settings)
  (scrapers : Registry) (article_id : string) (force_refresh : bool)
  (w w1 : World) (a : NewsArticle) (d : Z) :
  force_refresh = true
  \/ cache_contains (article_cache w) (timer w) article_id = false ->
  get_article cfg scrapers article_id force_refresh w = (Ok (Some a), w1) ->
  0 <= d ->
  d + next_lag w1 < CACHE_EXPIRATION cfg ->
  exists w2,
    get_article cfg scrapers article_id false (elapse d w1)
    = (Ok (Some a), w2)
    /\ calls w2 = calls w1.
Proof.
  intros Hmiss Hget Hd Hlate.
  rewrite get_article_uncached in Hget by exact Hmiss.
  destruct (negb (contains_char dash article_id)); [discriminate|].
  apply search_scrapers_stores in Hget. destruct Hget as [Htimer Hlink].
  assert (Hhit : cache_contains (article_cache (elapse d w1))
                   (timer (elapse d w1) + next_lag (elapse d w1)) article_id
                 = true).
  { rewrite next_lag_elapse. unfold elapse. cbn [article_cache timer].
    unfold cache_contains.
    rewrite Hlink. cbn [link_expires]. apply Z.ltb_lt. lia. }
  destruct (get_article_cached cfg scrapers article_id _ Hhit)
    as (l & Hl & Hagain).
  unfold elapse in Hl. cbn [article_cache] in Hl. rewrite Hlink in Hl.
  injection Hl as <-.
  eexists. split; [exact Hagain | reflexivity].
Qed.

Lemma found_article_is_served_from_cache_witness :
  exists w2,
    get_article settings sample_scrapers "srcA-2" false
      (elapse 10
         (snd (get_article settings sample_scrapers "srcA-2" true
                 initial_world)))
    = (Ok (Some (stub_article "srcA-2" 10)), w2)
    /\ calls w2 = [FetchArticles "srcA" 50].
Proof.
  apply (found_article_is_served_from_cache settings sample_scrapers "srcA-2"
           true initial_world _ (stub_article "srcA-2" 10) 10
           (or_introl eq_refl) eq_refl ltac:(lia)).
  vm_compute. reflexivity.
Defined.

(* ===================================================================== *)
(** * The news of one source *)
(* ===================================================================== *)

Section SourceNewsFacts.
Variable cfg : Settings.
Variable scrapers : Registry.

(** The four ways [get_source_news] can go. *)
Lemma get_source_news_runs (source_id category : string) (limit : Z)
  (force_refresh : bool) (w : World) :
  get_source_news cfg scrapers source_id category limit force_refresh w
  = match found_scraper scrapers source_id with
    | None => (Ok [], w)
    | Some (scraper_id, scraper) =>
        if skipped category scraper then (Ok [], w)
        else
          match fetch_articles scraper (wall w) limit with
          | Ok fetched =>
              (Ok fetched,
               mkWorld (timer w) (wall w) (news_cache w)
                 (store_articles cfg (article_cache w) (timer w) fetched)
                 (calls w ++ [FetchArticles scraper_id limit]) (lags w))
          | Raise _ => (Ok [], log_calls w [FetchArticles scraper_id limit])
          end
    end.
Proof.
  unfold get_source_news.
  destruct (found_scraper scrapers source_id) as [[k s]|]; [|reflexivity].
  unfold skipped.
  destruct (negb (String.eqb category "realtime")
            && negb (String.eqb (scraper_category s) category));
    [reflexivity|].
  unfold try_except, fetch_and_cache, bind at 1, await_fetch_articles at 1.
  destruct (fetch_articles s (wall w) limit) as [fetched|e]; [|reflexivity].
  unfold bind. rewrite cache_articles_runs. reflexivity.
Qed.

Lemma found_scraper_key (source_id scraper_id : string) (scraper : Scraper) :
  found_scraper scrapers source_id = Some (scraper_id, scraper) ->
  scraper_id = source_id /\ In (source_id, scraper) scrapers.
Proof.
  unfold found_scraper. intros H. apply find_some in H. destruct H as [Hin Hk].
  apply String.eqb_eq in Hk. simpl in Hk. subst. split; [reflexivity | exact Hin].
Qed.

End SourceNewsFacts.

(** X6. [get_source_news] never raises. It returns the empty list and
    calls no scraper when no scraper is registered under exactly the
    source id (a scraper whose id is only a prefix does not count) or when
    the scraper is skipped for the category. Otherwise it calls that
    scraper once, whatever [force_refresh] and the caches say, and returns
    what the scraper returns, or the empty list when the scraper raises. *)
Theorem get_source_news_answers (cfg : Settings) (scrapers : Registry)
  (source_id category : string) (limit : Z) (force_refresh : bool)
  (w : World) :
  (exists fetched w',
     get_source_news cfg scrapers source_id category limit force_refresh w
     = (Ok fetched, w'))
  /\ ((forall entry, In entry scrapers -> fst entry <> source_id) ->
      get_source_news cfg scrapers source_id category limit force_refresh w
      = (Ok [], w))
  /\ (forall scraper,
        found_scraper scrapers source_id = Some (source_id, scraper) ->
        (skipped category scraper = true ->
         get_source_news cfg scrapers source_id category limit force_refresh w
         = (Ok [], w))
        /\ (skipped category scraper = false ->
            fst (get_source_news cfg scrapers source_id category limit
                   force_refresh w)
            = Ok (match fetch_articles scraper (wall w) limit with
                  | Ok fetched => fetched
                  | Raise _ => []
                  end)
            /\ calls (snd (get_source_news cfg scrapers source_id category
                             limit force_refresh w))
               = calls w ++ [FetchArticles source_id limit])).
Proof.
  rewrite get_source_news_runs. split; [|split].
  - destruct (found_scraper scrapers source_id) as [[k s]|];
      [|eexists _, _; reflexivity].
    destruct (skipped category s); [eexists _, _; reflexivity|].
    destruct (fetch_articles s (wall w) limit); eexists _, _; reflexivity.
  - intros Hnone.
    destruct (found_scraper scrapers source_id) as [[k s]|] eqn:E;
      [|reflexivity].
    apply found_scraper_key in E. destruct E as [_ Hin].
    destruct (Hnone _ Hin). reflexivity.
  - intros scraper ->. split.
    + intros ->. reflexivity.
    + intros ->. destruct (fetch_articles scraper (wall w) limit);
        split; reflexivity.
Qed.

Lemma get_source_news_answers_witness :
  get_source_news settings composite_scrapers "reddit_world" "realtime" 5 true
    initial_world = (Ok [], initial_world)
  /\ fst (get_source_news settings composite_scrapers "reddit_worldnews"
            "realtime" 5 false warm_world)
     = Ok [worldnews_item].
Proof.
  destruct (get_source_news_answers settings composite_scrapers "reddit_world"
              "realtime" 5 true initial_world) as (_ & Hnone & _).
  destruct (get_source_news_answers settings composite_scrapers
              "reddit_worldnews" "realtime" 5 false warm_world)
    as (_ & _ & Hfound).
  split.
  - apply Hnone. intros entry [<-|[<-|[]]]; discriminate.
  - destruct (Hfound worldnews_scraper eq_refl) as [_ Hcall].
    destruct (Hcall eq_refl) as [Hresult _]. exact Hresult.
Defined.

(** X7. The articles that [get_source_news] returns, when they are at
    most 1000, can be read back by id: a call of [get_article] whose
    lookup is made less than the time-to-live after the fetch returns from
    the article cache one of the returned articles with that id and calls
    no scraper. *)
Theorem source_news_is_cached (cfg : Settings) (scrapers : Registry)
  (source_id category : string) (limit : Z) (force_refresh : bool)
  (w w1 : World) (fetched : list NewsArticle) (a : NewsArticle) (d : Z) :
  get_source_news cfg scrapers source_id category limit force_refresh w
  = (Ok fetched, w1) ->
  (List.length fetched <= 1000)%nat ->
  0 <= d ->
  d + next_lag w1 < CACHE_EXPIRATION cfg ->
  In a fetched ->
  exists a' w2,
    get_article cfg scrapers (id a) false (elapse d w1) = (Ok (Some a'), w2)
    /\ id a' = id a
    /\ In a' fetched
    /\ calls w2 = calls w1.
Proof.
  intros Hrun Hlen Hd Hlate Hin. pose proof (next_lag_nonneg w1) as Hlag.
  rewrite get_source_news_runs in Hrun.
  destruct (found_scraper scrapers source_id) as [[k s]|];
    [|injection Hrun as <- _; destruct Hin].
  destruct (skipped category s); [injection Hrun as <- _; destruct Hin|].
  destruct (fetch_articles s (wall w) limit) as [l|e];
    [|injection Hrun as <- _; destruct Hin].
  injection Hrun as -> <-.
  destruct (store_articles_lookup cfg (article_cache w) (timer w) fetched a
              ltac:(lia) Hlen Hin) as (a' & Hlink & Hid & Hin').
  set (w1 := mkWorld (timer w) (wall w) (news_cache w)
               (store_articles cfg (article_cache w) (timer w) fetched)
               (calls w ++ [FetchArticles k limit]) (lags w)) in *.
  assert (Hhit : cache_contains (article_cache (elapse d w1))
                   (timer (elapse d w1) + next_lag (elapse d w1)) (id a)
                 = true).
  { rewrite next_lag_elapse. unfold elapse. cbn [article_cache timer].
    unfold w1 at 1 2. cbn [article_cache timer]. unfold cache_contains.
    rewrite Hlink. cbn [link_expires]. apply Z.ltb_lt. lia. }
  destruct (get_article_cached cfg scrapers (id a) _ Hhit) as (l & Hl & Hget).
  unfold elapse, w1 in Hl. cbn [article_cache] in Hl.
  rewrite Hlink in Hl. injection Hl as <-.
  eexists a', _. split; [exact Hget|].
  split; [exact Hid|]. split; [exact Hin' | reflexivity].
Qed.

Lemma source_news_is_cached_witness :
  exists a' w2,
    get_article settings mock_scrapers "mock2-1" false
      (elapse 30
         (snd (get_source_news settings mock_scrapers "mock2" "world" 3 false
                 initial_world)))
    = (Ok (Some a'), w2)
    /\ id a' = "mock2-1".
Proof.
  destruct (source_news_is_cached settings mock_scrapers "mock2" "world" 3
              false initial_world _ _
              (mock_article "mock2" "Mock Source 2" "world" 1 1) 30
              eq_refl ltac:(vm_compute; lia) ltac:(lia)
              ltac:(vm_compute; reflexivity)
              ltac:(vm_compute; right; left; reflexivity))
    as (a' & w2 & Hget & Hid & _).
  exists a', w2. split; assumption.
Defined.

(* ===================================================================== *)
(** * Cache keys *)
(* ===================================================================== *)

Lemma append_assoc (s1 s2 s3 : string) :
  (s1 +++ s2) +++ s3 = s1 +++ s2 +++ s3.
Proof.
  induction s1 as [|c s1 IH]; simpl; [reflexivity|]. rewrite IH. reflexivity.
Qed.

Lemma contains_char_append (c : ascii) (s t : string) :
  contains_char c (s +++ String c t) = true.
Proof.
  induction s as [|d s IH]; simpl.
  - rewrite Ascii.eqb_refl. reflexivity.
  - destruct (Ascii.eqb d c); [reflexivity | exact IH].
Qed.

(** A string is cut in one way only at its last occurrence of [c]. *)
Lemma append_last_occurrence (c : ascii) (s1 s2 t1 t2 : string) :
  contains_char c t1 = false ->
  contains_char c t2 = false ->
  s1 +++ String c t1 = s2 +++ String c t2 ->
  s1 = s2 /\ t1 = t2.
Proof.
  intros H1 H2. revert s2.
  induction s1 as [|d s1 IH]; intros [|d' s2]; simpl; intros H.
  - injection H as ->. split; reflexivity.
  - injection H as <- ->. rewrite contains_char_append in H1. discriminate.
  - injection H as -> <-. rewrite contains_char_append in H2. discriminate.
  - injection H as -> H. destruct (IH s2 H) as [-> ->]. split; reflexivity.
Qed.

Lemma string_of_uint_digits (c : ascii) (d : Decimal.uint) :
  c <> "0"%char -> c <> "1"%char -> c <> "2"%char -> c <> "3"%char ->
  c <> "4"%char -> c <> "5"%char -> c <> "6"%char -> c <> "7"%char ->
  c <> "8"%char -> c <> "9"%char ->
  contains_char c (NilEmpty.string_of_uint d) = false.
Proof.
  intros H0 H1 H2 H3 H4 H5 H6 H7 H8 H9.
  induction d; cbn [contains_char NilEmpty.string_of_uint];
    [reflexivity| | | | | | | | | |];
    match goal with
    | |- (if Ascii.eqb ?x c then _ else _) = _ =>
        destruct (Ascii.eqb_spec x c) as [E|_];
          [symmetry in E; contradiction | assumption]
    end.
Qed.

(** [str(n)] is made of digits and a sign. *)
Lemma str_of_int_no_underscore (n : Z) :
  contains_char "_"%char (str_of_int n) = false.
Proof.
  unfold str_of_int, NilEmpty.string_of_int.
  destruct (Z.to_int n) as [d|d]; simpl;
    apply string_of_uint_digits; discriminate.
Qed.

Lemma str_of_int_inj (n m : Z) : str_of_int n = str_of_int m -> n = m.
Proof.
  unfold str_of_int. intros H.
  apply (f_equal NilEmpty.int_of_string) in H.
  rewrite !NilEmpty.isi in H. injection H as H.
  apply (f_equal Z.of_int) in H. rewrite !DecimalZ.of_to in H. exact H.
Qed.

(** Two requests for a feed share a cache key only when they are the
    same request. *)
Lemma cache_key_determines_request (category1 category2 : string)
  (page1 limit1 page2 limit2 : Z) :
  cache_key category1 page1 limit1 = cache_key category2 page2 limit2 ->
  category1 = category2 /\ page1 = page2 /\ limit1 = limit2.
Proof.
  unfold cache_key. intros H.
  change ("_" +++ str_of_int page1 +++ "_" +++ str_of_int limit1)
    with (String "_"%char (str_of_int page1) +++ String "_"%char (str_of_int limit1))
    in H.
  change ("_" +++ str_of_int page2 +++ "_" +++ str_of_int limit2)
    with (String "_"%char (str_of_int page2) +++ String "_"%char (str_of_int limit2))
    in H.
  rewrite <- !append_assoc in H.
  apply append_last_occurrence in H; try apply str_of_int_no_underscore.
  destruct H as [H Hlimit].
  apply append_last_occurrence in H; try apply str_of_int_no_underscore.
  destruct H as [-> Hpage].
  apply str_of_int_inj in Hlimit. apply str_of_int_inj in Hpage.
  subst. repeat split.
Qed.

(** X13. The key of the feed cache determines the request: two calls of
    [get_news_feed] share a cache key only when they have the same
    category, the same page and the same limit, even when a category
    contains ["_"] or digits. *)
Theorem cache_key_inj (category1 category2 : string)
  (page1 limit1 page2 limit2 : Z) :
  cache_key category1 page1 limit1 = cache_key category2 page2 limit2 ->
  category1 = category2 /\ page1 = page2 /\ limit1 = limit2.
Proof. apply cache_key_determines_request. Qed.

Lemma cache_key_inj_witness :
  "tech_1" = "tech_1" /\ 2 = 2 /\ 30 = 30.
Proof.
  apply (cache_key_inj "tech_1" "tech_1" 2 30 2 30). reflexivity.
Defined.

(* ===================================================================== *)
(** * The summary of the categories *)
(* ===================================================================== *)


Section SummaryFacts.
Variable cfg : Settings.
Variable scrapers : Registry.




End SummaryFacts.





(* ===================================================================== *)
(** * The registry built at start-up *)
(* ===================================================================== *)

Lemma dict_set_In_new {V : Type} (d : list (string * V)) (key : string)
  (value : V) : In (key, value) (dict_set d key value).
Proof.
  induction d as [|[k v] d IH]; simpl; [left; reflexivity|].
  destruct (String.eqb_spec k key) as [->|_];
    [left; reflexivity | right; exact IH].
Qed.

Lemma dict_set_key_In {V : Type} (d : list (string * V)) (key : string)
  (value : V) (k : string) :
  In k (map fst (dict_set d key value)) -> k = key \/ In k (map fst d).
Proof.
  intros H. apply in_map_iff in H. destruct H as ([k' v'] & <- & H).
  apply In_dict_set in H. destruct H as [H|H].
  - injection H as -> _. left. reflexivity.
  - right. apply in_map_iff. exists (k', v'). split; [reflexivity | exact H].
Qed.

(** A [dict] never holds a key twice. *)
Lemma dict_set_NoDup {V : Type} (d : list (string * V)) (key : string)
  (value : V) :
  NoDup (map fst d) -> NoDup (map fst (dict_set d key value)).
Proof.
  induction d as [|[k v] d IH]; simpl; intros H.
  - constructor; [intros [] | constructor].
  - inversion H as [|? ? Hnotin Hrest]; subst.
    destruct (String.eqb_spec k key) as [->|Hne]; simpl.
    + constructor; assumption.
    + constructor; [|apply IH, Hrest].
      intros Hin. apply dict_set_key_In in Hin.
      destruct Hin as [->|Hin]; contradiction.
Qed.

Lemma dict_set_not_nil {V : Type} (d : list (string * V)) (key : string)
  (value : V) : dict_set d key value <> [].
Proof. destruct d as [|[k v] d]; simpl; [|destruct (String.eqb k key)]; discriminate. Qed.

Section RegistryFacts.
Variable md5_hexdigest : string -> string.
Variable http_url : string -> option string.
Variable hn_upstream : Z -> HNUpstream.
Variable gh_upstream : Z -> GitHubUpstream.
Variable rd_upstream : Z -> RedditUpstream.

Lemma add_subreddit_scrapers_shape (cfg : Settings) (d : Registry) :
  NoDup (map fst d) -> d <> [] ->
  NoDup (map fst (add_subreddit_scrapers http_url rd_upstream cfg d))
  /\ add_subreddit_scrapers http_url rd_upstream cfg d <> []
  /\ (forall k s,
        In (k, s) (add_subreddit_scrapers http_url rd_upstream cfg d) ->
        In (k, s) d
        \/ exists subreddit,
             In subreddit (reddit_subreddits cfg)
             /\ k = "reddit_" +++ subreddit
             /\ s = RedditScraper http_url cfg rd_upstream (Some subreddit)).
Proof.
  unfold add_subreddit_scrapers.
  generalize (RedditScraper http_url cfg rd_upstream) as mk.
  intros mk. revert d.
  induction (reddit_subreddits cfg) as [|sub subs IH]; intros d Hnodup Hne; simpl.
  - split; [exact Hnodup|]. split; [exact Hne|]. intros k s H. left. exact H.
  - destruct (IH (dict_set d ("reddit_" +++ sub) (mk (Some sub)))
                (dict_set_NoDup _ _ _ Hnodup) (dict_set_not_nil _ _ _))
      as (Hnodup' & Hne' & Hentries).
    split; [exact Hnodup'|]. split; [exact Hne'|].
    intros k s H. destruct (Hentries k s H) as [Hd|(sub' & Hsub' & Hk & Hs)].
    + apply In_dict_set in Hd. destruct Hd as [Hd|Hd]; [|left; exact Hd].
      injection Hd as -> ->. right. exists sub.
      split; [left; reflexivity|]. split; reflexivity.
    + right. exists sub'. split; [right; exact Hsub'|]. split; assumption.
Qed.

(** What [init_scrapers] registers, and under which keys. *)
Lemma init_scrapers_shape (cfg : Settings) :
  NoDup (map fst (init_scrapers md5_hexdigest http_url hn_upstream
                    gh_upstream rd_upstream cfg))
  /\ init_scrapers md5_hexdigest http_url hn_upstream gh_upstream rd_upstream
       cfg <> []
  /\ (forall k s,
        In (k, s) (init_scrapers md5_hexdigest http_url hn_upstream
                     gh_upstream rd_upstream cfg) ->
        (k = "hacker_news" /\ s = HackerNewsScraper http_url hn_upstream)
        \/ (k = "github_trending"
            /\ s = GitHubTrendingScraper md5_hexdigest http_url gh_upstream)
        \/ (k = "reddit" /\ reddit_enabled cfg = true
            /\ s = RedditScraper http_url cfg rd_upstream None)
        \/ (exists subreddit,
              In subreddit (reddit_subreddits cfg)
              /\ k = "reddit_" +++ subreddit
              /\ s = RedditScraper http_url cfg rd_upstream (Some subreddit))).
Proof.
  unfold init_scrapers.
  set (hn := HackerNewsScraper http_url hn_upstream).
  set (gh := GitHubTrendingScraper md5_hexdigest http_url gh_upstream).
  set (d1 := if hacker_news_enabled cfg then _ else _).
  set (d2 := if github_trending_enabled cfg then _ else _).
  set (d3 := if reddit_enabled cfg then _ else _).
  assert (H1 : NoDup (map fst d1)
               /\ forall k s, In (k, s) d1 -> k = "hacker_news" /\ s = hn).
  { subst d1. destruct (hacker_news_enabled cfg); simpl.
    - split; [constructor; [intros [] | constructor]|].
      intros k s [H|[]]. injection H as <- <-. split; reflexivity.
    - split; [constructor | intros k s []]. }
  destruct H1 as [Hnodup1 Hin1].
  assert (H2 : NoDup (map fst d2)
               /\ forall k s, In (k, s) d2 ->
                    (k = "hacker_news" /\ s = hn)
                    \/ (k = "github_trending" /\ s = gh)).
  { subst d2. destruct (github_trending_enabled cfg).
    - split; [apply dict_set_NoDup, Hnodup1|].
      intros k s H. apply In_dict_set in H. destruct H as [H|H].
      + injection H as -> ->. right. split; reflexivity.
      + left. apply Hin1, H.
    - split; [exact Hnodup1|]. intros k s H. left. apply Hin1, H. }
  destruct H2 as [Hnodup2 Hin2].
  assert (H3 : NoDup (map fst d3)
               /\ forall k s, In (k, s) d3 ->
                    (k = "hacker_news" /\ s = hn)
                    \/ (k = "github_trending" /\ s = gh)
                    \/ (k = "reddit" /\ reddit_enabled cfg = true
                        /\ s = RedditScraper http_url cfg rd_upstream None)
                    \/ (exists subreddit,
                          In subreddit (reddit_subreddits cfg)
                          /\ k = "reddit_" +++ subreddit
                          /\ s = RedditScraper http_url cfg rd_upstream
                                   (Some subreddit))).
  { subst d3. destruct (reddit_enabled cfg).
    - destruct (add_subreddit_scrapers_shape cfg
                  (dict_set d2 "reddit"
                     (RedditScraper http_url cfg rd_upstream None))
                  (dict_set_NoDup _ _ _ Hnodup2) (dict_set_not_nil _ _ _))
        as (Hnodup & _ & Hentries).
      split; [exact Hnodup|]. intros k s H.
      destruct (Hentries k s H) as [Hd|Hsub];
        [|right; right; right; exact Hsub].
      apply In_dict_set in Hd. destruct Hd as [Hd|Hd].
      + injection Hd as -> ->. right. right. left. repeat split.
      + destruct (Hin2 k s Hd) as [H'|H']; [left | right; left]; exact H'.
    - split; [exact Hnodup2|]. intros k s H.
      destruct (Hin2 k s H) as [H'|H']; [left | right; left]; exact H'. }
  destruct H3 as [Hnodup3 Hin3].
  destruct d3 as [|x d3'] eqn:E.
  - simpl. split; [constructor; [intros [] | constructor]|].
    split; [discriminate|].
    intros k s [H|[]]. injection H as <- <-. left. split; reflexivity.
  - split; [exact Hnodup3|]. split; [discriminate | exact Hin3].
Qed.

End RegistryFacts.

(** X9. The registry that [init_scrapers] builds is never empty (with
    every source disabled it holds the Hacker News scraper alone) and no
    key occurs twice in it, whatever the list of subreddits. Each scraper
    is registered under its own source id, with one exception: an empty
    subreddit name gives the key ["reddit_"] for a scraper whose source id
    is ["reddit"]. *)
Theorem registry_shape (md5_hexdigest : string -> string)
  (http_url : string -> option string) (hn_upstream : Z -> HNUpstream)
  (gh_upstream : Z -> GitHubUpstream) (rd_upstream : Z -> RedditUpstream)
  (cfg : Settings) :
  init_scrapers md5_hexdigest http_url hn_upstream gh_upstream rd_upstream cfg
  <> []
  /\ NoDup (map fst (init_scrapers md5_hexdigest http_url hn_upstream
                       gh_upstream rd_upstream cfg))
  /\ (forall k s,
        In (k, s) (init_scrapers md5_hexdigest http_url hn_upstream
                     gh_upstream rd_upstream cfg) ->
        k = source_id s \/ (k = "reddit_" /\ source_id s = "reddit"))
  /\ (hacker_news_enabled cfg = false ->
      github_trending_enabled cfg = false ->
      reddit_enabled cfg = false ->
      init_scrapers md5_hexdigest http_url hn_upstream gh_upstream
        rd_upstream cfg
      = [("hacker_news", HackerNewsScraper http_url hn_upstream)]).
Proof.
  destruct (init_scrapers_shape md5_hexdigest http_url hn_upstream gh_upstream
              rd_upstream cfg) as (Hnodup & Hne & Hentries).
  split; [exact Hne|]. split; [exact Hnodup|]. split.
  - intros k s H.
    destruct (Hentries k s H)
      as [[-> ->]|[[-> ->]|[(-> & _ & ->)|(sub & _ & -> & ->)]]];
      try (left; reflexivity).
    unfold RedditScraper. destruct (String.eqb_spec sub "") as [->|_].
    + right. split; reflexivity.
    + left. reflexivity.
  - intros H1 H2 H3. unfold init_scrapers. rewrite H1, H2, H3. reflexivity.
Qed.

Lemma registry_shape_witness :
  map fst (init_scrapers sample_digest accept_url sample_hn_upstream
             sample_gh_upstream sample_rd_upstream all_disabled)
  = ["hacker_news"].
Proof.
  destruct (registry_shape sample_digest accept_url sample_hn_upstream
              sample_gh_upstream sample_rd_upstream all_disabled)
    as (_ & _ & _ & Hfallback).
  rewrite Hfallback; reflexivity.
Defined.

(* ===================================================================== *)
(** * What the scrapers of the registry return *)
(* ===================================================================== *)

Lemma present_length {A : Type} (l : list (option A)) :
  (List.length (present l) <= List.length l)%nat.
Proof.
  unfold present. induction l as [|[a|] l IH]; simpl; lia.
Qed.

Lemma py_slice_to_length {A : Type} (l : list A) (limit : Z) :
  0 <= limit -> Z.of_nat (List.length (py_slice_to l limit)) <= limit.
Proof. intros H. apply (py_slice_length l 0 limit H). Qed.

(** A window of a list sorted by decreasing key is sorted. *)
Lemma py_slice_sorted {A : Type} (key : A -> Z) (l : list A) (start stop : Z) :
  StronglySorted (desc key) l ->
  StronglySorted (desc key) (py_slice l start stop).
Proof.
  intros H. destruct (py_slice_window l start stop) as (before & after & Hwin).
  rewrite Hwin in H. apply sorted_app_inv_r in H.
  apply sorted_app_inv_l in H. exact H.
Qed.

Lemma collect_all_Ok {A : Type} (rs : list (Outcome A)) :
  (forall r, In r rs -> exists a, r = Ok a) -> exists l, collect rs = Ok l.
Proof.
  induction rs as [|r rs IH]; simpl; intros H.
  - exists []. reflexivity.
  - destruct (H r (or_introl eq_refl)) as (a & ->).
    destruct IH as (l & ->); [intros r' Hr'; apply H; right; exact Hr'|].
    exists (a :: l). reflexivity.
Qed.

Lemma collect_Raise {A : Type} (rs : list (Outcome A)) (e : PyException) :
  In (Raise e) rs -> exists e', collect rs = Raise e'.
Proof.
  induction rs as [|r rs IH]; simpl; intros H; [destruct H|].
  destruct r as [a|e0]; [|exists e0; reflexivity].
  destruct H as [H|H]; [discriminate|].
  destruct (IH H) as (e' & ->). exists e'. reflexivity.
Qed.

Section ScraperFacts.
Variable md5_hexdigest : string -> string.
Variable http_url : string -> option string.
Variable hn_upstream : Z -> HNUpstream.
Variable gh_upstream : Z -> GitHubUpstream.
Variable rd_upstream : Z -> RedditUpstream.

Lemma hn_stories_loop_length (stories : list (option HNStory)) :
  (List.length (hn_stories_loop http_url stories) <= List.length stories)%nat.
Proof.
  induction stories as [|[story|] stories IH]; simpl; try lia.
  destruct (hn_article http_url story); simpl; lia.
Qed.

Lemma hn_fetch_articles_length (up : HNUpstream) (limit : Z) :
  0 <= limit ->
  Z.of_nat (List.length (hn_fetch_articles http_url up limit)) <= limit.
Proof.
  intros Hlimit. unfold hn_fetch_articles.
  destruct (hn_topstories up) as [ids|]; [|simpl; lia].
  destruct (hn_items_fail up); [simpl; lia|].
  pose proof (py_slice_to_length ids limit Hlimit) as Hslice.
  pose proof (hn_stories_loop_length
                (present (map (hn_item up) (py_slice_to ids limit)))) as H1.
  pose proof (present_length (map (hn_item up) (py_slice_to ids limit))) as H2.
  rewrite length_map in H2. lia.
Qed.

Lemma github_loop_length (now limit i : Z) (l : list TrendingRepo) :
  Z.of_nat (List.length (github_loop md5_hexdigest http_url now limit
                           (enumerate_from i l)))
  <= Z.max 0 (limit - i).
Proof.
  revert i. induction l as [|repo l IH]; intros i; simpl; [lia|].
  destruct (Z.leb_spec limit i); [simpl; lia|].
  specialize (IH (i + 1)).
  destruct (github_article md5_hexdigest http_url now i repo); simpl; lia.
Qed.

(** The articles of one fetch of the trending page, in the order of the
    page: each is dated one hour or more before the one above it. *)
Lemma github_loop_published (now limit i : Z) (l : list TrendingRepo)
  (a : NewsArticle) :
  In a (github_loop md5_hexdigest http_url now limit (enumerate_from i l)) ->
  published_at a <= now - hours i.
Proof.
  revert i. induction l as [|repo l IH]; intros i; simpl; [intros []|].
  destruct (limit <=? i); [intros []|].
  assert (Hnext : In a (github_loop md5_hexdigest http_url now limit
                          (enumerate_from (i + 1) l)) ->
                  published_at a <= now - hours i).
  { intros H. apply IH in H. unfold hours, microseconds in *. lia. }
  destruct (github_article md5_hexdigest http_url now i repo) as [a0|] eqn:E;
    [|exact Hnext].
  intros [<-|H]; [|apply Hnext, H].
  unfold github_article in E.
  destruct (repo_rel_path repo) as [rel|]; [|discriminate].
  destruct (repo_stars repo), (http_url ("https://github.com" +++ rel));
    try discriminate.
  injection E as <-. simpl. lia.
Qed.

Lemma github_loop_sorted (now limit i : Z) (l : list TrendingRepo) :
  StronglySorted (fun a b => published_at b < published_at a)
    (github_loop md5_hexdigest http_url now limit (enumerate_from i l)).
Proof.
  revert i. induction l as [|repo l IH]; intros i; simpl; [constructor|].
  destruct (limit <=? i); [constructor|].
  destruct (github_article md5_hexdigest http_url now i repo) as [a0|] eqn:E;
    [|apply IH].
  constructor; [apply IH|]. apply Forall_forall. intros b Hb.
  apply github_loop_published in Hb.
  unfold github_article in E.
  destruct (repo_rel_path repo) as [rel|]; [|discriminate].
  destruct (repo_stars repo), (http_url ("https://github.com" +++ rel));
    try discriminate.
  injection E as <-. simpl. unfold hours, microseconds in *. lia.
Qed.

Lemma reddit_fetch_articles_length (subreddits : list string)
  (up : RedditUpstream) (limit : Z) (l : list NewsArticle) :
  0 <= limit ->
  reddit_fetch_articles http_url subreddits up limit = Ok l ->
  Z.of_nat (List.length l) <= limit.
Proof.
  intros Hlimit. unfold reddit_fetch_articles.
  destruct subreddits; [discriminate|]. intros H. injection H as <-.
  apply py_slice_to_length, Hlimit.
Qed.

Lemma reddit_fetch_articles_sorted (subreddits : list string)
  (up : RedditUpstream) (limit : Z) (l : list NewsArticle) :
  reddit_fetch_articles http_url subreddits up limit = Ok l ->
  StronglySorted (desc (fun x => or_0 (likes_count x))) l.
Proof.
  unfold reddit_fetch_articles.
  destruct subreddits; [discriminate|]. intros H. injection H as <-.
  apply py_slice_sorted, sort_desc_sorted.
Qed.

Lemma reddit_fetch_articles_never_raises (subreddits : list string)
  (up : RedditUpstream) (limit : Z) :
  subreddits <> [] ->
  exists l, reddit_fetch_articles http_url subreddits up limit = Ok l.
Proof.
  unfold reddit_fetch_articles. destruct subreddits; [contradiction|].
  intros _. eexists. reflexivity.
Qed.

(** The subreddits that a Reddit scraper reads. *)
Lemma RedditScraper_subreddits (cfg : Settings) (subreddit : option string)
  (now limit : Z) :
  exists subreddits,
    fetch_articles (RedditScraper http_url cfg rd_upstream subreddit) now limit
    = reddit_fetch_articles http_url subreddits (rd_upstream now) limit
    /\ (subreddits = reddit_subreddits cfg
        /\ scraper_category (RedditScraper http_url cfg rd_upstream subreddit)
           = "realtime"
        \/ exists s,
             subreddits = [s]
             /\ scraper_category
                  (RedditScraper http_url cfg rd_upstream subreddit)
                = category_for_subreddit s).
Proof.
  unfold RedditScraper. destruct subreddit as [s|].
  - destruct (String.eqb s ""); eexists; (split; [reflexivity|]).
    + left. split; reflexivity.
    + right. exists s. split; reflexivity.
  - eexists. split; [reflexivity|]. left. split; reflexivity.
Qed.

(** The subreddit that an article of a Reddit fetch comes from. *)
Lemma reddit_fetch_articles_origin (subreddits : list string)
  (up : RedditUpstream) (limit : Z) (l : list NewsArticle) (a : NewsArticle) :
  reddit_fetch_articles http_url subreddits up limit = Ok l -> In a l ->
  exists subreddit post,
    In subreddit subreddits
    /\ reddit_post_step http_url subreddit post = Append a.
Proof.
  unfold reddit_fetch_articles. destruct subreddits as [|s0 subs]; [discriminate|].
  intros H Hin.
  assert (Hall : In a (flat_map
                         (fetch_subreddit http_url up
                            (Z.max (limit / Z.of_nat (List.length (s0 :: subs))) 3))
                         (s0 :: subs))).
  { injection H as <-. apply py_slice_In, sort_desc_In in Hin. exact Hin. }
  clear H Hin. apply in_flat_map in Hall.
  destruct Hall as (subreddit & Hsub & Hin). unfold fetch_subreddit in Hin.
  destruct (rd_top up subreddit _); [|destruct Hin].
  apply reddit_posts_loop_In in Hin. destruct Hin as (post & Hpost).
  exists subreddit, post. split; assumption.
Qed.

Lemma hn_article_category (story : HNStory) (a : NewsArticle) :
  hn_article http_url story = Some a -> category a = "technology".
Proof.
  unfold hn_article. destruct (story_url story) as [u|]; [|discriminate].
  destruct (String.eqb u ""); [discriminate|].
  destruct (story_title story), (http_url u), (story_time story) as [tm|];
    try discriminate.
  destruct (fromtimestamp tm); [|discriminate].
  intros H. injection H as <-. reflexivity.
Qed.

Lemma github_article_category (now i : Z) (repo : TrendingRepo)
  (a : NewsArticle) :
  github_article md5_hexdigest http_url now i repo = Some a ->
  category a = "technology".
Proof.
  unfold github_article. destruct (repo_rel_path repo) as [rel|]; [|discriminate].
  destruct (repo_stars repo), (http_url ("https://github.com" +++ rel));
    try discriminate.
  intros H. injection H as <-. reflexivity.
Qed.

Lemma reddit_post_step_category (subreddit : string) (post : RedditPost)
  (a : NewsArticle) :
  reddit_post_step http_url subreddit post = Append a ->
  category a = category_for_subreddit subreddit.
Proof.
  unfold reddit_post_step.
  destruct (post_is_self post && _); [discriminate|].
  destruct (String.eqb _ "" && _); [discriminate|].
  destruct (post_id post) as [pid|]; [|discriminate].
  destruct (post_title post); [|discriminate].
  destruct (if post_is_self post then _ else _) as [u|]; [|discriminate].
  destruct (post_created_utc post) as [created|]; [|discriminate].
  destruct (fromtimestamp created); [|discriminate].
  destruct (http_url u); [|discriminate].
  intros H. injection H as <-. reflexivity.
Qed.

(** An article fetched by a scraper of the registry whose category is not
    ["realtime"] has the category of the scraper. *)
Lemma registry_article_category (cfg : Settings) (entry : string * Scraper)
  (now limit : Z) (l : list NewsArticle) (a : NewsArticle) :
  In entry (init_scrapers md5_hexdigest http_url hn_upstream gh_upstream
              rd_upstream cfg) ->
  scraper_category (snd entry) <> "realtime" ->
  fetch_articles (snd entry) now limit = Ok l ->
  In a l ->
  category a = scraper_category (snd entry).
Proof.
  intros Hreg Hcat Hfetch Hin. apply init_scrapers_In in Hreg.
  destruct Hreg as [E|[E|(subreddit & E)]]; rewrite E in *; clear E.
  - simpl in Hfetch. injection Hfetch as <-.
    apply hn_fetch_articles_In in Hin. destruct Hin as (story & Hstory).
    apply (hn_article_category _ _ Hstory).
  - simpl in Hfetch. injection Hfetch as <-.
    unfold github_fetch_articles in Hin.
    destruct (gh_repos (gh_upstream now)); [|destruct Hin].
    apply github_loop_In in Hin. destruct Hin as (i & repo & Hrepo).
    apply (github_article_category _ _ _ _ Hrepo).
  - destruct (RedditScraper_subreddits cfg subreddit now limit)
      as (subs & Heq & [[_ Hbase]|(s & -> & Hsub)]).
    + contradiction.
    + rewrite Heq in Hfetch.
      destruct (reddit_fetch_articles_origin _ _ _ _ _ Hfetch Hin)
        as (s' & post & [<-|[]] & Hpost).
      rewrite Hsub. apply (reddit_post_step_category _ _ _ Hpost).
Qed.

End ScraperFacts.

(** X10. For a limit of at least 0, no scraper of the registry returns
    more than [limit] articles. *)
Theorem registry_scrapers_respect_the_limit
  (md5_hexdigest : string -> string) (http_url : string -> option string)
  (hn_upstream : Z -> HNUpstream) (gh_upstream : Z -> GitHubUpstream)
  (rd_upstream : Z -> RedditUpstream) (cfg : Settings)
  (entry : string * Scraper) (now limit : Z) (l : list NewsArticle) :
  In entry (init_scrapers md5_hexdigest http_url hn_upstream gh_upstream
              rd_upstream cfg) ->
  0 <= limit ->
  fetch_articles (snd entry) now limit = Ok l ->
  Z.of_nat (List.length l) <= limit.
Proof.
  intros Hreg Hlimit Hfetch. apply init_scrapers_In in Hreg.
  destruct Hreg as [E|[E|(subreddit & E)]]; rewrite E in *; clear E.
  - simpl in Hfetch. injection Hfetch as <-.
    apply hn_fetch_articles_length, Hlimit.
  - simpl in Hfetch. injection Hfetch as <-. unfold github_fetch_articles.
    destruct (gh_repos (gh_upstream now)) as [repos|]; [|simpl; lia].
    pose proof (github_loop_length md5_hexdigest http_url now limit 0 repos).
    lia.
  - destruct (RedditScraper_fetch_articles http_url rd_upstream cfg subreddit
                now limit) as (subs & Heq).
    rewrite Heq in Hfetch.
    apply (reddit_fetch_articles_length _ _ _ _ _ Hlimit Hfetch).
Qed.

Lemma registry_scrapers_respect_the_limit_witness :
  Z.of_nat (List.length (hn_fetch_articles accept_url (sample_hn_upstream 0) 1))
  <= 1.
Proof.
  apply (registry_scrapers_respect_the_limit sample_digest accept_url
           sample_hn_upstream sample_gh_upstream sample_rd_upstream settings
           ("hacker_news", HackerNewsScraper accept_url sample_hn_upstream)
           0 1).
  - left. reflexivity.
  - lia.
  - reflexivity.
Defined.

(** X12. What a Reddit scraper returns is sorted by decreasing score, a
    missing score counting as 0. *)
Theorem reddit_articles_sorted_by_score (http_url : string -> option string)
  (rd_upstream : Z -> RedditUpstream) (cfg : Settings)
  (subreddit : option string) (now limit : Z) (l : list NewsArticle) :
  fetch_articles (RedditScraper http_url cfg rd_upstream subreddit) now limit
  = Ok l ->
  StronglySorted (desc (fun x => or_0 (likes_count x))) l
  /\ forall i a b,
       nth_error l i = Some a -> nth_error l (S i) = Some b ->
       or_0 (likes_count b) <= or_0 (likes_count a).
Proof.
  intros Hfetch.
  destruct (RedditScraper_fetch_articles http_url rd_upstream cfg subreddit
              now limit) as (subs & Heq).
  rewrite Heq in Hfetch.
  pose proof (reddit_fetch_articles_sorted _ _ _ _ _ Hfetch) as Hsorted.
  split; [exact Hsorted|].
  intros i a b.
  apply (sorted_adjacent (fun x => or_0 (likes_count x)) l i a b Hsorted).
Qed.

(** X15. The articles of one fetch of GitHub Trending are dated in the
    order of the page, each strictly before the one above it, so that the
    sort of the feed keeps the trending order among them. *)
Theorem github_articles_keep_trending_order
  (md5_hexdigest : string -> string) (http_url : string -> option string)
  (up : GitHubUpstream) (now limit : Z) :
  StronglySorted (fun a b => published_at b < published_at a)
    (github_fetch_articles md5_hexdigest http_url up now limit)
  /\ sort_desc published_at
       (github_fetch_articles md5_hexdigest http_url up now limit)
     = github_fetch_articles md5_hexdigest http_url up now limit.
Proof.
  assert (Hstrict : StronglySorted (fun a b => published_at b < published_at a)
                      (github_fetch_articles md5_hexdigest http_url up now limit)).
  { unfold github_fetch_articles. destruct (gh_repos up); [|constructor].
    apply github_loop_sorted. }
  split; [exact Hstrict|].
  induction Hstrict as [|a l Hs IH Hall]; [reflexivity|].
  simpl. rewrite IH. destruct l as [|b l']; [reflexivity|].
  simpl. inversion Hall as [|? ? Hb _]; subst.
  destruct (Z.ltb_spec (published_at a) (published_at b)); [lia | reflexivity].
Qed.

Lemma reddit_articles_sorted_by_score_witness :
  exists l,
    fetch_articles
      (RedditScraper accept_url settings scored_rd_upstream (Some "science"))
      0 2 = Ok l
    /\ map id l = ["reddit-b"; "reddit-c"]
    /\ StronglySorted (desc (fun x => or_0 (likes_count x))) l.
Proof.
  eexists. split; [reflexivity|]. split; [reflexivity|].
  apply (reddit_articles_sorted_by_score accept_url scored_rd_upstream settings
           (Some "science") 0 2).
  reflexivity.
Defined.

(* ===================================================================== *)
(** * The registry behind the feed *)
(* ===================================================================== *)

Section RegistryFeedFacts.
Variable md5_hexdigest : string -> string.
Variable http_url : string -> option string.
Variable hn_upstream : Z -> HNUpstream.
Variable gh_upstream : Z -> GitHubUpstream.
Variable rd_upstream : Z -> RedditUpstream.

Lemma registry_scrapers_return (cfg : Settings) (entry : string * Scraper)
  (now limit : Z) :
  reddit_subreddits cfg <> [] ->
  In entry (init_scrapers md5_hexdigest http_url hn_upstream gh_upstream
              rd_upstream cfg) ->
  exists l, fetch_articles (snd entry) now limit = Ok l.
Proof.
  intros Hsubs Hreg. apply init_scrapers_In in Hreg.
  destruct Hreg as [->|[->|(subreddit & ->)]]; try (eexists; reflexivity).
  destruct (RedditScraper_subreddits http_url rd_upstream cfg subreddit
              now limit) as (subs & -> & [[-> _]|(s & -> & _)]);
    apply reddit_fetch_articles_never_raises; [exact Hsubs | discriminate].
Qed.

End RegistryFeedFacts.

(** X11. With at least one configured subreddit, no scraper of the
    registry raises: a pass of [get_news_feed] over the registry that is
    not answered from the cache always merges what the matching scrapers
    return and never falls back to the empty feed of the error handler. *)
Theorem registry_feed_never_degraded (md5_hexdigest : string -> string)
  (http_url : string -> option string) (hn_upstream : Z -> HNUpstream)
  (gh_upstream : Z -> GitHubUpstream) (rd_upstream : Z -> RedditUpstream)
  (cfg : Settings) (category : string) (page limit : Z)
  (force_refresh : bool) (w : World) :
  reddit_subreddits cfg <> [] ->
  fresh_pass category page limit force_refresh w ->
  exists lists,
    fanout_results
      (init_scrapers md5_hexdigest http_url hn_upstream gh_upstream
         rd_upstream cfg) category limit (wall w) = Ok lists
    /\ fst (get_news_feed cfg
              (init_scrapers md5_hexdigest http_url hn_upstream gh_upstream
                 rd_upstream cfg) category page limit force_refresh w)
       = Ok (built_feed lists category page limit (wall w)).
Proof.
  intros Hsubs Hfresh.
  destruct (collect_all_Ok
              (map (fun entry => fetch_articles (snd entry) (wall w) limit)
                 (matching_scrapers
                    (init_scrapers md5_hexdigest http_url hn_upstream
                       gh_upstream rd_upstream cfg) category)))
    as (lists & Hlists).
  { intros r Hr. apply in_map_iff in Hr. destruct Hr as (entry & <- & Hentry).
    unfold matching_scrapers in Hentry. apply filter_In in Hentry.
    apply (registry_scrapers_return md5_hexdigest http_url hn_upstream
             gh_upstream rd_upstream cfg entry (wall w) limit Hsubs),
          Hentry. }
  exists lists. split; [exact Hlists|].
  rewrite fresh_feed_of_results by exact Hfresh.
  unfold fanout_results. rewrite Hlists. reflexivity.
Qed.

Lemma registry_feed_never_degraded_witness :
  exists lists,
    fst (get_news_feed settings default_scrapers "technology" 1 5 false
           initial_world)
    = Ok (built_feed lists "technology" 1 5 0).
Proof.
  destruct (registry_feed_never_degraded sample_digest accept_url
              sample_hn_upstream sample_gh_upstream sample_rd_upstream
              settings "technology" 1 5 false initial_world
              ltac:(discriminate) (or_intror eq_refl))
    as (lists & _ & Hfeed).
  exists lists. exact Hfeed.
Defined.

(** X16. With Reddit enabled and an empty list of subreddits, the base
    Reddit scraper raises on every fetch; it matches ["realtime"], so
    every pass for that category that is not answered from the cache
    returns the empty feed with total 0, whatever the other scrapers
    return. *)
Theorem no_subreddit_empties_the_realtime_feed
  (md5_hexdigest : string -> string) (http_url : string -> option string)
  (hn_upstream : Z -> HNUpstream) (gh_upstream : Z -> GitHubUpstream)
  (rd_upstream : Z -> RedditUpstream) (cfg : Settings) (page limit : Z)
  (force_refresh : bool) (w : World) :
  reddit_enabled cfg = true ->
  reddit_subreddits cfg = [] ->
  fresh_pass "realtime" page limit force_refresh w ->
  fst (get_news_feed cfg
         (init_scrapers md5_hexdigest http_url hn_upstream gh_upstream
            rd_upstream cfg) "realtime" page limit force_refresh w)
  = Ok (mkNewsFeed [] "realtime" page limit 0 (wall w)).
Proof.
  intros Henabled Hsubs Hfresh.
  rewrite fresh_feed_of_results by exact Hfresh.
  assert (Hreg : In ("reddit", RedditScraper http_url cfg rd_upstream None)
                   (init_scrapers md5_hexdigest http_url hn_upstream
                      gh_upstream rd_upstream cfg)).
  { unfold init_scrapers, add_subreddit_scrapers.
    rewrite Henabled, Hsubs. cbn [fold_left].
    pose proof (dict_set_In_new
                  (if github_trending_enabled cfg
                   then dict_set
                          (if hacker_news_enabled cfg
                           then dict_set [] "hacker_news"
                                  (HackerNewsScraper http_url hn_upstream)
                           else [])
                          "github_trending"
                          (GitHubTrendingScraper md5_hexdigest http_url
                             gh_upstream)
                   else if hacker_news_enabled cfg
                        then dict_set [] "hacker_news"
                               (HackerNewsScraper http_url hn_upstream)
                        else [])
                  "reddit" (RedditScraper http_url cfg rd_upstream None))
      as Hin.
    destruct (dict_set _ "reddit" _) as [|x d] eqn:E; [destruct Hin | exact Hin]. }
  destruct (collect_Raise
              (map (fun entry => fetch_articles (snd entry) (wall w) limit)
                 (matching_scrapers
                    (init_scrapers md5_hexdigest http_url hn_upstream
                       gh_upstream rd_upstream cfg) "realtime"))
              (ZeroDivisionError "integer division or modulo by zero"))
    as (e & He).
  { rewrite matching_realtime. apply in_map_iff.
    exists ("reddit", RedditScraper http_url cfg rd_upstream None).
    split; [|exact Hreg].
    apply reddit_without_subreddits_raises, Hsubs. }
  unfold fanout_results. rewrite He. reflexivity.
Qed.

Lemma no_subreddit_empties_the_realtime_feed_witness :
  hn_fetch_articles accept_url (sample_hn_upstream 0) 5 <> []
  /\ fst (get_news_feed no_subreddit
            (init_scrapers sample_digest accept_url sample_hn_upstream
               sample_gh_upstream sample_rd_upstream no_subreddit)
            "realtime" 1 5 false initial_world)
     = Ok (mkNewsFeed [] "realtime" 1 5 0 0).
Proof.
  split; [discriminate|].
  apply (no_subreddit_empties_the_realtime_feed sample_digest accept_url
           sample_hn_upstream sample_gh_upstream sample_rd_upstream
           no_subreddit 1 5 false initial_world eq_refl eq_refl
           (or_intror eq_refl)).
Defined.

(** X14. Over the registry built at start-up, a feed asked for a category
    other than ["realtime"] and not answered from the cache holds only
    articles of that category. *)
Theorem registry_feed_articles_have_the_category
  (md5_hexdigest : string -> string) (http_url : string -> option string)
  (hn_upstream : Z -> HNUpstream) (gh_upstream : Z -> GitHubUpstream)
  (rd_upstream : Z -> RedditUpstream) (cfg : Settings) (wanted : string)
  (page limit : Z) (force_refresh : bool) (w w' : World) (feed : NewsFeed) :
  wanted <> "realtime" ->
  fresh_pass wanted page limit force_refresh w ->
  get_news_feed cfg
    (init_scrapers md5_hexdigest http_url hn_upstream gh_upstream rd_upstream
       cfg) wanted page limit force_refresh w = (Ok feed, w') ->
  forall a, In a (articles feed) -> category a = wanted.
Proof.
  intros Hwanted Hfresh Hrun a Hin.
  destruct (feed_article_origin cfg _ wanted page limit force_refresh w a
              Hfresh (ex_intro _ feed (ex_intro _ w' (conj Hrun Hin))))
    as (k & s & fetched & Hreg & [Hcat|Hcat] & Hfetch & Hin');
    [contradiction|].
  rewrite <- Hcat.
  apply (registry_article_category md5_hexdigest http_url hn_upstream
           gh_upstream rd_upstream cfg (k, s) (wall w) limit fetched a Hreg);
    [simpl; rewrite Hcat; exact Hwanted | exact Hfetch | exact Hin'].
Qed.

Lemma registry_feed_articles_have_the_category_witness :
  exists feed w',
    get_news_feed settings default_scrapers "technology" 1 5 false
      initial_world = (Ok feed, w')
    /\ map id (articles feed)
       = ["hn-1"; "hn-2"; "github-https://github.com/rocq-prover/rocq"]
    /\ forall a, In a (articles feed) -> category a = "technology".
Proof.
  destruct (get_news_feed settings default_scrapers "technology" 1 5 false
              initial_world) as [[feed|e] w'] eqn:E;
    [|vm_compute in E; discriminate].
  exists feed, w'. split; [reflexivity|]. split.
  - pose proof E as E'. vm_compute in E'. injection E' as <- _. reflexivity.
  - apply (registry_feed_articles_have_the_category sample_digest accept_url
             sample_hn_upstream sample_gh_upstream sample_rd_upstream settings
             "technology" 1 5 false initial_world w' feed);
      [discriminate | right; reflexivity | exact E].
Defined.

(* ===================================================================== *)
(** * From the feed to the content, and errors of the scrapers *)
(* ===================================================================== *)

(** X17. After a pass of [get_news_feed] that is not answered from the
    cache (limit between 0 and 1000), the content of an article of the
    page whose id holds a ["-"] is asked without fetching the articles
    again, when the lookup of the article is made within the
    time-to-live: [get_article_content] makes one call only,
    [fetch_article_content] of the first scraper of the registry that
    matches the token of the id, at the instant of that lookup and for the
    URL of an article of the page with that id, and returns its result. *)
Theorem content_of_a_feed_article (cfg : Settings) (scrapers : Registry)
  (category : string) (page limit : Z) (force_refresh : bool) (w w1 : World)
  (feed : NewsFeed) (a : NewsArticle) (d : Z) (k : string) (s : Scraper) :
  fresh_pass category page limit force_refresh w ->
  get_news_feed cfg scrapers category page limit force_refresh w
  = (Ok feed, w1) ->
  0 <= limit <= 1000 ->
  0 <= d ->
  d + next_lag w1 < CACHE_EXPIRATION cfg ->
  In a (articles feed) ->
  contains_char dash (id a) = true ->
  find_scraper (source_token (id a)) scrapers = Some (k, s) ->
  exists a' w2,
    In a' (articles feed)
    /\ id a' = id a
    /\ get_article_content cfg scrapers (id a) (elapse d w1)
       = (fetch_article_content s (wall w1 + d + next_lag w1) (url a'), w2)
    /\ calls w2 = calls w1 ++ [FetchArticleContent k (url a')].
Proof.
  intros Hfresh Hrun Hlimit Hd Hlate Hin Hdash Hfind.
  destruct (feed_article_cached cfg scrapers category page limit force_refresh
              w w1 feed a d Hfresh Hrun Hlimit Hd Hlate Hin)
    as (a' & c & Hget & Hid & Hin').
  eexists a', _. split; [exact Hin'|]. split; [exact Hid|].
  unfold get_article_content, bind. rewrite Hget, Hdash, Hfind.
  split; reflexivity.
Qed.

Lemma content_of_a_feed_article_witness :
  exists w2,
    get_article_content settings sample_scrapers "srcA-1"
      (elapse 600 warm_world)
    = (Ok (Some "srcA body of https://example.com/srcA-1"), w2)
    /\ calls w2
       = calls warm_world
         ++ [FetchArticleContent "srcA" "https://example.com/srcA-1"].
Proof.
  destruct (content_of_a_feed_article settings sample_scrapers "realtime" 1 3
              false initial_world warm_world
              (built_feed [srcA_items; srcB_items] "realtime" 1 3 0)
              (stub_article "srcA-1" 30) 600
              "srcA" (StubScraper "srcA" "technology" srcA_items)
              (or_intror eq_refl) eq_refl ltac:(lia) ltac:(lia)
              ltac:(vm_compute; reflexivity)
              ltac:(vm_compute; left; reflexivity) eq_refl eq_refl)
    as (a' & w2 & Hin & Hid & Hrun & Hcalls).
  assert (Ha' : a' = stub_article "srcA-1" 30).
  { clear Hrun Hcalls. vm_compute in Hin. vm_compute in Hid.
    destruct Hin as [<-|[<-|[<-|[]]]]; try discriminate. reflexivity. }
  subst a'. exists w2. split; [exact Hrun | exact Hcalls].
Defined.

(** The loop of [get_article] stops with the exception when the first
    matching scraper raises. *)
Lemma search_scrapers_raises (cfg : Settings) (article_id : string)
  (l : Registry) (w : World) (k : string) (s : Scraper) (e : PyException) :
  find_scraper (source_token article_id) l = Some (k, s) ->
  fetch_articles s (wall w) 50 = Raise e ->
  search_scrapers cfg article_id l w
  = (Raise e, log_calls w [FetchArticles k 50]).
Proof.
  unfold find_scraper. intros Hfind Hraise.
  induction l as [|[k' s'] l IH]; simpl in Hfind; [discriminate|].
  simpl search_scrapers.
  destruct (routes_to k' (source_token article_id)).
  - injection Hfind as -> ->.
    unfold bind, await_fetch_articles. rewrite Hraise. reflexivity.
  - apply IH, Hfind.
Qed.

(** X18. [get_article] and [get_article_content] are no barrier for the
    errors of the scrapers: after a miss of the article cache, for an id
    with a ["-"], when [fetch_articles] of the first matching scraper
    raises, both raise that exception; the scrapers behind it are not
    tried and no cache is touched. *)
Theorem get_article_propagates_scraper_errors (cfg : Settings)
  (scrapers : Registry) (article_id : string) (w : World) (k : string)
  (s : Scraper) (e : PyException) :
  cache_contains (article_cache w) (timer w) article_id = false ->
  contains_char dash article_id = true ->
  find_scraper (source_token article_id) scrapers = Some (k, s) ->
  fetch_articles s (wall w) 50 = Raise e ->
  (forall force_refresh,
     get_article cfg scrapers article_id force_refresh w
     = (Raise e, log_calls w [FetchArticles k 50]))
  /\ get_article_content cfg scrapers article_id w
     = (Raise e, log_calls w [FetchArticles k 50]).
Proof.
  intros Hmiss Hdash Hfind Hraise.
  assert (Hget : forall force_refresh,
             get_article cfg scrapers article_id force_refresh w
             = (Raise e, log_calls w [FetchArticles k 50])).
  { intros fr. rewrite get_article_uncached by (right; exact Hmiss).
    rewrite Hdash. apply (search_scrapers_raises cfg _ _ _ _ _ _ Hfind Hraise). }
  split; [exact Hget|].
  unfold get_article_content, bind. rewrite Hget. reflexivity.
Qed.

Lemma get_article_propagates_scraper_errors_witness :
  get_article_content settings degraded_scrapers "down-1" initial_world
  = (Raise (Exception "upstream unreachable"),
     log_calls initial_world [FetchArticles "down" 50]).
Proof.
  apply (get_article_propagates_scraper_errors settings degraded_scrapers
           "down-1" initial_world "down" (RaisingScraper "down" "technology")
           (Exception "upstream unreachable") eq_refl eq_refl eq_refl eq_refl).
Defined.

(* ===================================================================== *)
(** * Between the membership test and the lookup *)
(* ===================================================================== *)

(** X19. [get_news_feed] tests the membership of the key and then looks
    the key up, each with a reading of the timer of its own, outside the
    [try]. When the item is live at the test and has expired at the
    lookup, the [KeyError] of the lookup leaves [get_news_feed]: no
    scraper is called, no feed is built, and the bindings of both caches
    stay. [get_category_summary], which has no handler, then raises with
    its first pass. *)
Theorem feed_expiring_before_the_lookup (cfg : Settings) (scrapers : Registry)
  (category : string) (page limit : Z) (w : World) :
  cache_contains (news_cache w) (timer w) (cache_key category page limit)
  = true ->
  cache_contains (news_cache w) (timer w + next_lag w)
    (cache_key category page limit) = false ->
  exists w',
    get_news_feed cfg scrapers category page limit false w
    = (Raise (KeyError (cache_key category page limit)), w')
    /\ calls w' = calls w
    /\ timer w' = timer w + next_lag w
    /\ article_cache w' = article_cache w
    /\ (forall key, getlink (news_cache w') key = getlink (news_cache w) key)
    /\ (forall rest,
          page = 1 -> limit = 1 -> NEWS_CATEGORIES cfg = category :: rest ->
          get_category_summary cfg scrapers w
          = (Raise (KeyError (cache_key category page limit)), w')).
Proof.
  intros Hhit Hexp. destruct (cache_getitem_live _ _ _ Hhit) as (l & Hl & _).
  assert (Hlive : timer w < link_expires l).
  { unfold cache_contains in Hhit. rewrite Hl in Hhit. apply Z.ltb_lt, Hhit. }
  pose proof (get_news_feed_lookup cfg scrapers category page limit w l Hl Hlive)
    as Hrun.
  unfold cache_contains in Hexp. rewrite Hl in Hexp. rewrite Hexp in Hrun.
  eexists. split; [exact Hrun|]. cbn [calls timer article_cache news_cache].
  split; [reflexivity|]. split; [reflexivity|]. split; [reflexivity|].
  split; [intros key; apply getlink_moved, Hl|].
  intros rest -> -> Hcats. unfold get_category_summary. rewrite Hcats.
  cbn [summarize]. unfold bind at 1. rewrite Hrun. reflexivity.
Qed.

Lemma feed_expiring_before_the_lookup_witness :
  exists w',
    get_news_feed settings sample_scrapers "realtime" 1 3 false racing_world
    = (Raise (KeyError "realtime_1_3"), w')
    /\ calls w' = calls racing_world.
Proof.
  destruct (feed_expiring_before_the_lookup settings sample_scrapers "realtime"
              1 3 racing_world ltac:(vm_compute; reflexivity)
              ltac:(vm_compute; reflexivity))
    as (w' & Hrun & Hcalls & _).
  exists w'. split; [exact Hrun | exact Hcalls].
Defined.

(** X20. [get_article] makes the same two readings, and has no handler:
    when the article is live at the membership test and has expired at
    the lookup, [get_article] raises the [KeyError] of the lookup, and so
    does [get_article_content], which calls it first; no scraper is
    called and the bindings of both caches stay. This is so for an id
    that routes to no scraper as well as for one that does. *)
Theorem article_expiring_before_the_lookup (cfg : Settings)
  (scrapers : Registry) (article_id : string) (w : World) :
  cache_contains (article_cache w) (timer w) article_id = true ->
  cache_contains (article_cache w) (timer w + next_lag w) article_id = false ->
  exists w',
    get_article cfg scrapers article_id false w
    = (Raise (KeyError article_id), w')
    /\ get_article_content cfg scrapers article_id w
       = (Raise (KeyError article_id), w')
    /\ calls w' = calls w
    /\ timer w' = timer w + next_lag w
    /\ news_cache w' = news_cache w
    /\ (forall key,
          getlink (article_cache w') key = getlink (article_cache w) key).
Proof.
  intros Hhit Hexp. destruct (cache_getitem_live _ _ _ Hhit) as (l & Hl & _).
  assert (Hlive : timer w < link_expires l).
  { unfold cache_contains in Hhit. rewrite Hl in Hhit. apply Z.ltb_lt, Hhit. }
  pose proof (get_article_lookup cfg scrapers article_id w l Hl Hlive) as Hrun.
  unfold cache_contains in Hexp. rewrite Hl in Hexp. rewrite Hexp in Hrun.
  eexists. split; [exact Hrun|]. split.
  { unfold get_article_content, bind. rewrite Hrun. reflexivity. }
  cbn [calls timer article_cache news_cache].
  split; [reflexivity|]. split; [reflexivity|]. split; [reflexivity|].
  intros key. apply getlink_moved, Hl.
Qed.

Lemma article_expiring_before_the_lookup_witness :
  find_scraper (source_token "hn-1") default_scrapers = None
  /\ exists w',
       get_article_content settings default_scrapers "hn-1"
         default_racing_world
       = (Raise (KeyError "hn-1"), w')
       /\ calls w' = calls default_racing_world.
Proof.
  split; [reflexivity|].
  destruct (article_expiring_before_the_lookup settings default_scrapers "hn-1"
              default_racing_world
              ltac:(vm_compute; reflexivity) ltac:(vm_compute; reflexivity))
    as (w' & _ & Hrun & Hcalls & _).
  exists w'. split; [exact Hrun | exact Hcalls].
Defined.

(* ===================================================================== *)
(** * What the article cache holds, and ids without a separator *)
(* ===================================================================== *)

Section OnlyFacts.
Variable cfg : Settings.
Variable scrapers : Registry.
Variable P : NewsArticle -> Prop.
Hypothesis Hreturn : scrapers_return P scrapers.

Lemma only_setitem (maxsize : nat) (ttl : Z) (c : TTLCache NewsArticle)
  (now : Z) (key : string) (a : NewsArticle) :
  caches_only P c -> P a ->
  caches_only P (snd (cache_setitem maxsize ttl c now key a)).
Proof.
  unfold caches_only. rewrite !Forall_forall. intros Hc Ha.
  assert (Hlive : forall l, In l (cache_expire c now) -> P (link_value l)).
  { intros l Hl. apply cache_expire_In in Hl. apply Hc, Hl. }
  unfold cache_setitem. destruct (maxsize <? 1)%nat; cbn [snd]; [exact Hlive|].
  intros l Hl. apply in_app_or in Hl. destruct Hl as [Hl|[<-|[]]]; [|exact Ha].
  destruct (getlink (cache_expire c now) key).
  - apply unlink_In in Hl. apply Hlive, Hl.
  - apply skipn_In in Hl. apply Hlive, Hl.
Qed.

Lemma only_getitem (c : TTLCache NewsArticle) (now : Z) (key : string) :
  caches_only P c -> caches_only P (snd (cache_getitem c now key)).
Proof.
  unfold caches_only. rewrite !Forall_forall. intros Hc.
  unfold cache_getitem. destruct (getlink c key) as [l0|] eqn:E; cbn [snd];
    [|exact Hc].
  intros l Hl. apply in_app_or in Hl. destruct Hl as [Hl|[<-|[]]].
  - apply unlink_In in Hl. apply Hc, Hl.
  - apply Hc. apply (find_some _ _ E).
Qed.

Lemma only_store_articles (c : TTLCache NewsArticle) (now : Z)
  (l : list NewsArticle) :
  caches_only P c -> Forall P l -> caches_only P (store_articles cfg c now l).
Proof.
  revert c. induction l as [|a l IH]; intros c Hc Hl; [exact Hc|].
  inversion Hl as [|? ? Ha Hl']; subst.
  change (caches_only P
            (store_articles cfg
               (snd (cache_setitem article_cache_maxsize (CACHE_EXPIRATION cfg)
                       c now (id a) a)) now l)).
  apply IH; [|exact Hl']. apply only_setitem; assumption.
Qed.

Lemma only_get_news_feed (category : string) (page limit : Z)
  (force_refresh : bool) (w : World) :
  caches_only P (article_cache w) ->
  caches_only P
    (article_cache
       (snd (get_news_feed cfg scrapers category page limit force_refresh w))).
Proof.
  intros Hc.
  destruct (cached_or_fresh category page limit force_refresh w)
    as [[-> Hhit]|Hfresh].
  - rewrite (get_news_feed_cached cfg scrapers) by exact Hhit.
    unfold news_cache_getitem. destruct (cache_getitem _ _ _) as [r c].
    exact Hc.
  - destruct (fresh_pass_cases cfg scrapers category page limit force_refresh w
                Hfresh)
      as [[_ Hrun]|[(e & _ & Hrun)|(lists & _ & _ & Hrun)]].
    + rewrite Hrun. exact Hc.
    + rewrite Hrun. exact Hc.
    + pose proof Hrun as Hrun'. rewrite Hrun. unfold after_store.
      cbn [snd article_cache].
      apply only_store_articles; [exact Hc|]. apply Forall_forall. intros a Ha.
      destruct (feed_article_origin cfg scrapers category page limit
                  force_refresh w a Hfresh)
        as (k & s & fetched & Hin & _ & Hfetch & Hina).
      { eexists _, _. split; [exact Hrun' | exact Ha]. }
      apply (Hreturn k s _ _ _ _ Hin Hfetch Hina).
Qed.

Lemma only_search_scrapers (article_id : string) (l : Registry) (w : World) :
  (forall entry, In entry l -> In entry scrapers) ->
  caches_only P (article_cache w) ->
  caches_only P (article_cache (snd (search_scrapers cfg article_id l w))).
Proof.
  revert w. induction l as [|[k s] l IH]; intros w Hsub Hc; simpl; [exact Hc|].
  assert (Hsub' : forall entry, In entry l -> In entry scrapers).
  { intros entry H. apply Hsub. right. exact H. }
  destruct (routes_to k (source_token article_id)); [|apply IH; assumption].
  unfold bind at 1, await_fetch_articles at 1.
  destruct (fetch_articles s (wall w) 50) as [found|e] eqn:Hfetch; [|exact Hc].
  destruct (find _ found) as [a0|] eqn:E.
  - unfold bind, article_cache_setitem.
    cbn [timer wall news_cache article_cache calls lags].
    assert (Ha0 : P a0).
    { apply (Hreturn k s _ _ _ _ (Hsub _ (or_introl eq_refl)) Hfetch).
      apply (find_some _ _ E). }
    pose proof (only_setitem article_cache_maxsize (CACHE_EXPIRATION cfg)
                  (article_cache w) (timer w) article_id a0 Hc Ha0) as Hset.
    destruct (cache_setitem _ _ _ _ _ _) as [[u|e] c]; exact Hset.
  - apply IH; [exact Hsub' | exact Hc].
Qed.

Lemma only_get_article (article_id : string) (force_refresh : bool)
  (w : World) :
  caches_only P (article_cache w) ->
  caches_only P
    (article_cache (snd (get_article cfg scrapers article_id force_refresh w))).
Proof.
  intros Hc. unfold get_article, bind at 1, article_cache_contains.
  destruct (negb force_refresh && _).
  - unfold bind, time_passes, article_cache_getitem, later.
    cbn [timer wall news_cache article_cache calls lags].
    pose proof (only_getitem (article_cache w) (timer w + next_lag w)
                  article_id Hc) as Hget.
    destruct (cache_getitem _ _ _) as [[a|e] c]; exact Hget.
  - destruct (negb (contains_char dash article_id)); [exact Hc|].
    apply only_search_scrapers; [intros entry H; exact H | exact Hc].
Qed.

Lemma only_get_article_content (article_id : string) (w : World) :
  caches_only P (article_cache w) ->
  caches_only P
    (article_cache (snd (get_article_content cfg scrapers article_id w))).
Proof.
  intros Hc. unfold get_article_content, bind.
  pose proof (only_get_article article_id false w Hc) as Hget.
  destruct (get_article cfg scrapers article_id false w) as [[[a|]|e] w1];
    try exact Hget.
  destruct (negb (contains_char dash article_id)); [exact Hget|].
  destruct (find_scraper _ scrapers) as [[k s]|]; exact Hget.
Qed.

Lemma only_get_source_news (source_id category : string) (limit : Z)
  (force_refresh : bool) (w : World) :
  caches_only P (article_cache w) ->
  caches_only P
    (article_cache
       (snd (get_source_news cfg scrapers source_id category limit
               force_refresh w))).
Proof.
  intros Hc. rewrite get_source_news_runs.
  destruct (found_scraper scrapers source_id) as [[k s]|] eqn:Hfound;
    [|exact Hc].
  destruct (skipped category s); [exact Hc|].
  destruct (fetch_articles s (wall w) limit) as [fetched|e] eqn:Hfetch;
    [|exact Hc].
  cbn [snd article_cache]. apply only_store_articles; [exact Hc|].
  apply Forall_forall. intros a Ha.
  destruct (found_scraper_key scrapers _ _ _ Hfound) as [-> Hin].
  apply (Hreturn source_id s _ _ _ _ Hin Hfetch Ha).
Qed.

Lemma only_summarize (categories : list string) (w : World) :
  caches_only P (article_cache w) ->
  caches_only P (article_cache (snd (summarize cfg scrapers categories w))).
Proof.
  revert w. induction categories as [|c l IH]; intros w Hc; simpl;
    [exact Hc|].
  unfold bind at 1.
  pose proof (only_get_news_feed c 1 1 false w Hc) as Hfeed.
  destruct (get_news_feed cfg scrapers c 1 1 false w) as [[feed|e] w1];
    [|exact Hfeed].
  unfold bind at 1, time_passes. unfold bind at 1.
  pose proof (IH (later w1) Hfeed) as Hrest.
  destruct (summarize cfg scrapers l (later w1)) as [[rest|e] w2]; exact Hrest.
Qed.

(** In every world that the service reaches, the article cache holds only
    articles with a property that all articles returned by the scrapers of
    the registry have. *)
Lemma reachable_only (w : World) :
  reachable cfg scrapers w -> caches_only P (article_cache w).
Proof.
  induction 1 as [t0 w0 l0|d w _ _ IH|r w _ IH].
  - constructor.
  - exact IH.
  - destruct r; simpl.
    + apply only_get_news_feed, IH.
    + apply only_get_article, IH.
    + apply only_get_article_content, IH.
    + apply only_summarize, IH.
    + apply only_get_source_news, IH.
Qed.

End OnlyFacts.

(** An id without ["-"] is not in a cache that is keyed by id and holds
    only articles whose id has one. *)
Lemma dashless_id_misses (c : TTLCache NewsArticle) (article_id : string)
  (now : Z) :
  keyed_by_id c -> caches_only has_dash c ->
  contains_char dash article_id = false ->
  cache_contains c now article_id = false.
Proof.
  unfold keyed_by_id, caches_only, has_dash. rewrite !Forall_forall.
  intros Hkeyed Honly Hdash. unfold cache_contains.
  destruct (getlink c article_id) as [l|] eqn:Hl; [|reflexivity].
  pose proof (find_some _ _ Hl) as [Hin _].
  pose proof (getlink_key _ _ _ Hl) as Hkey.
  pose proof (Honly l Hin) as Hhas. rewrite <- (Hkeyed l Hin), Hkey in Hhas.
  congruence.
Qed.

(** Over scrapers that give every article an id with a ["-"], an id
    without one is never in the article cache of the service. *)
Lemma dashless_id_never_cached (cfg : Settings) (scrapers : Registry)
  (article_id : string) (w : World) (now : Z) :
  scrapers_return has_dash scrapers ->
  reachable cfg scrapers w ->
  contains_char dash article_id = false ->
  cache_contains (article_cache w) now article_id = false.
Proof.
  intros Hreturn Hreach Hdash. apply dashless_id_misses; [| |exact Hdash].
  - apply (reachable_keyed cfg scrapers w Hreach).
  - apply (reachable_only cfg scrapers has_dash Hreturn w Hreach).
Qed.

(** The scrapers of the registry give every article an id with a ["-"]. *)
Lemma init_scrapers_ids_have_a_dash (md5_hexdigest : string -> string)
  (http_url : string -> option string) (hn_upstream : Z -> HNUpstream)
  (gh_upstream : Z -> GitHubUpstream) (rd_upstream : Z -> RedditUpstream)
  (cfg : Settings) :
  scrapers_return has_dash
    (init_scrapers md5_hexdigest http_url hn_upstream gh_upstream rd_upstream
       cfg).
Proof.
  intros k s now limit fetched a Hreg Hfetch Hin. unfold has_dash.
  apply init_scrapers_In in Hreg. simpl snd in Hreg.
  destruct Hreg as [->|[->|(subreddit & ->)]].
  - simpl in Hfetch. injection Hfetch as <-.
    apply hn_fetch_articles_In in Hin. destruct Hin as (story & Hstory).
    rewrite (hn_article_id _ _ _ Hstory). reflexivity.
  - simpl in Hfetch. injection Hfetch as <-.
    unfold github_fetch_articles in Hin.
    destruct (gh_repos (gh_upstream now)); [|destruct Hin].
    apply github_loop_In in Hin. destruct Hin as (i & repo & Hrepo).
    destruct (github_article_id _ _ _ _ _ _ Hrepo) as (rel & _ & ->).
    reflexivity.
  - destruct (RedditScraper_fetch_articles http_url rd_upstream cfg subreddit
                now limit) as (subs & Heq).
    rewrite Heq in Hfetch.
    destruct (reddit_fetch_articles_In _ _ _ _ _ _ Hfetch Hin)
      as (sub & post & Hpost).
    destruct (reddit_post_step_id _ _ _ _ Hpost) as (pid & _ & ->).
    reflexivity.
Qed.

(** How [get_article] and [get_article_content] go for an id without
    ["-"] that misses the article cache. *)
Lemma dashless_id_uncached (cfg : Settings) (scrapers : Registry)
  (article_id : string) (w : World) :
  contains_char dash article_id = false ->
  (forall force_refresh,
     force_refresh = true
     \/ cache_contains (article_cache w) (timer w) article_id = false ->
     get_article cfg scrapers article_id force_refresh w = (Ok None, w))
  /\ (cache_contains (article_cache w) (timer w) article_id = false ->
      get_article_content cfg scrapers article_id w = (Ok None, w)).
Proof.
  intros Hdash.
  assert (Hmiss : forall force_refresh,
             force_refresh = true
             \/ cache_contains (article_cache w) (timer w) article_id = false ->
             get_article cfg scrapers article_id force_refresh w = (Ok None, w)).
  { intros fr H. rewrite get_article_uncached by exact H.
    rewrite Hdash. reflexivity. }
  split; [exact Hmiss|].
  intros H. unfold get_article_content, bind.
  rewrite (Hmiss false (or_intror H)). reflexivity.
Qed.

(** C10. For an article id without ["-"]: after a miss of the article
    cache (or with [force_refresh]), [get_article] returns [None] and
    leaves the world as it is: no scraper is called and no cache is
    touched; after a miss, so does [get_article_content]. The miss is the
    only case that the service meets when every scraper of the registry
    gives its articles ids with a ["-"], as the scrapers of
    [init_scrapers] do: in every world that the service reaches, both
    calls return [None] and leave the world as it is. In no world does
    [get_article_content] call a scraper for such an id. Over other
    scrapers, when the id is in the article cache and still live at the
    lookup, [get_article_content] returns [None] as well, and the lookup
    marks the item as used: it moves to the recent end of the article
    cache, and every binding of both caches stays. *)
Theorem article_id_without_dash (cfg : Settings) (scrapers : Registry)
  (article_id : string) (w : World) :
  contains_char dash article_id = false ->
  (forall force_refresh,
     force_refresh = true
     \/ cache_contains (article_cache w) (timer w) article_id = false ->
     get_article cfg scrapers article_id force_refresh w = (Ok None, w))
  /\ (cache_contains (article_cache w) (timer w) article_id = false ->
      get_article_content cfg scrapers article_id w = (Ok None, w))
  /\ (scrapers_return has_dash scrapers ->
      reachable cfg scrapers w ->
      (forall force_refresh,
         get_article cfg scrapers article_id force_refresh w = (Ok None, w))
      /\ get_article_content cfg scrapers article_id w = (Ok None, w))
  /\ calls (snd (get_article_content cfg scrapers article_id w)) = calls w
  /\ (forall l,
        getlink (article_cache w) article_id = Some l ->
        timer w + next_lag w < link_expires l ->
        fst (get_article_content cfg scrapers article_id w) = Ok None
        /\ news_cache (snd (get_article_content cfg scrapers article_id w))
           = news_cache w
        /\ article_cache (snd (get_article_content cfg scrapers article_id w))
           = unlink (article_cache w) article_id ++ [l]
        /\ forall key,
             getlink
               (article_cache (snd (get_article_content cfg scrapers article_id w)))
               key
             = getlink (article_cache w) key).
Proof.
  intros Hdash.
  destruct (dashless_id_uncached cfg scrapers article_id w Hdash)
    as [Hmiss Hcontent].
  split; [exact Hmiss|]. split; [exact Hcontent|]. split; [|split].
  - intros Hreturn Hreach.
    pose proof (dashless_id_never_cached cfg scrapers article_id w (timer w)
                  Hreturn Hreach Hdash) as Hnever.
    split; [intros fr; apply Hmiss; right; exact Hnever|].
    apply Hcontent, Hnever.
  - destruct (cache_contains (article_cache w) (timer w) article_id) eqn:Hhit.
    + destruct (cache_getitem_live _ _ _ Hhit) as (l & Hl & _).
      assert (Hlive : timer w < link_expires l).
      { unfold cache_contains in Hhit. rewrite Hl in Hhit.
        apply Z.ltb_lt, Hhit. }
      unfold get_article_content, bind.
      rewrite (get_article_lookup cfg scrapers article_id w l Hl Hlive), Hdash.
      destruct (timer w + next_lag w <? link_expires l); reflexivity.
    + rewrite (Hcontent eq_refl). reflexivity.
  - intros l Hl Hlive. pose proof (next_lag_nonneg w) as Hlag.
    unfold get_article_content, bind.
    rewrite (get_article_lookup cfg scrapers article_id w l Hl) by lia.
    destruct (Z.ltb_spec (timer w + next_lag w) (link_expires l)) as [_|Hexp];
      [|lia].
    rewrite Hdash. cbn [negb fst snd news_cache article_cache].
    repeat split; try reflexivity.
    intros key. apply getlink_moved, Hl.
Qed.

Lemma article_id_without_dash_witness :
  get_article settings sample_scrapers "srcA1" true initial_world
  = (Ok None, initial_world)
  /\ get_article_content settings sample_scrapers "srcA1" initial_world
     = (Ok None, initial_world).
Proof.
  destruct (article_id_without_dash settings sample_scrapers "srcA1"
              initial_world eq_refl) as (Harticle & Hcontent & _).
  split; [apply Harticle; left; reflexivity | apply Hcontent; reflexivity].
Defined.

(** X21. Over the registry of [init_scrapers], in every world that the
    service reaches, every article of the article cache was returned by a
    scraper of the registry and has an id with a ["-"]. An id without
    ["-"] is therefore in the article cache at no instant, and for such
    an id [get_article], with or without [force_refresh], and
    [get_article_content] return [None] and leave the world as it is. *)
Theorem registry_caches_what_its_scrapers_return
  (md5_hexdigest : string -> string) (http_url : string -> option string)
  (hn_upstream : Z -> HNUpstream) (gh_upstream : Z -> GitHubUpstream)
  (rd_upstream : Z -> RedditUpstream) (cfg : Settings) (w : World) :
  reachable cfg
    (init_scrapers md5_hexdigest http_url hn_upstream gh_upstream rd_upstream
       cfg) w ->
  caches_only
    (produced_by md5_hexdigest http_url hn_upstream gh_upstream rd_upstream cfg)
    (article_cache w)
  /\ caches_only has_dash (article_cache w)
  /\ forall article_id,
       contains_char dash article_id = false ->
       (forall now, cache_contains (article_cache w) now article_id = false)
       /\ (forall force_refresh,
             get_article cfg
               (init_scrapers md5_hexdigest http_url hn_upstream gh_upstream
                  rd_upstream cfg) article_id force_refresh w
             = (Ok None, w))
       /\ get_article_content cfg
            (init_scrapers md5_hexdigest http_url hn_upstream gh_upstream
               rd_upstream cfg) article_id w
          = (Ok None, w).
Proof.
  intros Hreach.
  pose proof (init_scrapers_ids_have_a_dash md5_hexdigest http_url hn_upstream
                gh_upstream rd_upstream cfg) as Hdashes.
  split; [|split].
  - apply (reachable_only cfg
             (init_scrapers md5_hexdigest http_url hn_upstream gh_upstream
                rd_upstream cfg)
             (produced_by md5_hexdigest http_url hn_upstream gh_upstream
                rd_upstream cfg)); [|exact Hreach].
    intros k s now limit fetched a Hin Hfetch Ha.
    exists k, s, now, limit, fetched. repeat split; assumption.
  - apply (reachable_only cfg _ has_dash Hdashes w Hreach).
  - intros article_id Hdash.
    assert (Hnever : forall now,
               cache_contains (article_cache w) now article_id = false).
    { intros now. apply (dashless_id_never_cached cfg _ article_id w now
                           Hdashes Hreach Hdash). }
    destruct (dashless_id_uncached cfg
                (init_scrapers md5_hexdigest http_url hn_upstream gh_upstream
                   rd_upstream cfg) article_id w Hdash) as [Hmiss Hcontent].
    split; [exact Hnever|]. split.
    + intros fr. apply Hmiss. right. apply Hnever.
    + apply Hcontent, Hnever.
Qed.

(** The world after a feed request is reached when the world before is. *)
Lemma reachable_after_feed (cfg : Settings) (scrapers : Registry)
  (category : string) (page limit : Z) (force_refresh : bool) (w : World) :
  reachable cfg scrapers w ->
  reachable cfg scrapers
    (snd (get_news_feed cfg scrapers category page limit force_refresh w)).
Proof.
  intros Hreach.
  exact (reachable_serve cfg scrapers
           (NewsFeedRequest category page limit force_refresh) w Hreach).
Qed.

Lemma registry_caches_what_its_scrapers_return_witness :
  caches_only has_dash (article_cache default_warm_world)
  /\ get_article_content settings default_scrapers "hn1" default_warm_world
     = (Ok None, default_warm_world).
Proof.
  assert (Hreach : reachable settings default_scrapers default_warm_world).
  { unfold default_warm_world. apply reachable_after_feed.
    apply (reachable_start settings default_scrapers 0 0 []). }
  destruct (registry_caches_what_its_scrapers_return sample_digest accept_url
              sample_hn_upstream sample_gh_upstream sample_rd_upstream settings
              default_warm_world Hreach) as (_ & Hdashes & Hnone).
  split; [exact Hdashes|].
  destruct (Hnone "hn1" eq_refl) as (_ & _ & Hcontent). exact Hcontent.
Defined.
